(** * Session and credential cache of the AIDA chat platform

    A shallow embedding of [mongodb_manager.py], [session_manager.py] and the
    session routes of [aida_api_server.py], with the properties of the
    session store, the restoration matcher, the live-agent cache, the rate
    limiter and the sweeper.

    Conventions of the embedding.
    - A Python [str] is a [string] whose characters are code points below 256.
    - A [datetime] is a [Z]: the number of microseconds since 1970-01-01
      00:00:00 of the naive calendar; a [timedelta] is the difference of two
      such numbers.  The calendar range of [datetime] is modelled where a
      date is computed from an argument of the caller (the cut-off of the
      sweep); readings of the clock are taken to lie more than 30 days inside
      it.  The rounding of the document store is not modelled.
    - A MongoDB collection is the list of its documents in insertion order.
    - Values drawn from outside (the clock, [uuid.uuid4()], the outcome of the
      agent constructor and of [agent.chat]) are arguments of the functions
      that draw them. *)

From Stdlib Require Import ZArith List Ascii String Lia Permutation Bool
  Sorted.
From stdpp Require Import gmap strings list.

Import ListNotations.
Local Open Scope string_scope.
Local Open Scope Z_scope.

(** ** Python built-ins on [str] *)

Module Py.

Definition ord (c : ascii) : Z := Z.of_N (N_of_ascii c).
Definition chr (z : Z) : ascii := ascii_of_N (Z.to_N z).

(** [str.lower] on one code point below 256: the letters A-Z and the
    capital letters of Latin-1 (U+00C0..U+00DE except the sign U+00D7). *)
Definition lower_char (c : ascii) : ascii :=
  let n := ord c in
  if ((65 <=? n) && (n <=? 90))
     || ((192 <=? n) && (n <=? 222) && negb (n =? 215))
  then chr (n + 32) else c.

Fixpoint lower (s : string) : string :=
  match s with
  | EmptyString => EmptyString
  | String c r => String (lower_char c) (lower r)
  end.

Definition is_empty (s : string) : bool :=
  match s with EmptyString => true | String _ _ => false end.

(** [s.rstrip(c)] for a one-character argument. *)
Fixpoint rstrip_char (c : ascii) (s : string) : string :=
  match s with
  | EmptyString => EmptyString
  | String a r =>
      let r' := rstrip_char c r in
      if is_empty r' && Ascii.eqb a c then EmptyString else String a r'
  end.

(** [str.isspace] on one code point below 256. *)
Definition isspace (c : ascii) : bool :=
  let n := ord c in
  ((9 <=? n) && (n <=? 13)) || ((28 <=? n) && (n <=? 32))
  || (n =? 133) || (n =? 160).

Fixpoint lstrip (s : string) : string :=
  match s with
  | EmptyString => EmptyString
  | String a r => if isspace a then lstrip r else s
  end.

Fixpoint rstrip (s : string) : string :=
  match s with
  | EmptyString => EmptyString
  | String a r =>
      let r' := rstrip r in
      if is_empty r' && isspace a then EmptyString else String a r'
  end.

(** [s.strip()] *)
Definition strip (s : string) : string := rstrip (lstrip s).

(** [len(s)] *)
Definition len (s : string) : Z := Z.of_nat (String.length s).

(** [s[:n]] for a non-negative [n]. *)
Definition prefix (n : nat) (s : string) : string := String.substring 0 n s.

(** Truth value of an optional string: [None] and [''] are false. *)
Definition truthy (o : option string) : bool :=
  match o with
  | Some s => negb (is_empty s)
  | None => false
  end.

(** [a or b] on optional strings. *)
Definition or_else (a b : option string) : option string :=
  if truthy a then a else b.

(** [s.encode()]: UTF-8 of code points below 256. *)
Fixpoint encode (s : string) : list Z :=
  match s with
  | EmptyString => []
  | String c r =>
      let n := ord c in
      if n <? 128 then n :: encode r
      else Z.lor 192 (Z.shiftr n 6) :: Z.lor 128 (Z.land n 63) :: encode r
  end.

End Py.

(** ** [hashlib]: SHA-256 and MD5 on byte strings *)

Module Hashlib.

Definition mask32 (x : Z) : Z := Z.land x 4294967295.
Definition add32 (a b : Z) : Z := mask32 (a + b).
Definition not32 (x : Z) : Z := Z.lxor x 4294967295.
Definition rotr32 (n x : Z) : Z :=
  Z.lor (Z.shiftr x n) (mask32 (Z.shiftl x (32 - n))).
Definition rotl32 (n x : Z) : Z := rotr32 (32 - n) x.

Definition hex_digit (d : Z) : ascii :=
  if d <? 10 then Py.chr (48 + d) else Py.chr (87 + d).

Definition hex_byte (b : Z) : string :=
  String (hex_digit (Z.shiftr b 4)) (String (hex_digit (Z.land b 15)) EmptyString).

Definition hex_bytes (l : list Z) : string :=
  fold_right (fun b acc => String.append (hex_byte b) acc) EmptyString l.

(** The [n] low bytes of [x], most significant first. *)
Fixpoint be_bytes (n : nat) (x : Z) : list Z :=
  match n with
  | O => []
  | S k => Z.land (Z.shiftr x (8 * Z.of_nat k)) 255 :: be_bytes k x
  end.

Definition le_bytes (n : nat) (x : Z) : list Z := rev (be_bytes n x).

Definition be_word (l : list Z) : Z :=
  fold_left (fun acc b => Z.lor (Z.shiftl acc 8) b) l 0.

Definition le_word (l : list Z) : Z := be_word (rev l).

(** Cut a list into pieces of [n] elements; [fuel] bounds the number of
    pieces. *)
Fixpoint chunks {A} (fuel n : nat) (l : list A) : list (list A) :=
  match fuel with
  | O => []
  | S f =>
      match l with
      | [] => []
      | _ => firstn n l :: chunks f n (skipn n l)
      end
  end.

Definition chunk {A} (n : nat) (l : list A) : list (list A) :=
  chunks (S (List.length l)) n l.

(** Message padding common to both functions, up to the byte order of the
    trailing bit length. *)
Definition pad (len_bytes : nat -> Z -> list Z) (msg : list Z) : list Z :=
  let n := Z.of_nat (List.length msg) in
  msg ++ [128] ++ repeat 0 (Z.to_nat ((55 - n) mod 64)) ++ len_bytes 8%nat (8 * n).

(** *** SHA-256 *)

Definition sha256_k : list Z :=
  [1116352408; 1899447441; 3049323471; 3921009573; 961987163; 1508970993;
   2453635748; 2870763221; 3624381080; 310598401; 607225278; 1426881987;
   1925078388; 2162078206; 2614888103; 3248222580; 3835390401; 4022224774;
   264347078; 604807628; 770255983; 1249150122; 1555081692; 1996064986;
   2554220882; 2821834349; 2952996808; 3210313671; 3336571891; 3584528711;
   113926993; 338241895; 666307205; 773529912; 1294757372; 1396182291;
   1695183700; 1986661051; 2177026350; 2456956037; 2730485921; 2820302411;
   3259730800; 3345764771; 3516065817; 3600352804; 4094571909; 275423344;
   430227734; 506948616; 659060556; 883997877; 958139571; 1322822218;
   1537002063; 1747873779; 1955562222; 2024104815; 2227730452; 2361852424;
   2428436474; 2756734187; 3204031479; 3329325298].

Definition sha256_init : list Z :=
  [1779033703; 3144134277; 1013904242; 2773480762;
   1359893119; 2600822924; 528734635; 1541459225].

Definition ssig0 (x : Z) : Z :=
  Z.lxor (Z.lxor (rotr32 7 x) (rotr32 18 x)) (Z.shiftr x 3).
Definition ssig1 (x : Z) : Z :=
  Z.lxor (Z.lxor (rotr32 17 x) (rotr32 19 x)) (Z.shiftr x 10).
Definition bsig0 (x : Z) : Z :=
  Z.lxor (Z.lxor (rotr32 2 x) (rotr32 13 x)) (rotr32 22 x).
Definition bsig1 (x : Z) : Z :=
  Z.lxor (Z.lxor (rotr32 6 x) (rotr32 11 x)) (rotr32 25 x).
Definition ch (x y z : Z) : Z := Z.lxor (Z.land x y) (Z.land (not32 x) z).
Definition maj (x y z : Z) : Z :=
  Z.lxor (Z.lxor (Z.land x y) (Z.land x z)) (Z.land y z).

(** The message schedule, latest word first. *)
Fixpoint sha256_schedule (n : nat) (rw : list Z) : list Z :=
  match n with
  | O => rw
  | S k =>
      let w := add32 (add32 (ssig1 (nth 1 rw 0)) (nth 6 rw 0))
                     (add32 (ssig0 (nth 14 rw 0)) (nth 15 rw 0)) in
      sha256_schedule k (w :: rw)
  end.

Definition sha256_round (st : list Z) (kw : Z * Z) : list Z :=
  match st with
  | [a; b; c; d; e; f; g; h] =>
      let t1 := add32 (add32 (add32 h (bsig1 e)) (ch e f g))
                      (add32 (fst kw) (snd kw)) in
      let t2 := add32 (bsig0 a) (maj a b c) in
      [add32 t1 t2; a; b; c; add32 d t1; e; f; g]
  | _ => st
  end.

Definition sha256_block (h : list Z) (block : list Z) : list Z :=
  let w16 := List.map be_word (chunk 4 block) in
  let w := rev (sha256_schedule 48 (rev w16)) in
  let st := fold_left sha256_round (combine sha256_k w) h in
  List.map (fun p => add32 (fst p) (snd p)) (combine h st).

Definition sha256 (msg : list Z) : list Z :=
  let h := fold_left sha256_block (chunk 64 (pad be_bytes msg)) sha256_init in
  concat (List.map (be_bytes 4) h).

(** *** MD5 *)

Definition md5_k : list Z :=
  [3614090360; 3905402710; 606105819; 3250441966; 4118548399; 1200080426;
   2821735955; 4249261313; 1770035416; 2336552879; 4294925233; 2304563134;
   1804603682; 4254626195; 2792965006; 1236535329; 4129170786; 3225465664;
   643717713; 3921069994; 3593408605; 38016083; 3634488961; 3889429448;
   568446438; 3275163606; 4107603335; 1163531501; 2850285829; 4243563512;
   1735328473; 2368359562; 4294588738; 2272392833; 1839030562; 4259657740;
   2763975236; 1272893353; 4139469664; 3200236656; 681279174; 3936430074;
   3572445317; 76029189; 3654602809; 3873151461; 530742520; 3299628645;
   4096336452; 1126891415; 2878612391; 4237533241; 1700485571; 2399980690;
   4293915773; 2240044497; 1873313359; 4264355552; 2734768916; 1309151649;
   4149444226; 3174756917; 718787259; 3951481745].

Definition md5_s : list Z :=
  [7; 12; 17; 22; 7; 12; 17; 22; 7; 12; 17; 22; 7; 12; 17; 22;
   5; 9; 14; 20; 5; 9; 14; 20; 5; 9; 14; 20; 5; 9; 14; 20;
   4; 11; 16; 23; 4; 11; 16; 23; 4; 11; 16; 23; 4; 11; 16; 23;
   6; 10; 15; 21; 6; 10; 15; 21; 6; 10; 15; 21; 6; 10; 15; 21].

Definition md5_init : list Z := [1732584193; 4023233417; 2562383102; 271733878].

Definition md5_round (m : list Z) (st : list Z) (i : Z) : list Z :=
  match st with
  | [a; b; c; d] =>
      let '(f, g) :=
        if i <? 16 then (Z.lor (Z.land b c) (Z.land (not32 b) d), i)
        else if i <? 32 then
               (Z.lor (Z.land d b) (Z.land (not32 d) c), (5 * i + 1) mod 16)
        else if i <? 48 then (Z.lxor (Z.lxor b c) d, (3 * i + 5) mod 16)
        else (Z.lxor c (Z.lor b (not32 d)), (7 * i) mod 16) in
      let n := Z.to_nat i in
      let f' := add32 (add32 f a) (add32 (nth n md5_k 0) (nth (Z.to_nat g) m 0)) in
      [d; add32 b (rotl32 (nth n md5_s 0) f'); b; c]
  | _ => st
  end.

Definition md5_block (h : list Z) (block : list Z) : list Z :=
  let m := List.map le_word (chunk 4 block) in
  let st := fold_left (md5_round m) (List.map Z.of_nat (seq 0 64)) h in
  List.map (fun p => add32 (fst p) (snd p)) (combine h st).

Definition md5 (msg : list Z) : list Z :=
  let h := fold_left md5_block (chunk 64 (pad le_bytes msg)) md5_init in
  concat (List.map (le_bytes 4) h).

(** [hashlib.sha256(s.encode()).hexdigest()] and the same for MD5. *)
Definition sha256_hexdigest (s : string) : string := hex_bytes (sha256 (Py.encode s)).
Definition md5_hexdigest (s : string) : string := hex_bytes (md5 (Py.encode s)).

End Hashlib.

Arguments Hashlib.sha256_hexdigest : simpl never.
Arguments Hashlib.md5_hexdigest : simpl never.

(** ** [datetime] and [timedelta] *)

Module Datetime.

Definition second : Z := 1000000.
Definition day : Z := 86400 * second.

(** [timedelta(days=n)] *)
Definition timedelta_days (n : Z) : Z := n * day.

(** [td.seconds]: the seconds field of the normalised triple
    (days, seconds, microseconds), between 0 and 86399. *)
Definition seconds (td : Z) : Z := (td mod day) / second.

(** [td.days] *)
Definition days (td : Z) : Z := td / day.

(** [datetime.min] and [datetime.max]: 0001-01-01 00:00:00 and 9999-12-31
    23:59:59.999999, the days 1 and 3652059 of the proleptic Gregorian
    calendar, in which 1970-01-01 is the day 719163. *)
Definition min_datetime : Z := (1 - 719163) * day.
Definition max_datetime : Z := (3652059 - 719163) * day + (day - 1).

(** The largest number of days of a [timedelta]. *)
Definition max_timedelta_days : Z := 999999999.

(** [now - timedelta(days=n)]; [None] is the [OverflowError] raised when
    [n] is no number of days of a [timedelta] or when the date is outside
    the calendar. *)
Definition sub_timedelta_days (now n : Z) : option Z :=
  if (Z.abs n <=? max_timedelta_days)
     && (min_datetime <=? now - timedelta_days n)
     && (now - timedelta_days n <=? max_datetime)
  then Some (now - timedelta_days n)
  else None.

End Datetime.

(** ** Documents of the two collections *)

Module UserSession.

Record t : Type := mk {
  session_id : string;
  user_id : option string;
  user_identifier : string;
  erpnext_url : string;
  username : string;
  password_hash : string;
  google_api_key_hash : string;
  site_base_url : string;
  created_at : Z;
  last_accessed : Z;
  browser_fingerprint : string;
  is_active : bool
}.

(** [{"$set": {"last_accessed": now}}] *)
Definition set_last_accessed (now : Z) (s : t) : t :=
  mk (session_id s) (user_id s) (user_identifier s) (erpnext_url s)
     (username s) (password_hash s) (google_api_key_hash s)
     (site_base_url s) (created_at s) now (browser_fingerprint s)
     (is_active s).

(** [{"$set": {"is_active": False}}] *)
Definition set_inactive (s : t) : t :=
  mk (session_id s) (user_id s) (user_identifier s) (erpnext_url s)
     (username s) (password_hash s) (google_api_key_hash s)
     (site_base_url s) (created_at s) (last_accessed s)
     (browser_fingerprint s) false.

End UserSession.

Module ChatMessage.

Record metadata_t : Type := mk_metadata {
  query_result : option string;
  doctype : option string
}.

Record t : Type := mk {
  message_id : string;
  session_id : string;
  user_id : option string;
  user_identifier : string;
  timestamp : Z;
  message_type : string;
  content : string;
  metadata : option metadata_t
}.

End ChatMessage.

(** One element of the list returned by [get_chat_history]. *)
Record HistoryItem : Type := mk_item {
  item_role : string;
  item_content : string;
  item_timestamp : Z;
  item_metadata : option ChatMessage.metadata_t
}.

(** The database: [sessions_collection] and [messages_collection]. *)
Record Store : Type := mk_store {
  sessions_collection : list UserSession.t;
  messages_collection : list ChatMessage.t
}.

(** ** Collection primitives *)

Module Mongo.

(** [update_one(filter, update)]: the first matching document. *)
Fixpoint update_one {A} (p : A -> bool) (f : A -> A) (l : list A) : list A :=
  match l with
  | [] => []
  | x :: r => if p x then f x :: r else x :: update_one p f r
  end.

(** [delete_many(filter)] *)
Definition delete_many {A} (p : A -> bool) (l : list A) : list A :=
  List.filter (fun x => negb (p x)) l.

(** First document of [l] in descending order of [key]; among equal keys
    the earlier document. *)
Fixpoint first_desc {A} (key : A -> Z) (l : list A) : option A :=
  match l with
  | [] => None
  | x :: r =>
      match first_desc key r with
      | Some m => if key x <? key m then Some m else Some x
      | None => Some x
      end
  end.

(** [find_one(filter, sort=[(key, -1)])] *)
Definition find_one_desc {A} (p : A -> bool) (key : A -> Z) (l : list A)
  : option A :=
  first_desc key (List.filter p l).

(** Stable insertion in ascending order of [key]. *)
Fixpoint insert_asc {A} (key : A -> Z) (x : A) (l : list A) : list A :=
  match l with
  | [] => [x]
  | y :: r => if key x <? key y then x :: l else y :: insert_asc key x r
  end.

(** [.sort(key, 1)] *)
Definition sort_asc {A} (key : A -> Z) (l : list A) : list A :=
  fold_right (insert_asc key) [] l.

(** The largest integer of a BSON document. *)
Definition int64_max : Z := 9223372036854775807.

(** The number of documents in the first batch of a reply (a reply of
    16 MiB ends the batch earlier: documents of that size are outside the
    model). *)
Definition first_batch : nat := 101%nat.

(** [.limit(n)], read through the cursor.  Zero means no limit.  The
    driver sends [abs(n)]: [None] is the [OverflowError] raised when that
    is no 64-bit integer.  For a negative [n] it also asks for a single
    batch, so that no more than the first batch comes back. *)
Definition limit {A} (n : Z) (l : list A) : option (list A) :=
  if n =? 0 then Some l
  else if int64_max <? Z.abs n then None
  else if 0 <? n then Some (firstn (Z.abs_nat n) l)
  else Some (firstn (Nat.min (Z.abs_nat n) first_batch) l).

End Mongo.

(** ** [MongoDBManager] *)

Module MongoDBManager.

Import UserSession.

Definition _generate_user_identifier (username erpnext_url : string) : string :=
  let normalized_url := Py.lower (Py.rstrip_char "/"%char erpnext_url) in
  let identifier_string :=
    String.append (Py.lower username) (String "@"%char normalized_url) in
  Py.prefix 16 (Hashlib.sha256_hexdigest identifier_string).

Definition _hash_credential (credential : string) : string :=
  Hashlib.sha256_hexdigest credential.

Definition _generate_browser_fingerprint (user_agent ip_address : string)
  : string :=
  Hashlib.md5_hexdigest
    (String.append user_agent (String ":"%char ip_address)).

(** [create_session]; [new_id] is the value of [uuid.uuid4()] and [now]
    that of [datetime.now()]. *)
Definition create_session (st : Store)
    (erpnext_url username password google_api_key user_agent ip_address
       : string)
    (site_base_url user_id : option string) (new_id : string) (now : Z)
  : Store * string :=
  let session_data :=
    mk new_id user_id
       (_generate_user_identifier username erpnext_url)
       erpnext_url username
       (_hash_credential password) (_hash_credential google_api_key)
       (if Py.truthy site_base_url then default erpnext_url site_base_url
        else erpnext_url)
       now now
       (_generate_browser_fingerprint user_agent ip_address)
       true in
  (mk_store (sessions_collection st ++ [session_data])
            (messages_collection st),
   new_id).

Definition get_session (st : Store) (sid : string) : option UserSession.t :=
  List.find (fun s => String.eqb (session_id s) sid && is_active s)
            (sessions_collection st).

Definition by_user_id (uid erpnext_url : string) (cutoff_date : Z)
    (s : UserSession.t) : bool :=
  match UserSession.user_id s with
  | Some u => String.eqb u uid
  | None => false
  end
  && String.eqb (UserSession.erpnext_url s) erpnext_url
  && (cutoff_date <=? last_accessed s)
  && is_active s.

Definition by_fingerprint (user_identifier browser_fingerprint : string)
    (cutoff_date : Z) (s : UserSession.t) : bool :=
  String.eqb (UserSession.user_identifier s) user_identifier
  && String.eqb (UserSession.browser_fingerprint s) browser_fingerprint
  && (cutoff_date <=? last_accessed s)
  && is_active s.

Definition find_existing_session (st : Store)
    (user_agent ip_address erpnext_url username : string)
    (user_id : option string) (now : Z) : option string :=
  let user_identifier := _generate_user_identifier username erpnext_url in
  let browser_fingerprint :=
    _generate_browser_fingerprint user_agent ip_address in
  let cutoff_date := now - Datetime.timedelta_days 30 in
  let fallback :=
    match Mongo.find_one_desc
            (by_fingerprint user_identifier browser_fingerprint cutoff_date)
            last_accessed (sessions_collection st) with
    | Some session_data => Some (session_id session_data)
    | None => None
    end in
  if Py.truthy user_id then
    match Mongo.find_one_desc
            (by_user_id (default EmptyString user_id) erpnext_url cutoff_date)
            last_accessed (sessions_collection st) with
    | Some session_data => Some (session_id session_data)
    | None => fallback
    end
  else fallback.

Definition update_session_access (st : Store) (sid : string) (now : Z)
  : Store :=
  mk_store
    (Mongo.update_one (fun s => String.eqb (session_id s) sid)
                      (set_last_accessed now) (sessions_collection st))
    (messages_collection st).

(** [verify_credentials]; a [password] that is not a string makes
    [_hash_credential] raise: the result is then [None]. *)
Definition verify_credentials (st : Store) (sid : string)
    (password : option string) (google_api_key : string) : option bool :=
  match get_session st sid with
  | None => Some false
  | Some session =>
      match password with
      | None => None
      | Some pw =>
          Some (String.eqb (password_hash session) (_hash_credential pw)
                && String.eqb (google_api_key_hash session)
                              (_hash_credential google_api_key))
      end
  end.

(** [store_chat_message]; [None] is the [ValueError] for a session that
    [get_session] does not return. *)
Definition store_chat_message (st : Store) (sid message_type content : string)
    (metadata : option ChatMessage.metadata_t) (new_id : string) (now : Z)
  : option (Store * string) :=
  match get_session st sid with
  | None => None
  | Some session =>
      let message_data :=
        ChatMessage.mk new_id sid (UserSession.user_id session)
                       (UserSession.user_identifier session) now
                       message_type content metadata in
      Some (mk_store (sessions_collection st)
                     (messages_collection st ++ [message_data]),
            new_id)
  end.

Definition history_item (doc : ChatMessage.t) : HistoryItem :=
  mk_item (if String.eqb (ChatMessage.message_type doc) "user"
           then "user" else "assistant")
          (ChatMessage.content doc) (ChatMessage.timestamp doc)
          (ChatMessage.metadata doc).

(** [get_chat_history]; an exception raised while the cursor is read is
    caught and answered with the empty list. *)
Definition get_chat_history (st : Store) (sid : string) (limit : Z)
  : list HistoryItem :=
  match Mongo.limit limit
          (Mongo.sort_asc ChatMessage.timestamp
             (List.filter
                (fun m => String.eqb (ChatMessage.session_id m) sid)
                (messages_collection st))) with
  | Some docs => List.map history_item docs
  | None => []
  end.

Definition deactivate_session (st : Store) (sid : string) : Store :=
  mk_store
    (Mongo.update_one (fun s => String.eqb (session_id s) sid)
                      set_inactive (sessions_collection st))
    (messages_collection st).

(** The filter of the sweep: [last_accessed < cutoff] or not [is_active]. *)
Definition expired (cutoff_date : Z) (s : UserSession.t) : bool :=
  (last_accessed s <? cutoff_date) || negb (is_active s).

Definition mem_string (x : string) (l : list string) : bool :=
  existsb (String.eqb x) l.

(** [cleanup_expired_sessions].  The cut-off date is computed before the
    [try] block: the outer [None] is the [OverflowError] of that
    computation, raised before the store is read.  Otherwise the result is
    the new store and the value returned to the caller: the function has no
    [return] statement, so it returns Python's [None], here the [None] of
    [option Z]. *)
Definition cleanup_expired_sessions (st : Store) (days now : Z)
  : option (Store * option Z) :=
  match Datetime.sub_timedelta_days now days with
  | None => None
  | Some cutoff_date =>
      let expired_sessions :=
        List.filter (expired cutoff_date) (sessions_collection st) in
      match expired_sessions with
      | [] => Some (st, None)
      | _ =>
          let session_ids := List.map session_id expired_sessions in
          Some
            (mk_store
               (Mongo.delete_many
                  (fun s => mem_string (session_id s) session_ids)
                  (sessions_collection st))
               (Mongo.delete_many
                  (fun m => mem_string (ChatMessage.session_id m) session_ids)
                  (messages_collection st)),
             None)
      end
  end.

Definition clear_all_sessions (st : Store) : Store := mk_store [] [].

End MongoDBManager.

(** ** [SessionManager]: the facade over [MongoDBManager] *)

Module SessionManager.

Definition create_session := MongoDBManager.create_session.
Definition get_session := MongoDBManager.get_session.
Definition find_existing_session := MongoDBManager.find_existing_session.
Definition update_session_access := MongoDBManager.update_session_access.
Definition verify_credentials := MongoDBManager.verify_credentials.
Definition get_chat_history := MongoDBManager.get_chat_history.
Definition cleanup_expired_sessions := MongoDBManager.cleanup_expired_sessions.
Definition clear_all_sessions := MongoDBManager.clear_all_sessions.

(** [{"query_result": .., "doctype": ..} if query_result or doctype else None] *)
Definition metadata_of (query_result doctype : option string)
  : option ChatMessage.metadata_t :=
  if Py.truthy query_result || Py.truthy doctype
  then Some (ChatMessage.mk_metadata query_result doctype) else None.

(** [store_chat_message]: the user message, then the reply.  Each of the
    two insertions draws an identifier and reads the clock. *)
Definition store_chat_message (st : Store)
    (sid user_message ai_response : string)
    (query_result doctype : option string)
    (id1 : string) (t1 : Z) (id2 : string) (t2 : Z) : option Store :=
  match MongoDBManager.store_chat_message st sid "user" user_message
          (metadata_of query_result doctype) id1 t1 with
  | None => None
  | Some (st1, _) =>
      match MongoDBManager.store_chat_message st1 sid "assistant" ai_response
              (metadata_of query_result doctype) id2 t2 with
      | None => None
      | Some (st2, _) => Some st2
      end
  end.

(** [__init__]: the sweep run when the manager is built; [None] when the
    sweep raises, and the constructor with it. *)
Definition init (st : Store) (now : Z) : option Store :=
  match MongoDBManager.cleanup_expired_sessions st 30 now with
  | Some (st', _) => Some st'
  | None => None
  end.

End SessionManager.

(** ** The HTTP routes of [aida_api_server.py] *)

(** The arguments kept by an [AidaERPNextAgent]. *)
Record Agent : Type := mk_agent {
  agent_erpnext_url : string;
  agent_username : string;
  agent_password : option string;
  agent_google_api_key : string;
  agent_session_id : string;
  agent_site_base_url : string
}.

(** The process: the database, [active_agents] and [app.rate_limits]. *)
Record Server : Type := mk_server {
  db : Store;
  active_agents : gmap string Agent;
  rate_limits : gmap string (list Z)
}.

(** One pair of the formatted history. *)
Record HistoryPair : Type := mk_pair {
  pair_timestamp : Z;
  pair_user_message : string;
  pair_ai_response : string
}.

(** The JSON bodies the routes answer with. *)
Inductive Body : Type :=
| Error (error : string)
| ErrorReconnect (error : string)
| SessionInfo (session_id message : string) (restored : bool)
| ChatReply (session_id response : string)
| History (session_id : string) (history : list HistoryPair) (count : Z)
| Message (message : string)
| Unhandled.

(** A response: body and status code. *)
Definition Response : Type := Body * Z.

Module Api.

(** *** [/chat] *)

Record ChatRequest : Type := mk_chat_request {
  chat_remote_addr : string;
  chat_session_id : option string;
  chat_user_input : option string
}.

(** What [chat_with_agent] draws from outside: the clock at the rate limit
    and at the access update, the outcome of [agent.chat] ([None] when it
    raises), and the identifiers and clock readings of the two stored
    messages. *)
Record ChatEnv : Type := mk_chat_env {
  current_time : Z;
  access_time : Z;
  agent_chat : option string;
  message_id1 : string;
  message_time1 : Z;
  message_id2 : string;
  message_time2 : Z
}.

(** The entries of [last_requests] kept by the list comprehension. *)
Definition recent_requests (current_time : Z) (last_requests : list Z)
  : list Z :=
  List.filter (fun t => Datetime.seconds (current_time - t) <? 60)
              last_requests.

(** The rate limit of [/chat]: [None] when the request is refused,
    otherwise the new [app.rate_limits]. *)
Definition chat_rate_limit (limits : gmap string (list Z))
    (client_ip : string) (current_time : Z)
  : option (gmap string (list Z)) :=
  match limits !! client_ip with
  | Some last_requests =>
      let recent := recent_requests current_time last_requests in
      if 10 <=? Z.of_nat (List.length recent) then None
      else Some (<[client_ip := (recent ++ [current_time])%list]> limits)
  | None => Some (<[client_ip := [current_time]]> limits)
  end.

Definition rate_limit_exceeded : Response :=
  (Error "Rate limit exceeded. Please try again later.", 429).
Definition fields_required : Response :=
  (Error "Session ID and user input are required.", 400).
Definition message_too_long : Response :=
  (Error "Message too long. Please limit to 2000 characters.", 400).
Definition invalid_session : Response :=
  (Error "Invalid or expired session. Please reconnect.", 404).
Definition reconnect_required : Response :=
  (ErrorReconnect
     "Session found but agent not active. Please reconnect to restore your session.",
   410).
Definition error_response : string := "An error occurred. Please try again.".

Definition chat_with_agent (srv : Server) (req : ChatRequest) (env : ChatEnv)
  : Server * Response :=
  match chat_rate_limit (rate_limits srv) (chat_remote_addr req)
                        (current_time env) with
  | None => (srv, rate_limit_exceeded)
  | Some limits =>
      let srv1 := mk_server (db srv) (active_agents srv) limits in
      if negb (Py.truthy (chat_session_id req))
         || negb (Py.truthy (chat_user_input req))
      then (srv1, fields_required)
      else
        let session_id := default EmptyString (chat_session_id req) in
        let user_input :=
          Py.strip (default EmptyString (chat_user_input req)) in
        if 2000 <? Py.len user_input then (srv1, message_too_long)
        else
          match SessionManager.get_session (db srv1) session_id with
          | None => (srv1, invalid_session)
          | Some _ =>
              let db2 := SessionManager.update_session_access
                           (db srv1) session_id (access_time env) in
              let srv2 := mk_server db2 (active_agents srv1) limits in
              match active_agents srv2 !! session_id with
              | None => (srv2, reconnect_required)
              | Some agent =>
                  let store reply :=
                    SessionManager.store_chat_message db2 session_id
                      user_input reply None None
                      (message_id1 env) (message_time1 env)
                      (message_id2 env) (message_time2 env) in
                  let failed :=
                    match store error_response with
                    | Some db3 =>
                        (mk_server db3 (active_agents srv2) limits,
                         (Error error_response, 500))
                    | None => (srv2, (Unhandled, 500))
                    end in
                  match agent_chat env with
                  | Some response =>
                      match store response with
                      | Some db3 =>
                          (mk_server db3 (active_agents srv2) limits,
                           (ChatReply session_id response, 200))
                      | None => failed
                      end
                  | None => failed
                  end
              end
          end
  end.

(** *** [/get_chat_history/<session_id>] *)

(** The [while] loop pairing each user message with the reply after it. *)
Fixpoint format_history (history : list HistoryItem) : list HistoryPair :=
  match history with
  | [] => []
  | msg :: rest =>
      if String.eqb (item_role msg) "user" then
        match rest with
        | next :: rest' =>
            if String.eqb (item_role next) "assistant"
            then mk_pair (item_timestamp msg) (item_content msg)
                         (item_content next) :: format_history rest'
            else mk_pair (item_timestamp msg) (item_content msg) EmptyString
                   :: format_history rest
        | [] => [mk_pair (item_timestamp msg) (item_content msg) EmptyString]
        end
      else format_history rest
  end.

Definition get_chat_history (srv : Server) (session_id : string) (limit : Z)
  : Response :=
  if Py.is_empty session_id then (Error "Session ID is required.", 400)
  else
    match SessionManager.get_session (db srv) session_id with
    | None => (Error "Invalid session.", 404)
    | Some _ =>
        let formatted_history :=
          format_history
            (SessionManager.get_chat_history (db srv) session_id limit) in
        (History session_id formatted_history
                 (Z.of_nat (List.length formatted_history)), 200)
    end.

(** *** [/clear_session] *)

Definition clear_message (session_id : string) : string :=
  String.append "Session " (String.append session_id " cleared successfully.").

Definition clear_session (srv : Server) (session_id : option string)
  : Server * Response :=
  if negb (Py.truthy session_id) then (srv, (Error "Session ID is required.", 400))
  else
    let sid := default EmptyString session_id in
    (mk_server (db srv)
               (match active_agents srv !! sid with
                | Some _ => delete sid (active_agents srv)
                | None => active_agents srv
                end)
               (rate_limits srv),
     (Message (clear_message sid), 200)).

(** *** [/init_session] *)

Record InitRequest : Type := mk_init_request {
  init_remote_addr : string;
  init_user_agent : string;
  init_mocxha_url : option string;
  init_erpnext_url : option string;
  init_username : option string;
  init_password : option string;
  init_api_key : option string;
  init_api_secret : option string;
  init_site_base_url : option string;
  init_restore_session : bool
}.

(** The answer of the remote [frappe.auth.get_logged_user] call made for a
    session-token login: an exception, or a status code and the [message]
    field of the JSON body. *)
Inductive FrappeReply : Type :=
| FrappeRaises
| FrappeStatus (status_code : Z) (message : option string).

(** What [init_session] draws from outside: the [GOOGLE_API_KEY] variable,
    the remote answer, the clock read by [find_existing_session] and by the
    write that follows, the identifier for a new session, and whether the
    agent constructor returns ([true]) or raises ([false]). *)
Record InitEnv : Type := mk_init_env {
  env_google_api_key : option string;
  frappe_reply : FrappeReply;
  find_time : Z;
  write_time : Z;
  new_session_id : string;
  agent_built : bool
}.

Definition init_failed : Response :=
  (Error "Failed to initialize session. Please check your credentials.", 500).

Fixpoint join (sep : string) (l : list string) : string :=
  match l with
  | [] => EmptyString
  | [x] => x
  | x :: r => String.append x (String.append sep (join sep r))
  end.

(** The end of the [try] block of [init_session]: a new session is
    created and an agent built for it. *)
Definition init_session_create (srv : Server)
    (erpnext_url username : string) (password : option string)
    (google_api_key site_base_url user_agent ip_address : string)
    (env : InitEnv) : Server * Response :=
  match password with
  | None => (srv, init_failed)
  | Some pw =>
      let '(db1, session_id) :=
        SessionManager.create_session (db srv) erpnext_url username pw
          google_api_key user_agent ip_address (Some site_base_url) None
          (new_session_id env) (write_time env) in
      let srv1 := mk_server db1 (active_agents srv) (rate_limits srv) in
      if agent_built env then
        let agent := mk_agent erpnext_url username password google_api_key
                              session_id site_base_url in
        (mk_server db1 (<[session_id := agent]> (active_agents srv))
                   (rate_limits srv),
         (SessionInfo session_id "New session created successfully." false,
          200))
      else (srv1, init_failed)
  end.

(** The [try] block of [init_session]: restoration when it is asked for
    and a session with matching credentials is found, creation
    otherwise. *)
Definition init_session_body (srv : Server)
    (erpnext_url username : string) (password : option string)
    (google_api_key site_base_url user_agent ip_address : string)
    (restore_session : bool) (env : InitEnv) : Server * Response :=
  let create :=
    init_session_create srv erpnext_url username password google_api_key
      site_base_url user_agent ip_address env in
  if restore_session then
    match SessionManager.find_existing_session (db srv) user_agent ip_address
            erpnext_url username None (find_time env) with
    | Some existing_session_id =>
        if Py.is_empty existing_session_id then create
        else
          match SessionManager.verify_credentials (db srv)
                  existing_session_id password google_api_key with
          | None => (srv, init_failed)
          | Some false => create
          | Some true =>
              let db1 := SessionManager.update_session_access (db srv)
                           existing_session_id (write_time env) in
              let srv1 := mk_server db1 (active_agents srv) (rate_limits srv) in
              let restored :=
                (SessionInfo existing_session_id
                             "Session restored successfully." true, 200) in
              match active_agents srv !! existing_session_id with
              | Some _ => (srv1, restored)
              | None =>
                  match SessionManager.get_session db1 existing_session_id with
                  | None => (srv1, init_failed)
                  | Some session_data =>
                      if agent_built env then
                        let agent :=
                          mk_agent (UserSession.erpnext_url session_data)
                                   (UserSession.username session_data)
                                   password google_api_key
                                   existing_session_id
                                   (UserSession.site_base_url session_data) in
                        (mk_server db1
                           (<[existing_session_id := agent]>
                              (active_agents srv))
                           (rate_limits srv),
                         restored)
                      else (srv1, init_failed)
                  end
              end
          end
    | None => create
    end
  else create.

(** The values with which the [try] block is entered. *)
Record InitArgs : Type := mk_init_args {
  arg_erpnext_url : string;
  arg_username : string;
  arg_password : option string;
  arg_google_api_key : string;
  arg_site_base_url : string
}.

(** The statements of [init_session] before the [try] block.  They read
    the request and the environment only: either an early response, or the
    values the block works with. *)
Definition init_session_checks (req : InitRequest) (env : InitEnv)
  : Response + InitArgs :=
  let erpnext_url := Py.or_else (init_mocxha_url req) (init_erpnext_url req) in
  let missing_fields :=
    ((if Py.truthy erpnext_url then [] else ["mocxha_url"])
     ++ (if Py.truthy (init_username req) then [] else ["username"]))%list in
  match missing_fields with
  | _ :: _ =>
      inl (Error (String.append "Missing required fields: "
                                (join ", " missing_fields)), 400)
  | [] =>
      if negb (Py.truthy (env_google_api_key env)) then
        inl (Error "Google API key not configured on server. Please check environment variables.", 500)
      else
        let url := default EmptyString erpnext_url in
        let google_api_key := default EmptyString (env_google_api_key env) in
        let site_base_url := default url (init_site_base_url req) in
        let continue (username : string) (password : option string) :=
          if Py.len google_api_key <? 20 then
            inl (Error "Invalid Google API Key format in server configuration.", 500)
          else
            inr (mk_init_args url username password google_api_key
                              site_base_url) in
        match init_password req with
        | Some pw =>
            if String.eqb pw "session_token" then
              if Py.truthy (init_api_key req) && Py.truthy (init_api_secret req)
              then
                match frappe_reply env with
                | FrappeRaises =>
                    inl (Error "Could not validate session. Please try again.", 500)
                | FrappeStatus code message =>
                    if code =? 200 then
                      if match message, init_api_key req with
                         | Some m, Some k => String.eqb m k
                         | _, _ => false
                         end
                      then continue (default EmptyString (init_api_key req))
                                    (init_api_secret req)
                      else inl (Error "Session validation failed. Invalid user.", 401)
                    else inl (Error "Session validation failed. Please log in again.", 401)
                end
              else inl (Error "API key and secret required for session token authentication.", 400)
            else continue (default EmptyString (init_username req)) (Some pw)
        | None => continue (default EmptyString (init_username req)) None
        end
  end.

Definition init_session (srv : Server) (req : InitRequest) (env : InitEnv)
  : Server * Response :=
  match init_session_checks req env with
  | inl response => (srv, response)
  | inr args =>
      init_session_body srv (arg_erpnext_url args) (arg_username args)
        (arg_password args) (arg_google_api_key args)
        (arg_site_base_url args) (init_user_agent req) (init_remote_addr req)
        (init_restore_session req) env
  end.

(** *** Process start *)

(** The module-level statements: a [SessionManager] is built (its
    constructor sweeps), [active_agents] is empty, all sessions are
    cleared; [app.rate_limits] does not exist yet.  [None]: the constructor
    raises and the process does not start. *)
Definition startup (st : Store) (now : Z) : option Server :=
  match SessionManager.init st now with
  | Some st' =>
      Some (mk_server (SessionManager.clear_all_sessions st') ∅ ∅)
  | None => None
  end.

End Api.

(** ** The tenant key as the specification words it *)

Module TenantKeySpec.

(** Lower-case the authority at the head of [s]: up to the first slash,
    question mark or hash sign; the rest is kept as it is. *)
Fixpoint lower_host (s : string) : string :=
  match s with
  | EmptyString => EmptyString
  | String c r =>
      if Ascii.eqb c "/" || Ascii.eqb c "?" || Ascii.eqb c "#" then s
      else String (Py.lower_char c) (lower_host r)
  end.

(** The URL after its scheme separator, host in lower case; [None] when
    the URL has no scheme separator. *)
Fixpoint after_scheme (s : string) : option string :=
  match s with
  | EmptyString => None
  | String c r =>
      match s with
      | String ":" (String "/" (String "/" rest)) =>
          Some (String ":" (String "/" (String "/" (lower_host rest))))
      | _ => option_map (String c) (after_scheme r)
      end
  end.

(** "normalization strips trailing slashes and lowercases the host" *)
Definition normalize (endpointURL : string) : string :=
  let s := Py.rstrip_char "/" endpointURL in
  default (lower_host s) (after_scheme s).

(** "hash of lowercase(username) + "@" + normalize(endpointURL)", with the
    digest the code uses. *)
Definition tenantKey (username endpointURL : string) : string :=
  Py.prefix 16
    (Hashlib.sha256_hexdigest
       (String.append (Py.lower username)
                      (String "@" (normalize endpointURL)))).

End TenantKeySpec.

(** [n] slashes. *)
Fixpoint slashes (n : nat) : string :=
  match n with
  | O => EmptyString
  | S k => String "/" (slashes k)
  end.

(** Session identifiers of a store, in collection order. *)
Definition session_ids (st : Store) : list string :=
  List.map UserSession.session_id (sessions_collection st).

(** ** Sample data

    The scenario of the specification: user [alice] on
    [https://crm.example.com] with secret [pw1], from the device
    [(UA-A, 10.0.0.1)]. *)

Module Sample.

Definition url : string := "https://crm.example.com".
Definition api_key : string := "key123456789012345678".

(** Some instant, and offsets from it. *)
Definition now : Z := 20000 * Datetime.day.
Definition seconds_ago (n : Z) : Z := now - n * Datetime.second.
Definition days_ago (n : Z) : Z := now - n * Datetime.day.

(** A session document as [create_session] writes it for the scenario,
    with the given identifier, access time and activity flag. *)
Definition session (sid : string) (accessed : Z) (active : bool)
  : UserSession.t :=
  UserSession.mk sid None
    (MongoDBManager._generate_user_identifier "alice" url) url "alice"
    (MongoDBManager._hash_credential "pw1")
    (MongoDBManager._hash_credential api_key) url accessed accessed
    (MongoDBManager._generate_browser_fingerprint "UA-A" "10.0.0.1")
    active.

Definition message (mid sid : string) (time : Z) (role content : string)
  : ChatMessage.t :=
  ChatMessage.mk mid sid None
    (MongoDBManager._generate_user_identifier "alice" url) time role
    content None.

(** Two messages of session [S1]. *)
Definition messages_S1 : list ChatMessage.t :=
  [message "m1" "S1" (days_ago 41) "user" "hello";
   message "m2" "S1" (days_ago 41 + 1) "assistant" "hi"].

(** [S1] is inactive, [S2] is active and was used a minute ago, [S3] is
    active and was last used 31 days ago. *)
Definition store : Store :=
  mk_store [session "S1" (days_ago 1) false;
            session "S2" (seconds_ago 60) true;
            session "S3" (days_ago 31) true]
           (messages_S1 ++ [message "m3" "S2" (seconds_ago 60) "user" "list leads"]).

(** [Old] was last used one second before the start of the 30-day window,
    [New] one second after it. *)
Definition boundary_store : Store :=
  mk_store [session "Old" (days_ago 30 - Datetime.second) true;
            session "New" (days_ago 30 + Datetime.second) true] [].

Definition agent (sid : string) : Agent :=
  mk_agent url "alice" (Some "pw1") api_key sid url.

Definition init_request (password : string) : Api.InitRequest :=
  Api.mk_init_request "10.0.0.1" "UA-A" (Some url) None (Some "alice")
    (Some password) None None None true.

Definition init_env (time : Z) (uuid : string) : Api.InitEnv :=
  Api.mk_init_env (Some api_key) Api.FrappeRaises time time uuid true.


Definition chat_request (sid text : string) : Api.ChatRequest :=
  Api.mk_chat_request "10.0.0.1" (Some sid) (Some text).

Definition chat_env (time : Z) : Api.ChatEnv :=
  Api.mk_chat_env time time (Some "Hello, Alice.") "m10" time "m11" time.

(** [n] requests to [/chat], one second apart from [start] on. *)
Fixpoint chat_times (n : nat) (start : Z) : list Z :=
  match n with
  | O => []
  | S k => start :: chat_times k (start + Datetime.second)
  end.

(** [app.rate_limits] after requests to [/chat] from one address at the
    given instants, each admitted or refused by the limiter. *)
Definition limits_after (ip : string) (times : list Z)
  : gmap string (list Z) :=
  fold_left
    (fun limits t => default limits (Api.chat_rate_limit limits ip t))
    times ∅.

(** The server of a process that has just started. *)
Definition fresh_server : Server := mk_server (mk_store [] []) ∅ ∅.

(** A server holding the sample store, an agent for [S2], and the rate
    limits left by ten requests one second apart starting at [now]. *)
Definition busy_server : Server :=
  mk_server store {["S2" := agent "S2"]}
            (limits_after "10.0.0.1" (chat_times 10 now)).

End Sample.

(** ** The outcome of a creation *)

Section Creation.

Import Api MongoDBManager UserSession.

(** The document [create_session] inserts. *)
Definition created_document (url u pw key sb ua ip sid : string) (now : Z)
  : UserSession.t :=
  mk sid None (_generate_user_identifier u url) url u
     (_hash_credential pw) (_hash_credential key)
     (if Py.truthy (Some sb) then sb else url) now now
     (_generate_browser_fingerprint ua ip) true.

(** The server after a successful creation. *)
Definition created_server (srv : Server) (url u pw key sb ua ip : string)
    (env : InitEnv) : Server :=
  mk_server
    (mk_store
       (sessions_collection (db srv)
        ++ [created_document url u pw key sb ua ip (new_session_id env)
                             (write_time env)])
       (messages_collection (db srv)))
    (<[new_session_id env :=
         mk_agent url u (Some pw) key (new_session_id env) sb]>
       (active_agents srv))
    (rate_limits srv).

(** What a successful [init_session] call that answers with [sid] leaves
    behind: a document [s] of that identifier, active, accessed at [time],
    carrying the keys of the device and tenant and the hashes of the two
    secrets; every document of another identifier was accessed earlier; and
    an agent is cached for [sid]. *)
Definition established (srv : Server) (url u pw key ua ip sid : string)
    (time : Z) (s : UserSession.t) : Prop :=
  In s (sessions_collection (db srv))
  /\ session_id s = sid
  /\ is_active s = true
  /\ last_accessed s = time
  /\ user_identifier s = _generate_user_identifier u url
  /\ browser_fingerprint s = _generate_browser_fingerprint ua ip
  /\ password_hash s = _hash_credential pw
  /\ google_api_key_hash s = _hash_credential key
  /\ (forall y, In y (sessions_collection (db srv)) ->
                session_id y <> sid -> last_accessed y < time)
  /\ active_agents srv !! sid <> None.

End Creation.

(** ** Runs of the [/chat] route *)

(** Every list of [app.rate_limits] holds at most ten request times. *)
Definition limits_bounded (limits : gmap string (list Z)) : Prop :=
  forall ip l, limits !! ip = Some l -> (List.length l <= 10)%nat.

(** The server after a sequence of [/chat] requests, each with what it
    draws from outside. *)
Definition chat_requests (srv : Server)
    (requests : list (Api.ChatRequest * Api.ChatEnv)) : Server :=
  List.fold_left (fun s r => fst (Api.chat_with_agent s (fst r) (snd r)))
                 requests srv.

(** ** More of [MongoDBManager]: the account-wide history and the chats *)

(** Two more cursor operations. *)
Module Cursor.

(** [.sort(key, -1)] *)
Definition sort_desc {A} (key : A -> Z) (l : list A) : list A :=
  Mongo.sort_asc (fun x => - key x) l.

(** [delete_one(filter)]: the first matching document. *)
Fixpoint delete_one {A} (p : A -> bool) (l : list A) : list A :=
  match l with
  | [] => []
  | x :: r => if p x then r else x :: delete_one p r
  end.

End Cursor.

(** One element of the list returned by [get_user_chat_history]. *)
Record UserHistoryItem : Type := mk_user_item {
  user_item_session_id : string;
  user_item_role : string;
  user_item_content : string;
  user_item_timestamp : Z;
  user_item_metadata : option ChatMessage.metadata_t
}.

(** A document of the [chats] collection.  A message of a chat is an
    arbitrary JSON value the code only stores, counts and returns: it
    stands here as its text. *)
Module Chat.

Record t : Type := mk {
  chat_id : string;
  session_id : string;
  user_id : option string;
  user_identifier : string;
  title : string;
  preview : string;
  messages : list string;
  created_at : Z;
  updated_at : Z
}.

End Chat.

(** One element of the list returned by [get_recent_chats]. *)
Record ChatSummary : Type := mk_summary {
  summary_chat_id : string;
  summary_title : string;
  summary_preview : string;
  summary_created_at : Z;
  summary_message_count : Z
}.

(** The dictionary returned by [get_chat_by_id]. *)
Record ChatDetail : Type := mk_detail {
  detail_chat_id : string;
  detail_title : string;
  detail_preview : string;
  detail_created_at : Z;
  detail_messages : list string
}.

Module MongoDBManagerChats.

Definition user_history_item (doc : ChatMessage.t) : UserHistoryItem :=
  mk_user_item (ChatMessage.session_id doc)
    (if String.eqb (ChatMessage.message_type doc) "user"
     then "user" else "assistant")
    (ChatMessage.content doc) (ChatMessage.timestamp doc)
    (ChatMessage.metadata doc).

Definition get_user_chat_history (st : Store) (username erpnext_url : string)
    (limit : Z) : list UserHistoryItem :=
  let user_identifier :=
    MongoDBManager._generate_user_identifier username erpnext_url in
  match Mongo.limit limit
          (Cursor.sort_desc ChatMessage.timestamp
             (List.filter
                (fun m => String.eqb (ChatMessage.user_identifier m)
                                     user_identifier)
                (messages_collection st))) with
  | Some docs => List.map user_history_item docs
  | None => []
  end.

(** The filter [{"user_id": user_id}]: a chat without platform account
    matches no string. *)
Definition of_user (user_id : string) (c : Chat.t) : bool :=
  match Chat.user_id c with
  | Some u => String.eqb u user_id
  | None => false
  end.

Definition summary (doc : Chat.t) : ChatSummary :=
  mk_summary (Chat.chat_id doc) (Chat.title doc) (Chat.preview doc)
             (Chat.created_at doc)
             (Z.of_nat (List.length (Chat.messages doc))).

Definition get_recent_chats (chats : list Chat.t)
    (user_id user_identifier : option string) (limit : Z)
  : list ChatSummary :=
  let listing (p : Chat.t -> bool) :=
    match Mongo.limit limit
            (Cursor.sort_desc Chat.created_at (List.filter p chats)) with
    | Some docs => List.map summary docs
    | None => []
    end in
  if Py.truthy user_id then
    listing (of_user (default EmptyString user_id))
  else if Py.truthy user_identifier then
    listing (fun c => String.eqb (Chat.user_identifier c)
                                 (default EmptyString user_identifier))
  else [].

(** The filter of [get_chat_by_id] and [delete_chat]: by [chat_id], and by
    [user_id] too when one is given. *)
Definition chat_filter (chat_id : string) (user_id : option string)
    (c : Chat.t) : bool :=
  if Py.truthy user_id
  then String.eqb (Chat.chat_id c) chat_id
       && of_user (default EmptyString user_id) c
  else String.eqb (Chat.chat_id c) chat_id.

Definition get_chat_by_id (chats : list Chat.t) (chat_id : string)
    (user_id : option string) : option ChatDetail :=
  match List.find (chat_filter chat_id user_id) chats with
  | Some chat =>
      Some (mk_detail (Chat.chat_id chat) (Chat.title chat)
                      (Chat.preview chat) (Chat.created_at chat)
                      (Chat.messages chat))
  | None => None
  end.

(** [save_chat]; [new_id] is the value of [uuid.uuid4()], [created] and
    [updated] are the two clock readings.  [None] is the exception raised
    for a session that [get_session] does not return. *)
Definition save_chat (st : Store) (chats : list Chat.t)
    (session_id title preview : string) (messages : list string)
    (new_id : string) (created updated : Z)
  : option (list Chat.t * string) :=
  match MongoDBManager.get_session st session_id with
  | None => None
  | Some session =>
      let chat_data :=
        Chat.mk new_id session_id (UserSession.user_id session)
                (UserSession.user_identifier session) title preview messages
                created updated in
      Some ((chats ++ [chat_data])%list, new_id)
  end.

(** [delete_chat]: the new collection and whether a document was
    deleted. *)
Definition delete_chat (chats : list Chat.t) (chat_id : string)
    (user_id : option string) : list Chat.t * bool :=
  (Cursor.delete_one (chat_filter chat_id user_id) chats,
   existsb (chat_filter chat_id user_id) chats).

End MongoDBManagerChats.

(** ** Further routes of [aida_api_server.py] *)

(** The bodies of [/session_status]. *)
Inductive StatusBody : Type :=
| StatusActive (session_id user_identifier : string)
| StatusInactive.

(** The bodies of [/create_leads]. *)
Inductive LeadsBody : Type :=
| LeadsError (error : string)
| LeadsSuccess (result : string).

Module Routes.

(** *** [/session_status/<session_id>]; [now] is the clock read by
    [update_session_access]. *)
Definition session_status (srv : Server) (session_id : string) (now : Z)
  : Server * (StatusBody * Z) :=
  match SessionManager.get_session (db srv) session_id with
  | Some session =>
      (mk_server
         (SessionManager.update_session_access (db srv) session_id now)
         (active_agents srv) (rate_limits srv),
       (StatusActive session_id (UserSession.user_identifier session), 200))
  | None => (srv, (StatusInactive, 404))
  end.

(** *** [/create_leads] *)

Record LeadsRequest : Type := mk_leads_request {
  leads_remote_addr : string;
  leads_mocxha_url : option string;
  leads_erpnext_url : option string;
  leads_username : option string;
  leads_password : option string;
  leads_google_api_key : option string;
  leads_business_type : option string;
  leads_location : option string
}.

(** How the [try] block of [create_leads] ends: the agent constructor or
    the lead search raises an exception with the given text, the agent has
    no lead creation agent, or the search returns its result. *)
Inductive LeadsOutcome : Type :=
| LeadsRaises (e : string)
| LeadsUnavailable
| LeadsResult (result : string).

(** What [create_leads] draws from outside. *)
Record LeadsEnv : Type := mk_leads_env {
  leads_current_time : Z;
  leads_outcome : LeadsOutcome
}.

Definition leads_missing_fields (req : LeadsRequest) : list string :=
  ((if Py.truthy (Py.or_else (leads_mocxha_url req) (leads_erpnext_url req))
    then [] else ["mocxha_url"])
   ++ (if Py.truthy (leads_username req) then [] else ["username"])
   ++ (if Py.truthy (leads_password req) then [] else ["password"])
   ++ (if Py.truthy (leads_google_api_key req) then []
       else ["google_api_key"])
   ++ (if Py.truthy (leads_business_type req) then []
       else ["business_type"])
   ++ (if Py.truthy (leads_location req) then [] else ["location"]))%list.

(** The entries of [last_requests] kept by the list comprehension. *)
Definition lead_recent_requests (current_time : Z) (last_requests : list Z)
  : list Z :=
  List.filter (fun t => Datetime.seconds (current_time - t) <? 300)
              last_requests.

(** [create_leads] over [app.lead_rate_limits]; the temporary agent is
    stored nowhere. *)
Definition create_leads (lead_rate_limits : gmap string (list Z))
    (req : LeadsRequest) (env : LeadsEnv)
  : gmap string (list Z) * (LeadsBody * Z) :=
  match leads_missing_fields req with
  | _ :: _ =>
      (lead_rate_limits,
       (LeadsError (String.append "Missing required fields: "
                      (Api.join ", " (leads_missing_fields req))), 400))
  | [] =>
      let client_ip := leads_remote_addr req in
      let current_time := leads_current_time env in
      let serve (limits : gmap string (list Z)) :=
        (limits,
         match leads_outcome env with
         | LeadsRaises e =>
             (LeadsError (String.append "Lead creation failed: " e), 500)
         | LeadsUnavailable =>
             (LeadsError
                "Lead creation not available. Google Maps API key required.",
              400)
         | LeadsResult result => (LeadsSuccess result, 200)
         end) in
      match lead_rate_limits !! client_ip with
      | Some last_requests =>
          let recent := lead_recent_requests current_time last_requests in
          if 5 <=? Z.of_nat (List.length recent) then
            (lead_rate_limits,
             (LeadsError "Rate limit exceeded. Please try again later.", 429))
          else serve (<[client_ip := (recent ++ [current_time])%list]>
                        lead_rate_limits)
      | None => serve (<[client_ip := [current_time]]> lead_rate_limits)
      end
  end.

End Routes.

(** ** [auth_manager.py]: accounts of the platform and their sessions *)

(** The [mocxha_credentials] dictionary of a user. *)
Record MocxhaCredentials : Type := mk_credentials {
  credentials_mocxha_url : string;
  credentials_username : string;
  credentials_password : string;
  credentials_site_base_url : string;
  credentials_saved_at : string
}.

(** The [User] data class. *)
Module User.

Record t : Type := mk {
  user_id : string;
  username : string;
  email : string;
  password_hash : string;
  role : string;
  is_active : bool;
  created_at : Z;
  last_login : option Z;
  mocxha_credentials : option MocxhaCredentials;
  profile_data : option string
}.

Definition set_password_hash (h : string) (u : t) : t :=
  mk (user_id u) (username u) (email u) h (role u) (is_active u)
     (created_at u) (last_login u) (mocxha_credentials u) (profile_data u).

Definition set_last_login (time : Z) (u : t) : t :=
  mk (user_id u) (username u) (email u) (password_hash u) (role u)
     (is_active u) (created_at u) (Some time) (mocxha_credentials u)
     (profile_data u).

Definition set_is_active (b : bool) (u : t) : t :=
  mk (user_id u) (username u) (email u) (password_hash u) (role u) b
     (created_at u) (last_login u) (mocxha_credentials u) (profile_data u).

Definition set_mocxha_credentials (c : MocxhaCredentials) (u : t) : t :=
  mk (user_id u) (username u) (email u) (password_hash u) (role u)
     (is_active u) (created_at u) (last_login u) (Some c) (profile_data u).

End User.

(** The [UserSession] data class of [auth_manager.py]. *)
Module AuthSession.

Record t : Type := mk {
  session_id : string;
  user_id : string;
  username : string;
  created_at : Z;
  last_activity : Z;
  is_active : bool;
  ip_address : string;
  user_agent : string
}.

Definition set_last_activity (time : Z) (s : t) : t :=
  mk (session_id s) (user_id s) (username s) (created_at s) time
     (is_active s) (ip_address s) (user_agent s).

Definition set_inactive (s : t) : t :=
  mk (session_id s) (user_id s) (username s) (created_at s)
     (last_activity s) false (ip_address s) (user_agent s).

End AuthSession.

(** The two collections of the manager, as its calls leave them (the
    seven-day expiry index of the database is not a call of the code). *)
Record AuthDb : Type := mk_auth_db {
  users_collection : list User.t;
  user_sessions_collection : list AuthSession.t
}.

(** The triple returned by the two authentication functions. *)
Record AuthResult : Type := mk_auth_result {
  auth_success : bool;
  auth_user : option User.t;
  auth_message : string
}.

(** The triple returned by [create_user]. *)
Record CreateUserResult : Type := mk_create_user_result {
  create_success : bool;
  create_password : option string;
  create_message : string
}.

Module AuthManager.

Definition _hash_password (password : string) : string :=
  Hashlib.sha256_hexdigest password.

Definition _verify_password (password password_hash : string) : bool :=
  String.eqb (_hash_password password) password_hash.

(** [_save_user]: [insert_one] under the unique indexes on [username],
    [email] and [user_id]; [None] is the [DuplicateKeyError]. *)
Definition _save_user (users : list User.t) (user : User.t)
  : option (list User.t) :=
  if existsb (fun u => String.eqb (User.username u) (User.username user)
                       || String.eqb (User.email u) (User.email user)
                       || String.eqb (User.user_id u) (User.user_id user))
             users
  then None
  else Some (users ++ [user])%list.

Definition admin_username : string := "Shamlan321".
Definition admin_password : string := "5h4ml4n321".

Definition is_admin_account (u : User.t) : bool :=
  String.eqb (User.username u) admin_username
  && String.eqb (User.role u) "admin".

Definition has_role_admin (u : User.t) : bool :=
  String.eqb (User.role u) "admin".

Definition has_admin_username (u : User.t) : bool :=
  String.eqb (User.username u) admin_username.

(** [_ensure_admin_exists]; [now] is the clock read for a new account,
    [None] the exception that the constructor lets through. *)
Definition _ensure_admin_exists (users : list User.t) (now : Z)
  : option (list User.t) :=
  match List.find is_admin_account users with
  | None =>
      let users1 :=
        match List.find has_role_admin users with
        | Some _ => Cursor.delete_one has_role_admin users
        | None => users
        end in
      let users2 :=
        match List.find has_admin_username users1 with
        | Some _ => Cursor.delete_one has_admin_username users1
        | None => users1
        end in
      _save_user users2
        (User.mk "admin_001" admin_username "admin@aida-platform.com"
                 (_hash_password admin_password) "admin" true now None None
                 None)
  | Some admin_user =>
      if negb (String.eqb (User.password_hash admin_user)
                          (_hash_password admin_password))
      then Some (Mongo.update_one is_admin_account
                   (User.set_password_hash (_hash_password admin_password))
                   users)
      else Some users
  end.

(** [authenticate_user]; [now] is the clock read for [last_login]. *)
Definition authenticate_user (users : list User.t)
    (username password : string) (now : Z) : list User.t * AuthResult :=
  match List.find (fun u => String.eqb (User.username u) username) users with
  | None => (users, mk_auth_result false None "Invalid username or password")
  | Some user =>
      if negb (User.is_active user) then
        (users, mk_auth_result false None "Account is deactivated")
      else if negb (_verify_password password (User.password_hash user)) then
        (users, mk_auth_result false None "Invalid username or password")
      else
        (Mongo.update_one
           (fun u => String.eqb (User.user_id u) (User.user_id user))
           (User.set_last_login now) users,
         mk_auth_result true (Some user) "Authentication successful")
  end.

(** [create_user_session] and [create_admin_session]: [token] is the value
    of [secrets.token_urlsafe(32)], [created] and [activity] the two clock
    readings; [None] is the [DuplicateKeyError] of the unique index on
    [session_id], which the function raises again. *)
Definition create_user_session (sessions : list AuthSession.t)
    (user : User.t) (ip_address user_agent token : string)
    (created activity : Z) : option (list AuthSession.t * string) :=
  if existsb (fun s => String.eqb (AuthSession.session_id s) token) sessions
  then None
  else Some ((sessions
              ++ [AuthSession.mk token (User.user_id user)
                    (User.username user) created activity true ip_address
                    user_agent])%list,
             token).

Definition create_admin_session := create_user_session.

Definition get_session (sessions : list AuthSession.t) (session_id : string)
  : option AuthSession.t :=
  List.find (fun s => String.eqb (AuthSession.session_id s) session_id
                      && AuthSession.is_active s)
            sessions.

Definition update_session_activity (sessions : list AuthSession.t)
    (session_id : string) (now : Z) : list AuthSession.t :=
  Mongo.update_one (fun s => String.eqb (AuthSession.session_id s) session_id)
                   (AuthSession.set_last_activity now) sessions.

Definition invalidate_session (sessions : list AuthSession.t)
    (session_id : string) : list AuthSession.t :=
  Mongo.update_one (fun s => String.eqb (AuthSession.session_id s) session_id)
                   AuthSession.set_inactive sessions.

(** [create_user]: [token] is the value of [secrets.token_hex(8)],
    [password] that of [_generate_password()], [now] the clock, and
    [error] the text of the exception [_save_user] may raise. *)
Definition create_user (users : list User.t) (username email role : string)
    (token password : string) (now : Z) (error : string)
  : list User.t * CreateUserResult :=
  match List.find (fun u => String.eqb (User.username u) username
                            || String.eqb (User.email u) email) users with
  | Some _ =>
      (users,
       mk_create_user_result false None "Username or email already exists")
  | None =>
      let user :=
        User.mk (String.append "user_" token) username email
                (_hash_password password) role true now None None None in
      match _save_user users user with
      | Some users' =>
          (users',
           mk_create_user_result true (Some password)
             (String.append "User "
                (String.append username " created successfully")))
      | None =>
          (users,
           mk_create_user_result false None
             (String.append "Failed to create user: " error))
      end
  end.

Definition by_user_id (user_id : string) (u : User.t) : bool :=
  String.eqb (User.user_id u) user_id.

Definition update_user_password (users : list User.t)
    (user_id new_password : string) : list User.t * bool :=
  (Mongo.update_one (by_user_id user_id)
     (User.set_password_hash (_hash_password new_password)) users,
   true).

Definition update_mocxha_credentials (users : list User.t)
    (user_id : string) (credentials : MocxhaCredentials)
  : list User.t * bool :=
  (Mongo.update_one (by_user_id user_id)
     (User.set_mocxha_credentials credentials) users,
   true).

Definition get_mocxha_credentials (users : list User.t) (user_id : string)
  : option MocxhaCredentials :=
  match List.find (by_user_id user_id) users with
  | Some user_data => User.mocxha_credentials user_data
  | None => None
  end.

Definition get_user_by_id (users : list User.t) (user_id : string)
  : option User.t :=
  List.find (by_user_id user_id) users.

Definition deactivate_user (users : list User.t) (user_id : string)
  : list User.t * bool :=
  (Mongo.update_one (by_user_id user_id) (User.set_is_active false) users,
   true).

Definition activate_user (users : list User.t) (user_id : string)
  : list User.t * bool :=
  (Mongo.update_one (by_user_id user_id) (User.set_is_active true) users,
   true).

Definition cleanup_expired_sessions (sessions : list AuthSession.t)
    (now : Z) : list AuthSession.t :=
  let cutoff_time := now - Datetime.timedelta_days 7 in
  Mongo.delete_many (fun s => AuthSession.last_activity s <? cutoff_time)
                    sessions.

(** [authenticate_admin]; [now] is the clock read for [last_login]. *)
Definition authenticate_admin (users : list User.t)
    (username password : string) (now : Z) : list User.t * AuthResult :=
  match List.find (fun u => String.eqb (User.username u) username) users with
  | None => (users, mk_auth_result false None "Invalid username or password")
  | Some user =>
      if negb (String.eqb (User.role user) "admin") then
        (users,
         mk_auth_result false None "Access denied. Admin privileges required.")
      else if negb (User.is_active user) then
        (users, mk_auth_result false None "Account is deactivated")
      else if negb (_verify_password password (User.password_hash user)) then
        (users, mk_auth_result false None "Invalid username or password")
      else
        (Mongo.update_one
           (fun u => String.eqb (User.user_id u) (User.user_id user))
           (User.set_last_login now) users,
         mk_auth_result true (Some user) "Authentication successful")
  end.

Definition get_admin_session (db : AuthDb) (session_id : string)
  : option AuthSession.t :=
  match get_session (user_sessions_collection db) session_id with
  | Some session_data =>
      match List.find (by_user_id (AuthSession.user_id session_data))
                      (users_collection db) with
      | Some user_data =>
          if String.eqb (User.role user_data) "admin"
          then Some session_data else None
      | None => None
      end
  | None => None
  end.

(** [update_admin_password]; the update counts as a modification when the
    stored hash changes. *)
Definition update_admin_password (users : list User.t)
    (username current_password new_password : string) (now : Z)
  : list User.t * (bool * string) :=
  let '(users1, result) :=
    authenticate_admin users username current_password now in
  match auth_success result, auth_user result with
  | true, Some user =>
      let new_password_hash := _hash_password new_password in
      match List.find (by_user_id (User.user_id user)) users1 with
      | Some stored =>
          if String.eqb (User.password_hash stored) new_password_hash
          then (users1, (false, "Failed to update password"))
          else (Mongo.update_one (by_user_id (User.user_id user))
                  (User.set_password_hash new_password_hash) users1,
                (true, "Password updated successfully"))
      | None => (users1, (false, "Failed to update password"))
      end
  | true, None => (users1, (false, "Failed to update password"))
  | false, _ => (users1, (false, auth_message result))
  end.

End AuthManager.

(** ** The account routes of [aida_api_server.py] *)

(** The JSON bodies of the account and chat routes. *)
Inductive AccountBody : Type :=
| AccountError (error : string)
| LoggedIn (message session_id user_id username role : string)
| SessionValid (user_id username : string)
| AccountSuccess (message : string)
| ChatList (chats : list ChatSummary)
| ChatFound (chat : ChatDetail)
| ChatSaved (chat_id message : string).

Module Account.

(** [auth_header.split(' ')[1]] for a header that starts with
    ["Bearer "]: the text up to the next space. *)
Fixpoint until_space (s : string) : string :=
  match s with
  | EmptyString => EmptyString
  | String c r => if Ascii.eqb c " "%char then EmptyString
                  else String c (until_space r)
  end.

(** The session identifier read from the [Authorization] header; [None]
    when the route answers 401 at once. *)
Definition bearer_token (auth_header : option string) : option string :=
  match auth_header with
  | Some h =>
      if String.prefix "Bearer " h
      then Some (until_space (String.substring 7 (String.length h - 7) h))
      else None
  | None => None
  end.

(** What [/auth/login] draws from outside. *)
Record LoginEnv : Type := mk_login_env {
  login_time : Z;
  login_token : string;
  login_created : Z;
  login_activity : Z
}.

(** [/auth/login] *)
Definition login (db : AuthDb) (username password : option string)
    (remote_addr user_agent : string) (env : LoginEnv)
  : AuthDb * (AccountBody * Z) :=
  if negb (Py.truthy username) || negb (Py.truthy password) then
    (db, (AccountError "Username and password are required", 400))
  else
    let '(users1, result) :=
      AuthManager.authenticate_user (users_collection db)
        (default EmptyString username) (default EmptyString password)
        (login_time env) in
    let db1 := mk_auth_db users1 (user_sessions_collection db) in
    match auth_success result, auth_user result with
    | true, Some user =>
        match AuthManager.create_user_session (user_sessions_collection db)
                user remote_addr user_agent (login_token env)
                (login_created env) (login_activity env) with
        | Some (sessions1, session_id) =>
            (mk_auth_db users1 sessions1,
             (LoggedIn (auth_message result) session_id (User.user_id user)
                       (User.username user) (User.role user), 200))
        | None => (db1, (AccountError "Authentication failed", 500))
        end
    | true, None => (db1, (AccountError "Authentication failed", 500))
    | false, _ => (db1, (AccountError (auth_message result), 401))
    end.

(** [/auth/check_session]; [now] is the clock read by
    [update_session_activity]. *)
Definition check_session (db : AuthDb) (auth_header : option string)
    (now : Z) : AuthDb * (AccountBody * Z) :=
  match bearer_token auth_header with
  | None => (db, (AccountError "No valid session token", 401))
  | Some session_id =>
      match AuthManager.get_session (user_sessions_collection db)
                                    session_id with
      | Some session =>
          if AuthSession.is_active session then
            (mk_auth_db (users_collection db)
               (AuthManager.update_session_activity
                  (user_sessions_collection db) session_id now),
             (SessionValid (AuthSession.user_id session)
                           (AuthSession.username session), 200))
          else (db, (AccountError "Invalid or expired session", 401))
      | None => (db, (AccountError "Invalid or expired session", 401))
      end
  end.

(** [/auth/logout] *)
Definition logout (db : AuthDb) (auth_header : option string)
  : AuthDb * (AccountBody * Z) :=
  match bearer_token auth_header with
  | None => (db, (AccountError "No valid session token", 401))
  | Some session_id =>
      (mk_auth_db (users_collection db)
         (AuthManager.invalidate_session (user_sessions_collection db)
                                         session_id),
       (AccountSuccess "Logged out successfully", 200))
  end.

(** The session of an authenticated request: [None] is the answer 401
    ["Invalid session"]. *)
Definition valid_session (db : AuthDb) (session_id : string)
  : option AuthSession.t :=
  match AuthManager.get_session (user_sessions_collection db) session_id with
  | Some session =>
      if AuthSession.is_active session then Some session else None
  | None => None
  end.

(** [/auth/change_password] *)
Definition change_password (db : AuthDb) (auth_header : option string)
    (current_password new_password : option string)
  : AuthDb * (AccountBody * Z) :=
  match bearer_token auth_header with
  | None => (db, (AccountError "No valid session token", 401))
  | Some session_id =>
      match valid_session db session_id with
      | None => (db, (AccountError "Invalid session", 401))
      | Some session =>
          if negb (Py.truthy current_password)
             || negb (Py.truthy new_password)
          then (db, (AccountError
                       "Current password and new password are required",
                     400))
          else
            match AuthManager.get_user_by_id (users_collection db)
                    (AuthSession.user_id session) with
            | None => (db, (AccountError "User not found", 404))
            | Some user =>
                if negb (AuthManager._verify_password
                           (default EmptyString current_password)
                           (User.password_hash user))
                then (db, (AccountError "Current password is incorrect", 401))
                else
                  let '(users1, success) :=
                    AuthManager.update_user_password (users_collection db)
                      (AuthSession.user_id session)
                      (default EmptyString new_password) in
                  if success then
                    (mk_auth_db users1 (user_sessions_collection db),
                     (AccountSuccess "Password changed successfully", 200))
                  else
                    (mk_auth_db users1 (user_sessions_collection db),
                     (AccountError "Failed to change password", 500))
            end
      end
  end.

(** [/get_recent_chats] *)
Definition get_recent_chats (db : AuthDb) (chats : list Chat.t)
    (auth_header : option string) : AccountBody * Z :=
  match bearer_token auth_header with
  | None => (AccountError "Authentication required", 401)
  | Some session_id =>
      match valid_session db session_id with
      | None => (AccountError "Invalid session", 401)
      | Some session =>
          (ChatList
             (MongoDBManagerChats.get_recent_chats chats
                (Some (AuthSession.user_id session)) None 20),
           200)
      end
  end.

(** [/get_chat/<chat_id>] *)
Definition get_chat (db : AuthDb) (chats : list Chat.t)
    (auth_header : option string) (chat_id : string) : AccountBody * Z :=
  match bearer_token auth_header with
  | None => (AccountError "Authentication required", 401)
  | Some session_id =>
      match valid_session db session_id with
      | None => (AccountError "Invalid session", 401)
      | Some session =>
          match MongoDBManagerChats.get_chat_by_id chats chat_id
                  (Some (AuthSession.user_id session)) with
          | Some chat => (ChatFound chat, 200)
          | None => (AccountError "Chat not found", 404)
          end
      end
  end.

(** The JSON body of [/save_chat]. *)
Record SaveChatRequest : Type := mk_save_chat_request {
  save_session_id : option string;
  save_title : option string;
  save_preview : option string;
  save_messages : option (list string)
}.

(** [/save_chat]; [new_id], [created] and [updated] are drawn by
    [MongoDBManager.save_chat]. *)
Definition save_chat (db : AuthDb) (st : Store) (chats : list Chat.t)
    (auth_header : option string) (req : SaveChatRequest)
    (new_id : string) (created updated : Z)
  : list Chat.t * (AccountBody * Z) :=
  match bearer_token auth_header with
  | None => (chats, (AccountError "Authentication required", 401))
  | Some session_id =>
      match valid_session db session_id with
      | None => (chats, (AccountError "Invalid session", 401))
      | Some _ =>
          if negb (Py.truthy (save_session_id req)) then
            (chats, (AccountError "Session ID required", 400))
          else
            match MongoDBManagerChats.save_chat st chats
                    (default EmptyString (save_session_id req))
                    (default "New Chat" (save_title req))
                    (default EmptyString (save_preview req))
                    (default [] (save_messages req))
                    new_id created updated with
            | Some (chats', chat_id) =>
                (chats', (ChatSaved chat_id "Chat saved successfully", 200))
            | None => (chats, (AccountError "Failed to save chat", 500))
            end
      end
  end.

(** [/delete_chat/<chat_id>] *)
Definition delete_chat (db : AuthDb) (chats : list Chat.t)
    (auth_header : option string) (chat_id : string)
  : list Chat.t * (AccountBody * Z) :=
  match bearer_token auth_header with
  | None => (chats, (AccountError "Authentication required", 401))
  | Some session_id =>
      match valid_session db session_id with
      | None => (chats, (AccountError "Invalid session", 401))
      | Some session =>
          let '(chats', success) :=
            MongoDBManagerChats.delete_chat chats chat_id
              (Some (AuthSession.user_id session)) in
          if success
          then (chats', (AccountSuccess "Chat deleted successfully", 200))
          else (chats', (AccountError "Chat not found", 404))
      end
  end.

End Account.

(** ** Sample accounts *)

Module SampleAccounts.

Definition user (uid name password role : string) (active : bool) : User.t :=
  User.mk uid name (String.append name "@example.com")
          (AuthManager._hash_password password) role active 0 None None None.

(** The administrator with the password of the code, [alice], and the
    deactivated [bob]. *)
Definition users : list User.t :=
  [user "admin_001" "Shamlan321" "5h4ml4n321" "admin" true;
   user "user_a1" "alice" "pw-a" "user" true;
   user "user_b2" "bob" "pw-b" "user" false].

Definition login_env (time : Z) (token : string) : Account.LoginEnv :=
  Account.mk_login_env time token time time.

End SampleAccounts.

(** * Properties *)

(** ** Test vectors of the hash functions *)

Example sha256_abc :
  Hashlib.sha256_hexdigest "abc"
  = "ba7816bf8f01cfea414140de5dae2223b00361a396177a9cb410ff61f20015ad".
Proof. vm_compute. reflexivity. Qed.

Example sha256_empty :
  Hashlib.sha256_hexdigest ""
  = "e3b0c44298fc1c149afbf4c8996fb92427ae41e4649b934ca495991b7852b855".
Proof. vm_compute. reflexivity. Qed.

Example sha256_two_blocks :
  Hashlib.sha256_hexdigest
    "aaaaaaaaaaaaaaaaaaaaaaaaaaaaaaaaaaaaaaaaaaaaaaaaaaaaaaaaaaaaaaaaaaaaaa"
  = "6bd5e5034855a11241f0dee8fc72850ffd9955b28347a86428b5fa19119f6ad0".
Proof. vm_compute. reflexivity. Qed.

Example md5_abc :
  Hashlib.md5_hexdigest "abc" = "900150983cd24fb0d6963f7d28e17f72".
Proof. vm_compute. reflexivity. Qed.

Example md5_empty :
  Hashlib.md5_hexdigest "" = "d41d8cd98f00b204e9800998ecf8427e".
Proof. vm_compute. reflexivity. Qed.

Example md5_two_blocks :
  Hashlib.md5_hexdigest
    "aaaaaaaaaaaaaaaaaaaaaaaaaaaaaaaaaaaaaaaaaaaaaaaaaaaaaaaaaaaaaaaaaaaaaa"
  = "0f5c6c4e740bfcc08c3c26ccb2673d46".
Proof. vm_compute. reflexivity. Qed.

Example sha256_latin1 :
  Hashlib.sha256_hexdigest (String (Py.chr 233) EmptyString)
  = "4a99557e4033c3539de2eb65472017cad5f9557f7a0625a09f1c3f6e2ba69c4c".
Proof. vm_compute. reflexivity. Qed.

(** ** The built-ins and the derived identifiers on known values *)

Example strip_example :
  Py.strip (String (Py.chr 9) " hello world  ") = "hello world".
Proof. vm_compute. reflexivity. Qed.

Example rstrip_char_example :
  Py.rstrip_char "/" "https://crm.example.com///" = "https://crm.example.com".
Proof. vm_compute. reflexivity. Qed.

Example lower_example :
  Py.lower "HTTPS://CRM.Example.com/Path" = "https://crm.example.com/path".
Proof. vm_compute. reflexivity. Qed.

Example seconds_example :
  Datetime.seconds (Datetime.day + 5 * Datetime.second + 999999) = 5
  /\ Datetime.seconds (- (Datetime.day + 5 * Datetime.second)) = 86395
  /\ Datetime.seconds (59 * Datetime.second + 999999) = 59.
Proof. vm_compute. repeat split. Qed.

Example user_identifier_example :
  MongoDBManager._generate_user_identifier "Alice" "https://crm.example.com/"
  = "a55e8fbd52a0d613".
Proof. vm_compute. reflexivity. Qed.

Example browser_fingerprint_example :
  MongoDBManager._generate_browser_fingerprint "UA-A" "10.0.0.1"
  = "56eda5eee2ed7b75cf99b75af51d1a20".
Proof. vm_compute. reflexivity. Qed.

Example hash_credential_example :
  MongoDBManager._hash_credential "pw1"
  = "c592df4a86933b92addc9842402ddf198c638ea9be58916ee6e3734e1e3152f8".
Proof. vm_compute. reflexivity. Qed.

Example format_history_example :
  Api.format_history
    [mk_item "user" "a" 1 None; mk_item "user" "b" 2 None;
     mk_item "assistant" "B" 3 None; mk_item "assistant" "C" 4 None]
  = [mk_pair 1 "a" EmptyString; mk_pair 2 "b" "B"].
Proof. reflexivity. Qed.

(** ** Strings *)

Section StringFacts.

Lemma lower_char_slash c :
  Ascii.eqb (Py.lower_char c) "/" = Ascii.eqb c "/".
Proof. destruct c as [[] [] [] [] [] [] [] []]; vm_compute; reflexivity. Qed.

Lemma lower_char_idem c : Py.lower_char (Py.lower_char c) = Py.lower_char c.
Proof. destruct c as [[] [] [] [] [] [] [] []]; vm_compute; reflexivity. Qed.

Lemma lower_idem s : Py.lower (Py.lower s) = Py.lower s.
Proof.
  induction s as [|c r IH]; simpl; [reflexivity|].
  now rewrite lower_char_idem, IH.
Qed.

Lemma is_empty_lower s : Py.is_empty (Py.lower s) = Py.is_empty s.
Proof. now destruct s. Qed.

Lemma lower_rstrip_char s :
  Py.lower (Py.rstrip_char "/" s) = Py.rstrip_char "/" (Py.lower s).
Proof.
  induction s as [|c r IH]; simpl; [reflexivity|].
  rewrite <- IH, is_empty_lower, lower_char_slash.
  destruct (Py.is_empty (Py.rstrip_char "/" r) && Ascii.eqb c "/");
    reflexivity.
Qed.

Lemma rstrip_char_slashes n : Py.rstrip_char "/" (slashes n) = EmptyString.
Proof. induction n as [|k IH]; simpl; [reflexivity|]. now rewrite IH. Qed.

Lemma rstrip_char_append_slashes s n :
  Py.rstrip_char "/" (String.append s (slashes n)) = Py.rstrip_char "/" s.
Proof.
  induction s as [|c r IH]; simpl.
  - apply rstrip_char_slashes.
  - now rewrite IH.
Qed.

Lemma is_empty_true s : Py.is_empty s = true -> s = EmptyString.
Proof. now destruct s. Qed.

Lemma is_empty_false s : Py.is_empty s = false <-> s <> EmptyString.
Proof. destruct s; simpl; split; intro H; congruence. Qed.

Lemma truthy_some s : Py.truthy (Some s) = true <-> s <> EmptyString.
Proof.
  unfold Py.truthy. rewrite negb_true_iff. apply is_empty_false.
Qed.

End StringFacts.

(** ** The tenant key (C9) *)

Section TenantKey.

Import MongoDBManager.

(** C9, as the code has it: the tenant key is the first 16 hexadecimal
    characters of the SHA-256 digest of [lowercase(u) + "@" + normalize(e)],
    where [normalize] strips the trailing slashes of [e] and puts the whole
    of it in lower case; hence adding trailing slashes, or changing the
    letter case of the user name or of any part of the URL, leaves the key
    unchanged. *)
Theorem tenant_key_lowercases_whole_url (u e : string) :
  _generate_user_identifier u e
  = Py.prefix 16
      (Hashlib.sha256_hexdigest
         (String.append (Py.lower u)
            (String "@" (Py.lower (Py.rstrip_char "/" e)))))
  /\ (forall n,
        _generate_user_identifier u (String.append e (slashes n))
        = _generate_user_identifier u e)
  /\ _generate_user_identifier (Py.lower u) (Py.lower e)
     = _generate_user_identifier u e.
Proof.
  unfold _generate_user_identifier. split; [reflexivity | split].
  - intro n. rewrite rstrip_char_append_slashes. reflexivity.
  - rewrite lower_idem, <- lower_rstrip_char, lower_idem. reflexivity.
Qed.

(** C9 as stated fails: with an upper-case letter in the path, the key of
    the code is not the digest of the string whose URL has only its host
    in lower case; the code gives the same key to the URL with the path in
    lower case, which is a different string after the stated
    normalization. *)
Lemma tenant_key_path_case_counterexample :
  _generate_user_identifier "alice" "https://crm.example.com/Path"
  <> TenantKeySpec.tenantKey "alice" "https://crm.example.com/Path"
  /\ TenantKeySpec.normalize "https://CRM.example.com/Path/"
     = "https://crm.example.com/Path"
  /\ _generate_user_identifier "alice" "https://crm.example.com/Path"
     = _generate_user_identifier "alice" "https://crm.example.com/path".
Proof.
  split; [| split].
  - vm_compute. discriminate.
  - vm_compute. reflexivity.
  - vm_compute. reflexivity.
Qed.

End TenantKey.

(** ** Collections *)

Section MongoFacts.

Context {A : Type}.
Variable key : A -> Z.

Lemma first_desc_in l x : Mongo.first_desc key l = Some x -> In x l.
Proof.
  revert x. induction l as [|y r IH]; simpl; intros x H; [discriminate|].
  destruct (Mongo.first_desc key r) as [m|] eqn:E.
  - destruct (key y <? key m); inversion H; subst; auto.
  - inversion H; auto.
Qed.

Lemma first_desc_max l x :
  Mongo.first_desc key l = Some x -> forall y, In y l -> key y <= key x.
Proof.
  revert x. induction l as [|z r IH]; simpl; intros x H y Hy; [tauto|].
  destruct (Mongo.first_desc key r) as [m|] eqn:E.
  - specialize (IH m eq_refl).
    destruct (Z.ltb_spec (key z) (key m)); inversion H; subst;
      destruct Hy as [->|Hy]; try lia; specialize (IH y Hy); lia.
  - inversion H; subst. destruct Hy as [->|Hy]; [lia|].
    destruct r; [destruct Hy | simpl in E].
    destruct (Mongo.first_desc key r); [destruct (_ <? _)|]; discriminate.
Qed.

Lemma first_desc_none l : Mongo.first_desc key l = None -> l = [].
Proof.
  destruct l as [|y r]; simpl; [reflexivity|].
  destruct (Mongo.first_desc key r); [destruct (_ <? _)|]; discriminate.
Qed.

Lemma first_desc_app_last l x :
  (forall y, In y l -> key y < key x) ->
  Mongo.first_desc key (l ++ [x]) = Some x.
Proof.
  induction l as [|y r IH]; simpl; intros H; [reflexivity|].
  rewrite IH by auto.
  destruct (Z.ltb_spec (key y) (key x)); [reflexivity|].
  specialize (H y (or_introl eq_refl)). lia.
Qed.

Lemma find_one_desc_some p l x :
  Mongo.find_one_desc p key l = Some x ->
  In x l /\ p x = true
  /\ forall y, In y l -> p y = true -> key y <= key x.
Proof.
  unfold Mongo.find_one_desc. intro H.
  pose proof (first_desc_in _ _ H) as Hin.
  apply List.filter_In in Hin. destruct Hin as [Hin Hp].
  repeat split; auto.
  intros y Hy Hpy. apply (first_desc_max _ _ H).
  apply List.filter_In. auto.
Qed.

Lemma find_one_desc_none p l :
  Mongo.find_one_desc p key l = None ->
  forall y, In y l -> p y = false.
Proof.
  unfold Mongo.find_one_desc. intros H y Hy.
  apply first_desc_none in H.
  destruct (p y) eqn:E; [|reflexivity].
  assert (In y (List.filter p l)) as Hin by (apply List.filter_In; auto).
  rewrite H in Hin. destruct Hin.
Qed.

Lemma insert_asc_perm x l : Permutation (Mongo.insert_asc key x l) (x :: l).
Proof.
  induction l as [|y r IH]; simpl; [reflexivity|].
  destruct (key x <? key y); [reflexivity|].
  rewrite IH. apply perm_swap.
Qed.

Lemma sort_asc_perm l : Permutation (Mongo.sort_asc key l) l.
Proof.
  induction l as [|y r IH]; simpl; [reflexivity|].
  rewrite insert_asc_perm. now constructor.
Qed.

End MongoFacts.

Section ListFacts.

Context {A : Type}.

(** The limits with which the cursor returns every document of [l]. *)
Lemma limit_all (n : Z) (l : list A) :
  n = 0
  \/ (0 < n <= Mongo.int64_max /\ Z.of_nat (List.length l) <= n)
  \/ (- Mongo.int64_max <= n < 0 /\ Z.of_nat (List.length l) <= - n
      /\ (List.length l <= Mongo.first_batch)%nat) ->
  Mongo.limit n l = Some l.
Proof.
  unfold Mongo.limit. intros [->|[[Hn Hl]|[Hn [Hl Hb]]]]; [reflexivity| |].
  - destruct (Z.eqb_spec n 0); [reflexivity|].
    destruct (Z.ltb_spec Mongo.int64_max (Z.abs n)); [lia|].
    destruct (Z.ltb_spec 0 n); [|lia].
    f_equal. apply firstn_all2. lia.
  - destruct (Z.eqb_spec n 0); [reflexivity|].
    destruct (Z.ltb_spec Mongo.int64_max (Z.abs n)); [lia|].
    destruct (Z.ltb_spec 0 n); [lia|].
    f_equal. apply firstn_all2. lia.
Qed.

Lemma limit_some_incl (n : Z) (l l' : list A) x :
  Mongo.limit n l = Some l' -> In x l' -> In x l.
Proof.
  assert (forall k, In x (firstn k l) -> In x l) as Hk.
  { intro k. rewrite <- (List.firstn_skipn k l) at 2. intro H.
    apply in_or_app. now left. }
  unfold Mongo.limit.
  destruct (n =? 0); [intros [= <-]; auto|].
  destruct (Mongo.int64_max <? Z.abs n); [discriminate|].
  destruct (0 <? n); intros [= <-]; apply Hk.
Qed.

Lemma limit_some_length (n : Z) (l l' : list A) :
  Mongo.limit n l = Some l' -> n <> 0 ->
  Z.of_nat (List.length l') <= Z.abs n.
Proof.
  unfold Mongo.limit. destruct (Z.eqb_spec n 0); [congruence|].
  destruct (Mongo.int64_max <? Z.abs n); [discriminate|].
  destruct (0 <? n); intros [= <-] _; rewrite List.length_firstn; lia.
Qed.

Lemma update_one_map {B} (g : A -> B) p f l :
  (forall x, g (f x) = g x) ->
  List.map g (Mongo.update_one p f l) = List.map g l.
Proof.
  intro H. induction l as [|x r IH]; simpl; [reflexivity|].
  destruct (p x); simpl; [now rewrite H | now rewrite IH].
Qed.

Lemma nodup_map_inj {B} (g : A -> B) l x y :
  List.NoDup (List.map g l) -> In x l -> In y l -> g x = g y -> x = y.
Proof.
  induction l as [|z r IH]; simpl; intros Hnd Hx Hy Hg; [tauto|].
  inversion Hnd as [|? ? Hni Hnd']; subst.
  destruct Hx as [->|Hx], Hy as [->|Hy]; auto.
  - exfalso. apply Hni. rewrite Hg. now apply in_map.
  - exfalso. apply Hni. rewrite <- Hg. now apply in_map.
Qed.

End ListFacts.

(** ** The session store *)

Section StoreFacts.

Import MongoDBManager UserSession.

Lemma mem_string_in x l : mem_string x l = true <-> In x l.
Proof.
  unfold mem_string. rewrite existsb_exists. split.
  - intros [y [Hy E]]. apply String.eqb_eq in E. now subst.
  - intro H. exists x. split; [assumption | apply String.eqb_refl].
Qed.

Lemma filter_none {A} (p : A -> bool) l :
  (forall x, In x l -> p x = false) -> List.filter p l = [].
Proof.
  induction l as [|x r IH]; simpl; intro H; [reflexivity|].
  rewrite (H x) by auto. apply IH. auto.
Qed.

Lemma filter_all {A} (p : A -> bool) l :
  (forall x, In x l -> p x = true) -> List.filter p l = l.
Proof.
  induction l as [|x r IH]; simpl; intro H; [reflexivity|].
  rewrite (H x) by auto. f_equal. apply IH. auto.
Qed.

(** A session identifier determines its document when identifiers are
    unique. *)
Lemma session_of_id st s s' :
  List.NoDup (session_ids st) ->
  In s (sessions_collection st) -> In s' (sessions_collection st) ->
  session_id s' = session_id s -> s' = s.
Proof.
  intros Hnd Hs Hs' E.
  apply (nodup_map_inj session_id (sessions_collection st)); assumption.
Qed.

Lemma get_session_some st sid s :
  get_session st sid = Some s ->
  In s (sessions_collection st) /\ session_id s = sid /\ is_active s = true.
Proof.
  unfold get_session. intro H. apply List.find_some in H.
  destruct H as [Hin H]. apply andb_true_iff in H. destruct H as [E Ha].
  apply String.eqb_eq in E. auto.
Qed.

Lemma get_session_unique st s :
  List.NoDup (session_ids st) -> In s (sessions_collection st) ->
  get_session st (session_id s) = if is_active s then Some s else None.
Proof.
  intros Hnd Hs. destruct (get_session st (session_id s)) as [s'|] eqn:E.
  - apply get_session_some in E. destruct E as [Hin [Hid Ha]].
    assert (s' = s) by (eapply session_of_id; eauto). subst.
    now rewrite Ha.
  - unfold get_session in E.
    pose proof (List.find_none _ _ E s Hs) as H. simpl in H.
    rewrite String.eqb_refl in H. simpl in H. now rewrite H.
Qed.

(** Whatever the matcher returns is the identifier of an active document
    that was accessed inside the window. *)
Lemma find_existing_session_some st ua ip url u uid now sid :
  find_existing_session st ua ip url u uid now = Some sid ->
  exists s, In s (sessions_collection st) /\ session_id s = sid
            /\ is_active s = true
            /\ now - Datetime.timedelta_days 30 <= last_accessed s.
Proof.
  unfold find_existing_session. intro H.
  assert (forall p, (forall x, p x = true ->
                       is_active x = true
                       /\ now - Datetime.timedelta_days 30 <= last_accessed x) ->
            match Mongo.find_one_desc p last_accessed (sessions_collection st) with
            | Some d => Some (session_id d)
            | None => None
            end = Some sid ->
            exists s, In s (sessions_collection st) /\ session_id s = sid
                      /\ is_active s = true
                      /\ now - Datetime.timedelta_days 30 <= last_accessed s)
    as Hone.
  { intros p Hp Hf.
    destruct (Mongo.find_one_desc p last_accessed (sessions_collection st))
      as [d|] eqn:E; [|discriminate].
    inversion Hf; subst. apply find_one_desc_some in E.
    destruct E as [Hin [Hpd _]]. destruct (Hp d Hpd). eauto. }
  assert (forall x, by_fingerprint (_generate_user_identifier u url)
                      (_generate_browser_fingerprint ua ip)
                      (now - Datetime.timedelta_days 30) x = true ->
                    is_active x = true
                    /\ now - Datetime.timedelta_days 30 <= last_accessed x)
    as Hfp.
  { intros x Hx. unfold by_fingerprint in Hx.
    repeat (apply andb_true_iff in Hx; destruct Hx as [Hx ?]).
    split; [assumption | lia]. }
  destruct (Py.truthy uid); [|eapply Hone; eauto].
  destruct (Mongo.find_one_desc
              (by_user_id (default EmptyString uid) url
                          (now - Datetime.timedelta_days 30))
              last_accessed (sessions_collection st)) as [d|] eqn:E;
    [|eapply Hone; eauto].
  inversion H; subst. apply find_one_desc_some in E.
  destruct E as [Hin [Hpd _]]. unfold by_user_id in Hpd.
  repeat (apply andb_true_iff in Hpd; destruct Hpd as [Hpd ?]).
  exists d. repeat split; auto. lia.
Qed.

Lemma history_ignores_sessions st st' sid limit :
  messages_collection st' = messages_collection st ->
  get_chat_history st' sid limit = get_chat_history st sid limit.
Proof. unfold get_chat_history. now intros ->. Qed.

Lemma deactivate_keeps_history st sid sid' limit :
  get_chat_history (deactivate_session st sid) sid' limit
  = get_chat_history st sid' limit.
Proof. now apply history_ignores_sessions. Qed.


(** The history is the cursor's documents, none when the read raises. *)
Lemma get_chat_history_eq st sid limit :
  get_chat_history st sid limit
  = List.map history_item
      (default []
         (Mongo.limit limit
            (Mongo.sort_asc ChatMessage.timestamp
               (List.filter
                  (fun m => String.eqb (ChatMessage.session_id m) sid)
                  (messages_collection st))))).
Proof. unfold get_chat_history. now destruct (Mongo.limit _ _). Qed.


End StoreFacts.

(** ** The sweep (C4) *)

Section Sweep.

Import MongoDBManager UserSession.

Lemma expired_ids_of_message cutoff l sid :
  mem_string sid (List.map session_id (List.filter (expired cutoff) l))
  = existsb (fun s => expired cutoff s && String.eqb (session_id s) sid) l.
Proof.
  unfold mem_string.
  induction l as [|s r IH]; simpl; [reflexivity|].
  destruct (expired cutoff s); simpl; [|assumption].
  rewrite String.eqb_sym. f_equal. exact IH.
Qed.

Lemma expired_ids_of_session cutoff l s :
  List.NoDup (List.map session_id l) -> In s l ->
  mem_string (session_id s)
             (List.map session_id (List.filter (expired cutoff) l))
  = expired cutoff s.
Proof.
  intros Hnd Hs.
  destruct (mem_string _ _) eqn:E.
  - apply mem_string_in in E. apply in_map_iff in E.
    destruct E as [s' [Hid Hs']]. apply List.filter_In in Hs'.
    destruct Hs' as [Hin He].
    assert (s' = s) by (eapply nodup_map_inj; eauto). now subst.
  - destruct (expired cutoff s) eqn:He; [|reflexivity].
    assert (mem_string (session_id s)
              (List.map session_id (List.filter (expired cutoff) l)) = true)
      as H; [|congruence].
    apply mem_string_in. apply in_map. apply List.filter_In. auto.
Qed.

(** The cut-off date exists exactly within the two ranges. *)
Lemma sub_timedelta_days_some now days :
  Z.abs days <= Datetime.max_timedelta_days ->
  Datetime.min_datetime <= now - Datetime.timedelta_days days
                        <= Datetime.max_datetime ->
  Datetime.sub_timedelta_days now days
  = Some (now - Datetime.timedelta_days days).
Proof.
  intros Hd [Hmin Hmax]. unfold Datetime.sub_timedelta_days.
  apply Z.leb_le in Hd, Hmin, Hmax. now rewrite Hd, Hmin, Hmax.
Qed.

Lemma sub_timedelta_days_none now days :
  Datetime.max_timedelta_days < Z.abs days
  \/ now - Datetime.timedelta_days days < Datetime.min_datetime
  \/ Datetime.max_datetime < now - Datetime.timedelta_days days ->
  Datetime.sub_timedelta_days now days = None.
Proof.
  intro H. unfold Datetime.sub_timedelta_days.
  destruct (Z.leb_spec (Z.abs days) Datetime.max_timedelta_days);
    [|reflexivity].
  destruct (Z.leb_spec Datetime.min_datetime
              (now - Datetime.timedelta_days days)); [|reflexivity].
  destruct (Z.leb_spec (now - Datetime.timedelta_days days)
              Datetime.max_datetime); [|reflexivity].
  lia.
Qed.

Lemma sub_timedelta_days_value now days cutoff :
  Datetime.sub_timedelta_days now days = Some cutoff ->
  cutoff = now - Datetime.timedelta_days days.
Proof.
  unfold Datetime.sub_timedelta_days.
  destruct (_ && _); [now intros [= <-] | discriminate].
Qed.

(** The [if expired_sessions:] test changes nothing: with no expired
    session the two deletions remove nothing. *)
Lemma cleanup_expired_sessions_eq st days now cutoff :
  Datetime.sub_timedelta_days now days = Some cutoff ->
  cleanup_expired_sessions st days now
  = Some
      (let ids :=
         List.map session_id
           (List.filter (expired cutoff) (sessions_collection st)) in
       mk_store
         (Mongo.delete_many (fun s => mem_string (session_id s) ids)
                            (sessions_collection st))
         (Mongo.delete_many
            (fun m => mem_string (ChatMessage.session_id m) ids)
            (messages_collection st)),
       None).
Proof.
  intro Hc. unfold cleanup_expired_sessions. rewrite Hc.
  destruct (List.filter _ (sessions_collection st)) eqn:E; [|reflexivity].
  simpl. unfold Mongo.delete_many. simpl.
  rewrite !filter_all by reflexivity. now destruct st.
Qed.

Lemma cleanup_expired_sessions_raises st days now :
  Datetime.sub_timedelta_days now days = None ->
  cleanup_expired_sessions st days now = None.
Proof. intro Hc. unfold cleanup_expired_sessions. now rewrite Hc. Qed.

(** What a sweep with a given cut-off keeps. *)
Lemma sweep_kept_sessions st cutoff :
  List.NoDup (session_ids st) ->
  Mongo.delete_many
    (fun s => mem_string (session_id s)
       (List.map session_id
          (List.filter (expired cutoff) (sessions_collection st))))
    (sessions_collection st)
  = List.filter (fun s => (cutoff <=? last_accessed s) && is_active s)
                (sessions_collection st).
Proof.
  intro Hnd. unfold Mongo.delete_many. apply List.filter_ext_in.
  intros s Hin. rewrite expired_ids_of_session by assumption.
  unfold expired.
  destruct (is_active s), (Z.ltb_spec (last_accessed s) cutoff),
    (Z.leb_spec cutoff (last_accessed s)); simpl; try reflexivity; lia.
Qed.

(** C4, as the code has it: in a store whose session identifiers are
    unique, and for a number of days whose cut-off date [now - days] exists
    (at most 999999999 days in absolute value, the date within the
    calendar), the sweep keeps, in order and unchanged, exactly the sessions
    that are active and were accessed at or after the cut-off, and exactly
    the messages whose session is not among the deleted ones; the number of
    deleted sessions is the number of expired ones; and the function
    returns nothing.  For any other number of days the computation of the
    cut-off raises: the sweep reads and deletes nothing. *)
Theorem sweep_deletes_expired_returns_none (st : Store) (days now : Z) :
  List.NoDup (session_ids st) ->
  let cutoff := now - Datetime.timedelta_days days in
  (Z.abs days <= Datetime.max_timedelta_days ->
   Datetime.min_datetime <= cutoff <= Datetime.max_datetime ->
   exists result,
     cleanup_expired_sessions st days now = Some result
     /\ sessions_collection (fst result)
        = List.filter (fun s => (cutoff <=? last_accessed s) && is_active s)
                      (sessions_collection st)
     /\ messages_collection (fst result)
        = List.filter
            (fun m => negb (existsb
                              (fun s => ((last_accessed s <? cutoff)
                                         || negb (is_active s))
                                        && String.eqb (session_id s)
                                             (ChatMessage.session_id m))
                              (sessions_collection st)))
            (messages_collection st)
     /\ List.length (sessions_collection st)
        = (List.length (sessions_collection (fst result))
           + List.length (List.filter (expired cutoff)
                            (sessions_collection st)))%nat
     /\ snd result = None)
  /\ (Datetime.max_timedelta_days < Z.abs days
      \/ cutoff < Datetime.min_datetime \/ Datetime.max_datetime < cutoff ->
      cleanup_expired_sessions st days now = None).
Proof.
  intros Hnd cutoff. split.
  - intros Hdays Hrange. eexists. split.
    { apply cleanup_expired_sessions_eq.
      now apply sub_timedelta_days_some. }
    fold cutoff. cbn [fst snd sessions_collection messages_collection].
    rewrite (sweep_kept_sessions st cutoff Hnd). repeat split.
    + unfold Mongo.delete_many. apply List.filter_ext. intro m.
      now rewrite expired_ids_of_message.
    + clear. induction (sessions_collection st) as [|s r IH]; simpl;
        [reflexivity|].
      unfold expired in *.
      destruct (is_active s), (Z.ltb_spec (last_accessed s) cutoff),
        (Z.leb_spec cutoff (last_accessed s)); simpl; try lia.
  - intro Hout. apply cleanup_expired_sessions_raises.
    now apply sub_timedelta_days_none.
Qed.

(** The theorem at the sample store: [S1] (inactive) and [S3] (31 days
    old) go with the two messages of [S1]; [S2] and its message stay.  A
    sweep of a million days raises. *)
Lemma sweep_deletes_expired_returns_none_witness :
  cleanup_expired_sessions Sample.store 30 Sample.now
  = Some (mk_store
            [Sample.session "S2" (Sample.seconds_ago 60) true]
            [Sample.message "m3" "S2" (Sample.seconds_ago 60) "user"
                            "list leads"],
          None)
  /\ cleanup_expired_sessions Sample.store 1000000 Sample.now = None.
Proof.
  assert (List.NoDup (session_ids Sample.store)) as Hnd.
  { unfold session_ids. simpl. repeat constructor; simpl; intuition discriminate. }
  destruct (sweep_deletes_expired_returns_none Sample.store 30 Sample.now Hnd)
    as [Hin _].
  destruct (sweep_deletes_expired_returns_none Sample.store 1000000 Sample.now
              Hnd) as [_ Hout].
  destruct (Hin ltac:(vm_compute; discriminate)
                ltac:(split; vm_compute; discriminate))
    as [[st' r] [Hsweep [Hs [Hm [_ Hr]]]]].
  cbn [fst snd] in Hs, Hm, Hr. split.
  - rewrite Hsweep. destruct st' as [ss ms].
    cbn [sessions_collection messages_collection] in Hs, Hm.
    rewrite Hs, Hm, Hr. reflexivity.
  - apply Hout. right. left. vm_compute. reflexivity.
Defined.

(** C4 as stated fails on the returned value: the sweep of the sample
    store deletes two sessions and returns nothing.  It also fails for
    numbers of days without cut-off date: a sweep of a million days raises
    and leaves the inactive session [S1] stored. *)
Lemma sweep_return_value_counterexample :
  (exists st',
     cleanup_expired_sessions Sample.store 30 Sample.now = Some (st', None)
     /\ (List.length (sessions_collection Sample.store)
         - List.length (sessions_collection st'))%nat = 2%nat)
  /\ (forall st', cleanup_expired_sessions Sample.store 30 Sample.now
                  <> Some (st', Some 2))
  /\ cleanup_expired_sessions Sample.store 1000000 Sample.now = None
  /\ In (Sample.session "S1" (Sample.days_ago 1) false)
        (sessions_collection Sample.store).
Proof.
  assert (cleanup_expired_sessions Sample.store 30 Sample.now
          = Some (mk_store
                    [Sample.session "S2" (Sample.seconds_ago 60) true]
                    [Sample.message "m3" "S2" (Sample.seconds_ago 60) "user"
                                    "list leads"],
                  None)) as H by (vm_compute; reflexivity).
  split; [eexists; split; [exact H | reflexivity]|].
  split; [intros st'; rewrite H; discriminate|].
  split; [vm_compute; reflexivity | simpl; auto].
Qed.

(** A process started at [Sample.now], on an empty database or on the
    sample store, is [Sample.fresh_server]: the constructor's sweep returns
    and all sessions are cleared. *)
Lemma startup_fresh_server :
  Api.startup (mk_store [] []) Sample.now = Some Sample.fresh_server
  /\ Api.startup Sample.store Sample.now = Some Sample.fresh_server.
Proof. split; vm_compute; reflexivity. Qed.

End Sweep.

(** ** The restoration matcher (C5) and inactive sessions (C7) *)

Section Restoration.

Import MongoDBManager UserSession.

(** C5: in a store whose session identifiers are unique, a session last
    accessed strictly before [now - 30 days] is never the answer of the
    matcher, whatever the lookup keys; an active session accessed at or
    after that instant whose tenant key and device fingerprint are those of
    the lookup makes the matcher answer, with a session at least as recent
    that has the same keys, and with that very session when it is the only
    one or the most recent one with these keys; likewise, in a lookup made
    for a platform account, an active session of that account and endpoint
    accessed at or after that instant makes the matcher answer with a session
    of that account and endpoint at least as recent. *)
Theorem restoration_window_boundary (st : Store) (s : UserSession.t)
    (ua ip url u : string) (now : Z) :
  List.NoDup (session_ids st) ->
  In s (sessions_collection st) ->
  let cutoff := now - Datetime.timedelta_days 30 in
  (last_accessed s < cutoff ->
   forall uid,
     find_existing_session st ua ip url u uid now <> Some (session_id s))
  /\ (cutoff <= last_accessed s ->
      is_active s = true ->
      user_identifier s = _generate_user_identifier u url ->
      browser_fingerprint s = _generate_browser_fingerprint ua ip ->
      (exists s',
          In s' (sessions_collection st)
          /\ find_existing_session st ua ip url u None now
             = Some (session_id s')
          /\ last_accessed s <= last_accessed s'
          /\ user_identifier s' = user_identifier s
          /\ browser_fingerprint s' = browser_fingerprint s)
      /\ ((forall y, In y (sessions_collection st) -> y <> s ->
                     user_identifier y = user_identifier s ->
                     browser_fingerprint y = browser_fingerprint s ->
                     last_accessed y < last_accessed s) ->
          find_existing_session st ua ip url u None now
          = Some (session_id s)))
  /\ (cutoff <= last_accessed s ->
      is_active s = true ->
      forall uid,
        uid <> EmptyString ->
        UserSession.user_id s = Some uid ->
        erpnext_url s = url ->
        exists s',
          In s' (sessions_collection st)
          /\ find_existing_session st ua ip url u (Some uid) now
             = Some (session_id s')
          /\ last_accessed s <= last_accessed s'
          /\ UserSession.user_id s' = Some uid
          /\ erpnext_url s' = url).
Proof.
  intros Hnd Hs cutoff. split; [|split].
  - intros Hold uid Hf. apply find_existing_session_some in Hf.
    destruct Hf as [s' [Hin [Hid [_ Hla]]]].
    assert (s' = s) by (eapply session_of_id; eauto). subst s'.
    fold cutoff in Hla. lia.
  - intros Hla Ha Hu Hb.
    assert (by_fingerprint (_generate_user_identifier u url)
              (_generate_browser_fingerprint ua ip) cutoff s = true) as Hp.
    { unfold by_fingerprint. rewrite Hu, Hb, !String.eqb_refl, Ha.
      simpl. rewrite andb_true_r. now apply Z.leb_le. }
    unfold find_existing_session. simpl. fold cutoff.
    destruct (Mongo.find_one_desc _ last_accessed (sessions_collection st))
      as [d|] eqn:E.
    + apply find_one_desc_some in E. destruct E as [Hin [Hpd Hmax]].
      pose proof (Hmax s Hs Hp) as Hle.
      unfold by_fingerprint in Hpd.
      repeat (apply andb_true_iff in Hpd; destruct Hpd as [Hpd ?]).
      apply String.eqb_eq in Hpd.
      match goal with H : String.eqb (browser_fingerprint d) _ = true |- _ =>
        apply String.eqb_eq in H; rename H into Hbd end.
      split.
      * exists d. repeat split; auto; congruence.
      * intro Huniq.
        destruct (String.eqb_spec (session_id d) (session_id s)) as [->|Hne];
          [reflexivity|].
        assert (last_accessed d < last_accessed s)
          by (apply Huniq; auto; congruence).
        lia.
    + pose proof (find_one_desc_none _ _ _ E s Hs). congruence.
  - intros Hla Ha uid Hne Hu Hurl.
    assert (by_user_id uid url cutoff s = true) as Hp.
    { unfold by_user_id. rewrite Hu, Hurl, !String.eqb_refl, Ha.
      simpl. rewrite andb_true_r. now apply Z.leb_le. }
    unfold find_existing_session. apply is_empty_false in Hne.
    simpl. rewrite Hne. simpl. fold cutoff.
    destruct (Mongo.find_one_desc (by_user_id uid url cutoff) last_accessed
                (sessions_collection st)) as [d|] eqn:E.
    + apply find_one_desc_some in E. destruct E as [Hin [Hpd Hmax]].
      pose proof (Hmax s Hs Hp) as Hle.
      unfold by_user_id in Hpd.
      repeat (apply andb_true_iff in Hpd; destruct Hpd as [Hpd ?]).
      match goal with H : String.eqb (erpnext_url d) _ = true |- _ =>
        apply String.eqb_eq in H; rename H into Hud end.
      destruct (UserSession.user_id d) as [ud|] eqn:Eu; [|discriminate].
      apply String.eqb_eq in Hpd. subst ud.
      exists d. repeat split; auto.
    + pose proof (find_one_desc_none _ _ _ E s Hs). congruence.
Qed.

(** The theorem at the boundary store: one second outside the window is
    not restored, one second inside is. *)
Lemma restoration_window_boundary_witness :
  find_existing_session Sample.boundary_store "UA-A" "10.0.0.1" Sample.url
                        "alice" None Sample.now <> Some "Old"
  /\ find_existing_session Sample.boundary_store "UA-A" "10.0.0.1" Sample.url
                           "alice" None Sample.now = Some "New".
Proof.
  assert (List.NoDup (session_ids Sample.boundary_store)) as Hnd.
  { unfold session_ids. simpl.
    repeat constructor; simpl; intuition discriminate. }
  split.
  - refine (proj1 (restoration_window_boundary Sample.boundary_store
                     (Sample.session "Old"
                        (Sample.days_ago 30 - Datetime.second) true)
                     "UA-A" "10.0.0.1" Sample.url "alice" Sample.now
                     Hnd _) _ None).
    + simpl. auto.
    + vm_compute. reflexivity.
  - refine (proj2 (proj1 (proj2
             (restoration_window_boundary Sample.boundary_store
                (Sample.session "New"
                   (Sample.days_ago 30 + Datetime.second) true)
                "UA-A" "10.0.0.1" Sample.url "alice" Sample.now
                Hnd _)) _ _ _ _) _).
    + simpl. auto.
    + vm_compute. discriminate.
    + reflexivity.
    + reflexivity.
    + reflexivity.
    + intros y [<-|[<-|[]]] Hne _ _.
      * vm_compute. reflexivity.
      * congruence.
Defined.



End Restoration.

(** ** The live-agent cache: [/clear_session] (C8) *)

Section ClearSession.

Import Api.

(** C8: [clear_session] leaves the database (every session document with
    its flag and timestamps, every message) and the rate limits as they
    were; of [active_agents] it removes the entry of the given identifier
    and nothing else; hence session lookup and history, at the store and
    through the history route, answer afterwards as before. *)
Theorem clear_session_evicts_cache_only (srv : Server)
    (session_id : option string) :
  let srv' := fst (clear_session srv session_id) in
  db srv' = db srv
  /\ rate_limits srv' = rate_limits srv
  /\ active_agents srv'
     = (if Py.truthy session_id
        then delete (default EmptyString session_id) (active_agents srv)
        else active_agents srv)
  /\ (forall sid,
        SessionManager.get_session (db srv') sid
        = SessionManager.get_session (db srv) sid)
  /\ (forall sid limit,
        SessionManager.get_chat_history (db srv') sid limit
        = SessionManager.get_chat_history (db srv) sid limit)
  /\ (forall sid limit,
        get_chat_history srv' sid limit = get_chat_history srv sid limit).
Proof.
  unfold clear_session.
  destruct (Py.truthy session_id); simpl; repeat split.
  destruct (active_agents srv !! default EmptyString session_id) eqn:E;
    [reflexivity | symmetry; now apply delete_id].
Qed.

End ClearSession.

(** ** The rate limiter of [/chat] (C6, C10) and session lookup (C1) *)

Section Chat.

Import Api.

Lemma chat_rate_limit_eq limits ip now :
  chat_rate_limit limits ip now
  = let recent := recent_requests now (default [] (limits !! ip)) in
    if 10 <=? Z.of_nat (List.length recent) then None
    else Some (<[ip := (recent ++ [now])%list]> limits).
Proof. unfold chat_rate_limit. now destruct (limits !! ip). Qed.

Lemma chat_refused srv req env :
  chat_rate_limit (rate_limits srv) (chat_remote_addr req) (current_time env)
  = None ->
  chat_with_agent srv req env = (srv, rate_limit_exceeded).
Proof. unfold chat_with_agent. now intros ->. Qed.

(** The request once it is past the limiter and the two input checks. *)
Lemma chat_past_checks srv req env limits sid text :
  chat_rate_limit (rate_limits srv) (chat_remote_addr req) (current_time env)
  = Some limits ->
  chat_session_id req = Some sid -> sid <> EmptyString ->
  chat_user_input req = Some text -> text <> EmptyString ->
  Py.len (Py.strip text) <= 2000 ->
  (SessionManager.get_session (db srv) sid = None ->
   chat_with_agent srv req env
   = (mk_server (db srv) (active_agents srv) limits, invalid_session))
  /\ (SessionManager.get_session (db srv) sid <> None ->
      active_agents srv !! sid = None ->
      chat_with_agent srv req env
      = (mk_server (SessionManager.update_session_access (db srv) sid
                      (access_time env))
                   (active_agents srv) limits,
         reconnect_required)).
Proof.
  intros Hl Hsid Hne Htext Hne' Hlen.
  unfold chat_with_agent. rewrite Hl, Hsid, Htext. simpl.
  apply is_empty_false in Hne. apply is_empty_false in Hne'.
  rewrite Hne, Hne'. simpl.
  destruct (Z.ltb_spec 2000 (Py.len (Py.strip text))); [lia|].
  split.
  - now intros ->.
  - intros Hs Ha.
    destruct (SessionManager.get_session (db srv) sid); [|congruence].
    now rewrite Ha.
Qed.

Lemma chat_admitted srv req env limits :
  chat_rate_limit (rate_limits srv) (chat_remote_addr req) (current_time env)
  = Some limits ->
  rate_limits (fst (chat_with_agent srv req env)) = limits
  /\ snd (snd (chat_with_agent srv req env)) <> 429.
Proof.
  intro Hl. unfold chat_with_agent. rewrite Hl. cbv zeta.
  repeat match goal with
         | |- context [if ?b then _ else _] => destruct b
         | |- context [match ?x with _ => _ end] => destruct x
         end; simpl; split; (reflexivity || discriminate).
Qed.

(** C10: a request refused by the limiter leaves the whole server state,
    its list of timestamps included, as it was.  A request the limiter
    admits has its timestamp appended to the pruned list of its address
    before anything else is looked at: whatever the answer is (never 429),
    and in particular when the answer is the validation error for a missing
    session id or input, the one for an input of more than 2000 characters,
    or the 404 of an unknown session. *)
Theorem chat_timestamp_recorded_before_validation (srv : Server)
    (req : ChatRequest) (env : ChatEnv) :
  let ip := chat_remote_addr req in
  let recent :=
    recent_requests (current_time env) (default [] (rate_limits srv !! ip)) in
  let result := chat_with_agent srv req env in
  (10 <= Z.of_nat (List.length recent) ->
   result = (srv, rate_limit_exceeded))
  /\ (Z.of_nat (List.length recent) < 10 ->
      rate_limits (fst result)
      = <[ip := (recent ++ [current_time env])%list]> (rate_limits srv)
      /\ snd (snd result) <> 429
      /\ (Py.truthy (chat_session_id req) = false
          \/ Py.truthy (chat_user_input req) = false ->
          snd result = fields_required)
      /\ (forall sid text,
            chat_session_id req = Some sid -> sid <> EmptyString ->
            chat_user_input req = Some text -> text <> EmptyString ->
            (2000 < Py.len (Py.strip text) ->
             snd result = message_too_long)
            /\ (Py.len (Py.strip text) <= 2000 ->
                SessionManager.get_session (db srv) sid = None ->
                snd result = invalid_session))).
Proof.
  intros ip recent result.
  pose proof (chat_rate_limit_eq (rate_limits srv) ip (current_time env))
    as Hl. cbv zeta in Hl. fold recent in Hl.
  destruct (Z.leb_spec 10 (Z.of_nat (List.length recent))) as [Hge|Hlt].
  - split; [|lia]. intros _. now apply chat_refused.
  - split; [lia|]. intros _.
    destruct (chat_admitted srv req env _ Hl) as [Hr Hs].
    split; [exact Hr|]. split; [exact Hs|]. split.
    + intro Hmiss. subst result. unfold chat_with_agent.
      fold ip. rewrite Hl.
      destruct Hmiss as [-> | ->]; simpl; [reflexivity|].
      now rewrite orb_true_r.
    + intros sid text Hsid Hne Htext Hne'. split.
      * intro Hlong. subst result. unfold chat_with_agent.
        fold ip. rewrite Hl, Hsid, Htext. simpl.
        apply is_empty_false in Hne. apply is_empty_false in Hne'.
        rewrite Hne, Hne'. simpl.
        destruct (Z.ltb_spec 2000 (Py.len (Py.strip text)));
          [reflexivity | lia].
      * intros Hlen Hnone.
        destruct (chat_past_checks srv req env _ sid text Hl Hsid Hne Htext
                    Hne' Hlen) as [H _].
        subst result. now rewrite (H Hnone).
Qed.

(** The theorem on a server that has admitted nine requests from
    [10.0.0.1]: a tenth request for an unknown session is answered 404 and
    still takes the tenth place of the list; the next request is refused
    and changes nothing. *)
Lemma chat_timestamp_recorded_before_validation_witness :
  let srv :=
    mk_server Sample.store ∅
      (Sample.limits_after "10.0.0.1" (Sample.chat_times 9 Sample.now)) in
  let req := Sample.chat_request "unknown" "hello" in
  let tenth :=
    chat_with_agent srv req (Sample.chat_env (Sample.now + 9 * Datetime.second)) in
  let eleventh :=
    chat_with_agent (fst tenth) req
                    (Sample.chat_env (Sample.now + 10 * Datetime.second)) in
  snd tenth = invalid_session
  /\ rate_limits (fst tenth) !! "10.0.0.1"
     = Some (Sample.chat_times 10 Sample.now)
  /\ eleventh = (fst tenth, rate_limit_exceeded).
Proof.
  intros srv req tenth eleventh.
  destruct (chat_timestamp_recorded_before_validation srv req
              (Sample.chat_env (Sample.now + 9 * Datetime.second)))
    as [_ Hadm].
  destruct Hadm as [Hr [_ [_ Hv]]]; [vm_compute; reflexivity|].
  destruct (Hv "unknown" "hello" eq_refl ltac:(discriminate) eq_refl
               ltac:(discriminate)) as [_ H404].
  split; [apply H404; [vm_compute; discriminate | reflexivity]|].
  split; [fold tenth in Hr; rewrite Hr; vm_compute; reflexivity|].
  apply (chat_timestamp_recorded_before_validation (fst tenth) req
           (Sample.chat_env (Sample.now + 10 * Datetime.second))).
  vm_compute. discriminate.
Defined.

(** The seconds field forgets whole days. *)
Lemma seconds_add_days td n :
  Datetime.seconds (td + n * Datetime.day) = Datetime.seconds td.
Proof.
  unfold Datetime.seconds. now rewrite Z.mod_add by (vm_compute; discriminate).
Qed.

(** While every recorded request is less than a day old, the list
    comprehension keeps exactly those of the last 60 seconds. *)
Lemma recent_requests_within_day now l :
  (forall t, In t l -> 0 <= now - t < Datetime.day) ->
  recent_requests now l
  = List.filter (fun t => now - t <? 60 * Datetime.second) l.
Proof.
  intro H. unfold recent_requests. apply List.filter_ext_in. intros t Ht.
  specialize (H t Ht). unfold Datetime.seconds.
  rewrite Z.mod_small by assumption.
  unfold Datetime.second, Datetime.day in *.
  destruct (Z.ltb_spec ((now - t) / 1000000) 60) as [Hd|Hd];
    destruct (Z.ltb_spec (now - t) (60 * 1000000)) as [Hm|Hm];
    try reflexivity; exfalso.
  - assert (60 <= (now - t) / 1000000)
      by (apply Z.div_le_lower_bound; lia). lia.
  - assert ((now - t) / 1000000 < 60)
      by (apply Z.div_lt_upper_bound; lia). lia.
Qed.

(** C6 on the code.  Ten requests from one address, one second apart, are
    admitted; an eleventh one second later is refused and one 69 seconds
    after the first is admitted, as the claim says.  But a request made one
    day and 30 seconds after the first, long after the 60 seconds have
    elapsed, is refused: the test reads the seconds field of the elapsed
    time, which forgets whole days, so nothing is pruned. *)
Theorem chat_rate_limit_day_wraparound :
  let ip := "10.0.0.1" in
  let limits := Sample.limits_after ip (Sample.chat_times 10 Sample.now) in
  let later := Sample.now + Datetime.day + 30 * Datetime.second in
  limits !! ip = Some (Sample.chat_times 10 Sample.now)
  /\ chat_rate_limit limits ip (Sample.now + 10 * Datetime.second) = None
  /\ chat_rate_limit limits ip (Sample.now + 69 * Datetime.second)
     = Some (<[ip := [Sample.now + 69 * Datetime.second]]> limits)
  /\ (forall t, In t (Sample.chat_times 10 Sample.now) ->
                60 * Datetime.second < later - t)
  /\ recent_requests later (Sample.chat_times 10 Sample.now)
     = Sample.chat_times 10 Sample.now
  /\ chat_rate_limit limits ip later = None
  /\ chat_with_agent Sample.busy_server (Sample.chat_request "S2" "hello")
                     (Sample.chat_env later)
     = (Sample.busy_server, rate_limit_exceeded).
Proof.
  intros ip limits later.
  assert (limits !! ip = Some (Sample.chat_times 10 Sample.now)) as Hten
    by (vm_compute; reflexivity).
  assert (chat_rate_limit limits ip later = None) as Hlater.
  { rewrite chat_rate_limit_eq, Hten. vm_compute. reflexivity. }
  split; [exact Hten|].
  split; [rewrite chat_rate_limit_eq, Hten; vm_compute; reflexivity|].
  split; [rewrite chat_rate_limit_eq, Hten; reflexivity|].
  split.
  { intros t Ht. vm_compute in Ht.
    repeat (destruct Ht as [<-|Ht]; [vm_compute; reflexivity|]).
    destruct Ht. }
  split; [vm_compute; reflexivity|].
  split; [exact Hlater|].
  apply chat_refused. exact Hlater.
Qed.

(** C1, as the code has it: for a send request that the rate limiter
    admits and that carries a non-empty session id and a non-empty input
    of at most 2000 characters once stripped: with no active session of
    that id in the store the answer is the 404 "invalid or expired
    session", and neither the store nor the agents change; with such a
    session but no agent in [active_agents] the answer is the 410 with
    [reconnect_required], no agent is built and no message is stored.  In
    particular the first holds once all sessions were cleared, and the
    second once [clear_session] removed the agent of an active session. *)
Theorem chat_session_lookup_after_checks (srv : Server) (req : ChatRequest)
    (env : ChatEnv) (sid text : string) :
  chat_rate_limit (rate_limits srv) (chat_remote_addr req) (current_time env)
  <> None ->
  chat_session_id req = Some sid -> sid <> EmptyString ->
  chat_user_input req = Some text -> text <> EmptyString ->
  Py.len (Py.strip text) <= 2000 ->
  let result := chat_with_agent srv req env in
  (SessionManager.get_session (db srv) sid = None ->
   snd result = invalid_session
   /\ db (fst result) = db srv
   /\ active_agents (fst result) = active_agents srv)
  /\ (SessionManager.get_session (db srv) sid <> None ->
      active_agents srv !! sid = None ->
      snd result = reconnect_required
      /\ active_agents (fst result) = active_agents srv
      /\ messages_collection (db (fst result))
         = messages_collection (db srv))
  /\ snd (chat_with_agent
            (mk_server (SessionManager.clear_all_sessions (db srv))
                       (active_agents srv) (rate_limits srv))
            req env)
     = invalid_session
  /\ (SessionManager.get_session (db srv) sid <> None ->
      snd (chat_with_agent (fst (clear_session srv (Some sid))) req env)
      = reconnect_required).
Proof.
  intros Hadm Hsid Hne Htext Hne' Hlen result.
  destruct (chat_rate_limit (rate_limits srv) (chat_remote_addr req)
              (current_time env)) as [limits|] eqn:Hl; [clear Hadm|congruence].
  destruct (chat_past_checks srv req env limits sid text Hl Hsid Hne Htext
              Hne' Hlen) as [Hnone Hsome].
  split; [|split; [|split]].
  - intro H. subst result. rewrite (Hnone H). repeat split.
  - intros H Ha. subst result. rewrite (Hsome H Ha). repeat split.
  - destruct (chat_past_checks
                (mk_server (SessionManager.clear_all_sessions (db srv))
                           (active_agents srv) (rate_limits srv))
                req env limits sid text Hl Hsid Hne Htext Hne' Hlen)
      as [H _].
    now rewrite H.
  - intro H.
    destruct (chat_past_checks (fst (clear_session srv (Some sid)))
                req env limits sid text) as [_ H'];
      try assumption.
    { unfold clear_session. apply is_empty_false in Hne. simpl.
      rewrite Hne. exact Hl. }
    rewrite H'; [reflexivity | |].
    + unfold clear_session. apply is_empty_false in Hne. simpl.
      now rewrite Hne.
    + unfold clear_session. apply is_empty_false in Hne. simpl.
      rewrite Hne. simpl.
      destruct (active_agents srv !! sid) eqn:E;
        [apply lookup_delete_eq | exact E].
Qed.

(** The theorem on a server that holds the sample store and no agent:
    the active session [S2] asks for a reconnection, the inactive [S1] is
    answered 404. *)
Lemma chat_session_lookup_after_checks_witness :
  let srv := mk_server Sample.store ∅ ∅ in
  snd (chat_with_agent srv (Sample.chat_request "S2" "hello")
                       (Sample.chat_env Sample.now))
  = reconnect_required
  /\ snd (chat_with_agent srv (Sample.chat_request "S1" "hello")
                          (Sample.chat_env Sample.now))
     = invalid_session.
Proof.
  intro srv. split.
  - refine (proj1 (proj1 (proj2
             (chat_session_lookup_after_checks srv
                (Sample.chat_request "S2" "hello")
                (Sample.chat_env Sample.now) "S2" "hello" _ eq_refl _
                eq_refl _ _)) _ _)).
    + vm_compute. discriminate.
    + discriminate.
    + discriminate.
    + vm_compute. discriminate.
    + vm_compute. discriminate.
    + reflexivity.
  - refine (proj1 (proj1
             (chat_session_lookup_after_checks srv
                (Sample.chat_request "S1" "hello")
                (Sample.chat_env Sample.now) "S1" "hello" _ eq_refl _
                eq_refl _ _) _)).
    + vm_compute. discriminate.
    + discriminate.
    + discriminate.
    + vm_compute. discriminate.
    + vm_compute. reflexivity.
Defined.

(** C1 as stated fails: a send request carrying the id of no session is
    not answered 404 when it is the eleventh of its address within the
    window (429), nor when its input is missing (400). *)
Lemma chat_unknown_session_counterexample :
  SessionManager.get_session (db Sample.busy_server) "gone" = None
  /\ snd (chat_with_agent Sample.busy_server
            (Sample.chat_request "gone" "hello")
            (Sample.chat_env (Sample.now + 10 * Datetime.second)))
     = rate_limit_exceeded
  /\ snd (chat_with_agent Sample.busy_server
            (Sample.chat_request "gone" "hello")
            (Sample.chat_env (Sample.now + 10 * Datetime.second)))
     <> invalid_session
  /\ snd (chat_with_agent (mk_server Sample.store ∅ ∅)
            (mk_chat_request "10.0.0.1" (Some "gone") None)
            (Sample.chat_env Sample.now))
     = fields_required.
Proof.
  split; [vm_compute; reflexivity|].
  split; [vm_compute; reflexivity|].
  split; [vm_compute; discriminate|].
  vm_compute; reflexivity.
Qed.

End Chat.

(** ** Session initialisation: restoration (C2) and credential change (C3) *)

Section InitSession.

Import Api MongoDBManager UserSession.

Lemma find_app_keep {A} (f : A -> bool) l1 l2 x :
  List.find f l1 = Some x -> List.find f (l1 ++ l2) = Some x.
Proof.
  induction l1 as [|y r IH]; simpl; [discriminate|].
  destruct (f y); auto.
Qed.

(** The unique strict maximum is the first document in descending order. *)
Lemma first_desc_strict_max {A} (key : A -> Z) l x :
  In x l -> (forall y, In y l -> y = x \/ key y < key x) ->
  Mongo.first_desc key l = Some x.
Proof.
  induction l as [|z r IH]; simpl; intros Hx Hmax; [destruct Hx|].
  destruct (Mongo.first_desc key r) as [m|] eqn:E.
  - pose proof (first_desc_in _ _ _ E) as Hm.
    pose proof (first_desc_max _ _ _ E) as Hle.
    destruct (Z.ltb_spec (key z) (key m)) as [Hlt|Hge].
    + destruct (Hmax m (or_intror Hm)) as [->|Hlt']; [reflexivity|].
      destruct Hx as [->|Hx]; [lia | specialize (Hle x Hx); lia].
    + destruct (Hmax z (or_introl eq_refl)) as [->|Hlt']; [reflexivity|].
      destruct Hx as [->|Hx]; [lia | specialize (Hle x Hx); lia].
  - apply first_desc_none in E. subst r.
    destruct Hx as [->|[]]. reflexivity.
Qed.

(** Updating by identifier in a collection with unique identifiers. *)
Lemma update_one_unique (f : UserSession.t -> UserSession.t) l s0 :
  List.NoDup (List.map session_id l) -> In s0 l ->
  (forall x, session_id (f x) = session_id x) ->
  let l' := Mongo.update_one
              (fun s => String.eqb (session_id s) (session_id s0)) f l in
  In (f s0) l'
  /\ forall y, In y l' -> y = f s0 \/ (In y l /\ session_id y <> session_id s0).
Proof.
  intros Hnd Hin Hid. induction l as [|x r IH]; [destruct Hin|].
  inversion Hnd as [|? ? Hni Hnd']; subst. simpl.
  destruct (String.eqb_spec (session_id x) (session_id s0)) as [E|Hne].
  - assert (s0 = x) as ->.
    { destruct Hin as [->|Hin]; [reflexivity|].
      exfalso. apply Hni. rewrite E. now apply in_map. }
    split; [now left|].
    intros y [<-|Hy]; [now left|]. right. split; [now right|].
    intro E'. apply Hni. rewrite <- E'. now apply in_map.
  - destruct Hin as [->|Hin]; [congruence|].
    destruct (IH Hnd' Hin) as [H1 H2]. split; [now right|].
    intros y [<-|Hy]; [right; split; [now left | assumption]|].
    destruct (H2 y Hy) as [->|[Hy' Hne']]; [now left|].
    right. split; [now right | assumption].
Qed.

Lemma checks_same_env req env1 env2 :
  env_google_api_key env2 = env_google_api_key env1 ->
  frappe_reply env2 = frappe_reply env1 ->
  init_session_checks req env2 = init_session_checks req env1.
Proof. unfold init_session_checks. now intros -> ->. Qed.

(** The early responses of [init_session] are all errors. *)
Lemma checks_early_response req env r :
  init_session_checks req env = inl r -> exists msg code, r = (Error msg, code).
Proof.
  unfold init_session_checks. cbv zeta.
  repeat match goal with
         | |- context [if ?b then _ else _] => destruct b
         | |- context [match ?x with _ => _ end] => destruct x
         end;
    intro H; inversion H; eauto.
Qed.

(** New-session creation with a secret: the document is inserted whether or
    not the agent can be built; only then is the agent cached and the
    identifier returned. *)
Lemma init_create_some srv url u pw key sb ua ip env :
  init_session_create srv url u (Some pw) key sb ua ip env
  = if agent_built env
    then (created_server srv url u pw key sb ua ip env,
          (SessionInfo (new_session_id env)
                       "New session created successfully." false, 200))
    else (mk_server (db (created_server srv url u pw key sb ua ip env))
                    (active_agents srv) (rate_limits srv),
          init_failed).
Proof.
  unfold init_session_create, SessionManager.create_session, create_session.
  now destruct (agent_built env).
Qed.

(** The matcher, called without a platform account, answers with a document
    that has the keys of the lookup. *)
Lemma find_existing_session_keys st ua ip url u now sid :
  find_existing_session st ua ip url u None now = Some sid ->
  exists d, In d (sessions_collection st) /\ session_id d = sid
            /\ user_identifier d = _generate_user_identifier u url
            /\ browser_fingerprint d = _generate_browser_fingerprint ua ip.
Proof.
  unfold find_existing_session. simpl.
  destruct (Mongo.find_one_desc _ _ _) as [d|] eqn:E; [|discriminate].
  intro H. inversion H; subst. apply find_one_desc_some in E.
  destruct E as [Hin [Hp _]]. unfold by_fingerprint in Hp.
  repeat (apply andb_true_iff in Hp; destruct Hp as [Hp ?]).
  apply String.eqb_eq in Hp.
  match goal with H : String.eqb (browser_fingerprint d) _ = true |- _ =>
    apply String.eqb_eq in H end.
  exists d. auto.
Qed.

(** A call of the [try] block that answers with a session identifier
    establishes that session, by creation or by restoration. *)
Lemma init_body_establishes srv srv1 url u password key sb ua ip restore env
      sid message restored :
  init_session_body srv url u password key sb ua ip restore env
  = (srv1, (SessionInfo sid message restored, 200)) ->
  List.NoDup (session_ids (db srv1)) ->
  (forall s, In s (sessions_collection (db srv)) ->
             last_accessed s < write_time env) ->
  exists pw s,
    password = Some pw
    /\ established srv1 url u pw key ua ip sid (write_time env) s.
Proof.
  intros H Hnd Hclock.
  assert (init_session_create srv url u password key sb ua ip env
          = (srv1, (SessionInfo sid message restored, 200)) ->
          exists pw s,
            password = Some pw
            /\ established srv1 url u pw key ua ip sid (write_time env) s)
    as Hcreate.
  { destruct password as [pw|]; [|discriminate].
    rewrite init_create_some. destruct (agent_built env); [|discriminate].
    intro Hc. inversion Hc; subst. exists pw. eexists. split; [reflexivity|].
    unfold established, created_server.
    cbn [db active_agents sessions_collection].
    split; [apply in_or_app; right; left; reflexivity|].
    repeat (split; [reflexivity|]). split.
    - intros y Hy Hne. apply in_app_or in Hy.
      destruct Hy as [Hy|[<-|[]]]; [now apply Hclock | now elim Hne].
    - rewrite lookup_insert_eq. discriminate. }
  unfold init_session_body in H. cbv zeta in H.
  destruct restore; [|now apply Hcreate].
  destruct (SessionManager.find_existing_session _ _ _ _ _ _ _)
    as [existing|] eqn:Hfind; [|now apply Hcreate].
  destruct (Py.is_empty existing); [now apply Hcreate|].
  destruct (SessionManager.verify_credentials _ _ _ _) as [[]|] eqn:Hver;
    [|now apply Hcreate|discriminate].
  (* restoration *)
  unfold SessionManager.verify_credentials, verify_credentials in Hver.
  destruct (get_session (db srv) existing) as [s0|] eqn:Hget; [|discriminate].
  destruct password as [pw|]; [|discriminate].
  inversion Hver as [Hhash]. apply andb_true_iff in Hhash.
  destruct Hhash as [Hpw Hkey].
  apply String.eqb_eq in Hpw. apply String.eqb_eq in Hkey.
  apply get_session_some in Hget. destruct Hget as [Hin0 [Hid0 Hact0]].
  apply find_existing_session_keys in Hfind.
  destruct Hfind as [d [Hind [Hidd [Hud Hbd]]]].
  set (db1 := SessionManager.update_session_access (db srv) existing
                (write_time env)) in *.
  assert (session_ids db1 = session_ids (db srv)) as Hids.
  { unfold session_ids, db1, SessionManager.update_session_access,
      update_session_access. cbn [sessions_collection].
    now apply update_one_map. }
  assert (db srv1 = db1 /\ sid = existing
          /\ active_agents srv1 !! existing <> None) as [Hdb [Hsid Hag]].
  { destruct (active_agents srv !! existing) eqn:Hl.
    - inversion H; subst. cbn [db active_agents].
      rewrite Hl. repeat split. discriminate.
    - destruct (SessionManager.get_session db1 existing); [|discriminate].
      destruct (agent_built env); [|discriminate].
      inversion H; subst. cbn [db active_agents].
      rewrite lookup_insert_eq. repeat split. discriminate. }
  rewrite Hdb, Hids in Hnd. subst sid.
  assert (d = s0) by (eapply session_of_id; eauto; congruence). subst d.
  destruct (update_one_unique (set_last_accessed (write_time env))
              (sessions_collection (db srv)) s0 Hnd Hin0
              (fun _ => eq_refl)) as [Hin1 Hothers].
  rewrite Hid0 in Hin1, Hothers.
  exists pw, (set_last_accessed (write_time env) s0).
  split; [reflexivity|]. unfold established. rewrite Hdb.
  split; [exact Hin1|].
  split; [exact Hid0|]. split; [exact Hact0|]. split; [reflexivity|].
  split; [exact Hud|]. split; [exact Hbd|]. split; [exact Hpw|].
  split; [exact Hkey|]. split; [|exact Hag].
  intros y Hy Hne. destruct (Hothers y Hy) as [->|[Hy' _]].
  - now elim Hne.
  - now apply Hclock.
Qed.

(** The next call on a server where a session is established. *)
Section NextCall.

Variables (srv : Server) (url u pw key ua ip sid : string) (time : Z)
          (s : UserSession.t).

Hypothesis unique : List.NoDup (session_ids (db srv)).
Hypothesis holds : established srv url u pw key ua ip sid time s.

Lemma established_get_session : get_session (db srv) sid = Some s.
Proof.
  destruct holds as [Hin [Hid [Hact _]]]. subst sid.
  rewrite get_session_unique by assumption. now rewrite Hact.
Qed.

Lemma established_latest y :
  In y (sessions_collection (db srv)) -> y = s \/ last_accessed y < last_accessed s.
Proof.
  destruct holds as [Hin [Hid [_ [Hla [_ [_ [_ [_ [Hothers _]]]]]]]]].
  intro Hy. destruct (String.eqb_spec (session_id y) sid) as [E|Hne].
  - left. eapply session_of_id; eauto. congruence.
  - right. rewrite Hla. now apply Hothers.
Qed.

Lemma established_found now :
  now - Datetime.timedelta_days 30 <= time ->
  find_existing_session (db srv) ua ip url u None now = Some sid.
Proof.
  intro Hwin. pose proof established_latest as Hlatest.
  destruct holds as [Hin [Hid [Hact [Hla [Hu [Hb _]]]]]].
  unfold find_existing_session. simpl. unfold Mongo.find_one_desc.
  rewrite (first_desc_strict_max last_accessed _ s).
  - now rewrite Hid.
  - apply List.filter_In. split; [assumption|]. unfold by_fingerprint.
    rewrite Hu, Hb, !String.eqb_refl, Hact, Hla. simpl.
    rewrite andb_true_r. now apply Z.leb_le.
  - intros y Hy. apply List.filter_In in Hy. now apply Hlatest.
Qed.


Lemma established_verify pw' :
  verify_credentials (db srv) sid (Some pw') key
  = Some (String.eqb (_hash_credential pw) (_hash_credential pw')).
Proof.
  unfold verify_credentials. rewrite established_get_session.
  destruct holds as [_ [_ [_ [_ [_ [_ [Hpw [Hkey _]]]]]]]].
  now rewrite Hpw, Hkey, String.eqb_refl, andb_true_r.
Qed.

End NextCall.

(** C2, as the code has it: let a first [init_session] call answer with
    the session [sid1] (created, as in the claim, or restored), the
    identifier being non-empty, the identifiers of the store unique and the
    time of the call later than every access time of the store before it.
    A second call made on the server exactly as the first call left it (no
    request in between has touched the store or the agents), with the same
    request (restoration asked for), the same server-side key and the same
    remote answer, while [now - 30 days <= time of the first call], answers
    with the same [sid1] and [restored = true]; it builds no agent and
    creates no session. *)
Theorem restoration_idempotent (srv srv1 : Server) (req : InitRequest)
    (env1 env2 : InitEnv) (sid1 message : string) (restored : bool) :
  init_session srv req env1
  = (srv1, (SessionInfo sid1 message restored, 200)) ->
  init_restore_session req = true ->
  env_google_api_key env2 = env_google_api_key env1 ->
  frappe_reply env2 = frappe_reply env1 ->
  sid1 <> EmptyString ->
  List.NoDup (session_ids (db srv1)) ->
  (forall s, In s (sessions_collection (db srv)) ->
             last_accessed s < write_time env1) ->
  find_time env2 - Datetime.timedelta_days 30 <= write_time env1 ->
  exists srv2,
    init_session srv1 req env2
    = (srv2, (SessionInfo sid1 "Session restored successfully." true, 200))
    /\ active_agents srv2 = active_agents srv1
    /\ session_ids (db srv2) = session_ids (db srv1)
    /\ messages_collection (db srv2) = messages_collection (db srv1).
Proof.
  intros H1 Hrestore Hkey Hfrappe Hne Hnd Hclock Hwin.
  unfold init_session in *.
  rewrite (checks_same_env req env1 env2 Hkey Hfrappe).
  destruct (init_session_checks req env1) as [r|args] eqn:Hc.
  { destruct (checks_early_response _ _ _ Hc) as [msg [code ->]].
    discriminate. }
  destruct (init_body_establishes _ _ _ _ _ _ _ _ _ _ _ _ _ _ H1 Hnd Hclock)
    as [pw [s [Hpw Hest]]].
  rewrite Hpw, Hrestore. unfold init_session_body. cbv zeta.
  unfold SessionManager.find_existing_session,
    SessionManager.verify_credentials.
  rewrite (established_found _ _ _ _ _ _ _ _ _ _ Hnd Hest) by assumption.
  apply is_empty_false in Hne. rewrite Hne.
  rewrite (established_verify _ _ _ _ _ _ _ _ _ _ Hnd Hest).
  rewrite String.eqb_refl.
  destruct Hest as [_ [_ [_ [_ [_ [_ [_ [_ [_ Hag]]]]]]]]].
  destruct (active_agents srv1 !! sid1); [|congruence].
  eexists. split; [reflexivity|].
  cbn [active_agents db rate_limits]. split; [reflexivity|].
  split; [|reflexivity].
  unfold session_ids, SessionManager.update_session_access,
    update_session_access.
  cbn [sessions_collection]. now apply update_one_map.
Qed.

(** The C2 theorem in the scenario of the specification, on a server that
    already holds the sample store: [alice] connects with the secret [pw2];
    the most recent session of her device, [S2], has another secret, so a
    session [S9] is created; the same request a minute later is answered
    with [S9], restored. *)
Lemma restoration_idempotent_witness :
  let srv := mk_server Sample.store ∅ ∅ in
  let first :=
    init_session srv (Sample.init_request "pw2")
                 (Sample.init_env Sample.now "S9") in
  snd first = (SessionInfo "S9" "New session created successfully." false, 200)
  /\ snd (init_session (fst first) (Sample.init_request "pw2")
            (Sample.init_env (Sample.now + 60 * Datetime.second) "S10"))
     = (SessionInfo "S9" "Session restored successfully." true, 200).
Proof.
  intros srv first.
  assert (init_session srv (Sample.init_request "pw2")
            (Sample.init_env Sample.now "S9")
          = (fst first,
             (SessionInfo "S9" "New session created successfully." false,
              200))) as H1 by (vm_compute; reflexivity).
  split; [vm_compute; reflexivity|].
  destruct (restoration_idempotent srv (fst first)
              (Sample.init_request "pw2") (Sample.init_env Sample.now "S9")
              (Sample.init_env (Sample.now + 60 * Datetime.second) "S10")
              "S9" "New session created successfully." false H1)
    as [srv2 [H2 _]].
  - reflexivity.
  - reflexivity.
  - reflexivity.
  - discriminate.
  - vm_compute. repeat constructor; simpl; intuition discriminate.
  - intros s [<-|[<-|[<-|[]]]]; vm_compute; reflexivity.
  - vm_compute. discriminate.
  - rewrite H2. reflexivity.
Defined.

(** C2 as stated fails when another request touches the store between the
    two calls.  On a server holding the sample store, [alice] connects with
    the secret [pw2] and gets the new session [S9]; half a minute later the
    status of [S2], an older session of the same device and account with
    the secret [pw1], is polled, which makes [S2] the most recently
    accessed one; the same [init_session] request another half minute
    later, with [S9] active and a minute old, is matched with [S2], whose
    secret differs, and answered with a new session [S10], not restored. *)
Lemma restoration_interleaved_poll_counterexample :
  let srv := mk_server Sample.store ∅ ∅ in
  let first :=
    init_session srv (Sample.init_request "pw2")
                 (Sample.init_env Sample.now "S9") in
  let poll :=
    Routes.session_status (fst first) "S2"
                          (Sample.now + 30 * Datetime.second) in
  let second :=
    init_session (fst poll) (Sample.init_request "pw2")
                 (Sample.init_env (Sample.now + 60 * Datetime.second) "S10") in
  snd first = (SessionInfo "S9" "New session created successfully." false, 200)
  /\ snd (snd poll) = 200
  /\ option_map last_accessed (get_session (db (fst poll)) "S9")
     = Some Sample.now
  /\ find_existing_session (db (fst poll)) "UA-A" "10.0.0.1" Sample.url
                           "alice" None (Sample.now + 60 * Datetime.second)
     = Some "S2"
  /\ snd second
     = (SessionInfo "S10" "New session created successfully." false, 200)
  /\ snd second
     <> (SessionInfo "S9" "Session restored successfully." true, 200).
Proof.
  intros srv first poll second.
  assert (snd second
          = (SessionInfo "S10" "New session created successfully." false,
             200)) as H by (vm_compute; reflexivity).
  split; [vm_compute; reflexivity|]. split; [vm_compute; reflexivity|].
  split; [vm_compute; reflexivity|]. split; [vm_compute; reflexivity|].
  split; [exact H|]. rewrite H. discriminate.
Qed.




End InitSession.

(** ** Further properties of the session store *)

Section StoreOperations.

Import MongoDBManager UserSession.

Lemma find_app_skip {A} (f : A -> bool) l1 l2 :
  (forall x, In x l1 -> f x = false) ->
  List.find f (l1 ++ l2) = List.find f l2.
Proof.
  induction l1 as [|x r IH]; simpl; intro H; [reflexivity|].
  rewrite (H x) by auto. apply IH. auto.
Qed.

Lemma get_session_app_fresh st sid s' :
  sid <> session_id s' ->
  List.find (fun s => String.eqb (session_id s) sid && is_active s)
            (sessions_collection st ++ [s'])
  = get_session st sid.
Proof.
  intro Hne. unfold get_session.
  induction (sessions_collection st) as [|x r IH]; simpl.
  - destruct (String.eqb_spec (session_id s') sid); [congruence | reflexivity].
  - destruct (String.eqb (session_id x) sid && is_active x); [reflexivity|].
    exact IH.
Qed.

(** X1: a session created under an identifier new to the store is returned by
    [get_session], active, with both times equal to the creation time and
    with the hashes of the two secrets; [verify_credentials] accepts exactly
    the pairs of secrets with these hashes; no other lookup and no message
    changes. *)
Theorem create_session_round_trip (st : Store)
    (url u pw key ua ip : string) (sb uid : option string)
    (new_id : string) (now : Z) :
  ~ In new_id (session_ids st) ->
  let result := create_session st url u pw key ua ip sb uid new_id now in
  snd result = new_id
  /\ (exists s,
        get_session (fst result) new_id = Some s
        /\ session_id s = new_id /\ is_active s = true
        /\ created_at s = now /\ last_accessed s = now
        /\ erpnext_url s = url /\ username s = u
        /\ UserSession.user_id s = uid
        /\ password_hash s = Hashlib.sha256_hexdigest pw
        /\ google_api_key_hash s = Hashlib.sha256_hexdigest key)
  /\ (forall pw' key',
        verify_credentials (fst result) new_id (Some pw') key'
        = Some (String.eqb (Hashlib.sha256_hexdigest pw)
                           (Hashlib.sha256_hexdigest pw')
                && String.eqb (Hashlib.sha256_hexdigest key)
                              (Hashlib.sha256_hexdigest key')))
  /\ verify_credentials (fst result) new_id (Some pw) key = Some true
  /\ (forall sid, sid <> new_id ->
                  get_session (fst result) sid = get_session st sid)
  /\ session_ids (fst result) = (session_ids st ++ [new_id])%list
  /\ messages_collection (fst result) = messages_collection st.
Proof.
  intros Hfresh result. subst result. unfold create_session.
  cbn [fst snd].
  set (doc := UserSession.mk new_id uid _ url u _ _ _ now now _ true).
  assert (get_session
            (mk_store (sessions_collection st ++ [doc]) (messages_collection st))
            new_id = Some doc) as Hget.
  { unfold get_session. cbn [sessions_collection].
    rewrite find_app_skip.
    - simpl. now rewrite String.eqb_refl.
    - intros x Hx. destruct (String.eqb_spec (session_id x) new_id) as [E|];
        [|reflexivity].
      exfalso. apply Hfresh. rewrite <- E. unfold session_ids.
      now apply in_map. }
  split; [reflexivity|]. split.
  { exists doc. split; [exact Hget|]. repeat split. }
  assert (forall pw' key',
            verify_credentials
              (mk_store (sessions_collection st ++ [doc])
                        (messages_collection st)) new_id (Some pw') key'
            = Some (String.eqb (Hashlib.sha256_hexdigest pw)
                               (Hashlib.sha256_hexdigest pw')
                    && String.eqb (Hashlib.sha256_hexdigest key)
                                  (Hashlib.sha256_hexdigest key'))) as Hver.
  { intros pw' key'. unfold verify_credentials. rewrite Hget. reflexivity. }
  split; [exact Hver|]. split.
  { rewrite Hver, !String.eqb_refl. reflexivity. }
  split.
  { intros sid Hne. unfold get_session at 1. cbn [sessions_collection].
    apply get_session_app_fresh. exact Hne. }
  split; [|reflexivity].
  unfold session_ids. cbn [sessions_collection]. now rewrite List.map_app.
Qed.

Lemma create_session_round_trip_witness :
  let st' :=
    fst (create_session Sample.store Sample.url "alice" "pw9" Sample.api_key
           "UA-A" "10.0.0.1" None None "S9" Sample.now) in
  verify_credentials st' "S9" (Some "pw9") Sample.api_key = Some true
  /\ verify_credentials st' "S9" (Some "pw1") Sample.api_key = Some false
  /\ get_session st' "S2" = get_session Sample.store "S2".
Proof.
  intro st'.
  destruct (create_session_round_trip Sample.store Sample.url "alice" "pw9"
              Sample.api_key "UA-A" "10.0.0.1" None None "S9" Sample.now)
    as [_ [_ [Hver [Hok [Hother _]]]]].
  - vm_compute. intuition discriminate.
  - split; [exact Hok|]. split.
    + subst st'. rewrite Hver. vm_compute. reflexivity.
    + apply Hother. discriminate.
Defined.

End StoreOperations.

Section StoreOperations2.

Import MongoDBManager UserSession.

(** X2: [store_chat_message] raises, and stores nothing, exactly when
    [get_session] does not return the session (unknown or inactive).
    Otherwise it returns the identifier drawn, appends one message that
    carries the session's tenant key and platform account, and leaves the
    sessions alone; the unlimited history of that session gains exactly that
    item, and the history of every other session is unchanged. *)
Theorem store_chat_message_effect (st : Store)
    (sid message_type content : string)
    (metadata : option ChatMessage.metadata_t) (new_id : string) (now : Z) :
  (get_session st sid = None <->
   store_chat_message st sid message_type content metadata new_id now = None)
  /\ (forall s,
        get_session st sid = Some s ->
        let doc := ChatMessage.mk new_id sid (UserSession.user_id s)
                     (user_identifier s) now message_type content metadata in
        exists st',
          store_chat_message st sid message_type content metadata new_id now
          = Some (st', new_id)
          /\ sessions_collection st' = sessions_collection st
          /\ messages_collection st' = (messages_collection st ++ [doc])%list
          /\ Permutation (get_chat_history st' sid 0)
                         (history_item doc :: get_chat_history st sid 0)
          /\ (forall sid' limit,
                sid' <> sid ->
                get_chat_history st' sid' limit
                = get_chat_history st sid' limit)).
Proof.
  unfold store_chat_message. split.
  - destruct (get_session st sid); split; intro H; congruence.
  - intros s Hs. rewrite Hs. eexists. split; [reflexivity|].
    cbn [sessions_collection messages_collection].
    split; [reflexivity|]. split; [reflexivity|]. split.
    + unfold get_chat_history. cbn [messages_collection].
      rewrite !limit_all by now left.
      cbv beta iota.
      rewrite List.filter_app. cbn [List.filter ChatMessage.session_id].
      rewrite String.eqb_refl.
      rewrite <- (map_cons history_item). apply Permutation_map.
      rewrite !sort_asc_perm. rewrite Permutation_app_comm. reflexivity.
    + intros sid' limit Hne. unfold get_chat_history.
      cbn [messages_collection]. rewrite List.filter_app.
      cbn [List.filter ChatMessage.session_id].
      destruct (String.eqb_spec sid sid'); [congruence|].
      now rewrite app_nil_r.
Qed.

Lemma store_chat_message_effect_witness :
  store_chat_message Sample.store "S1" "user" "hello" None "m9" Sample.now
  = None
  /\ exists st',
       store_chat_message Sample.store "S2" "user" "hello" None "m9" Sample.now
       = Some (st', "m9")
       /\ List.length (get_chat_history st' "S2" 0) = 2%nat.
Proof.
  destruct (store_chat_message_effect Sample.store "S1" "user" "hello" None
              "m9" Sample.now) as [Hnone _].
  split; [apply Hnone; vm_compute; reflexivity|].
  destruct (store_chat_message_effect Sample.store "S2" "user" "hello" None
              "m9" Sample.now) as [_ Hsome].
  destruct (Hsome (Sample.session "S2" (Sample.seconds_ago 60) true))
    as [st' [Hst [_ [_ [Hperm _]]]]]; [vm_compute; reflexivity|].
  exists st'. split; [exact Hst|].
  rewrite (Permutation_length Hperm). vm_compute. reflexivity.
Defined.

Lemma insert_asc_sorted {A} (key : A -> Z) x l :
  StronglySorted (fun a b => key a <= key b) l ->
  StronglySorted (fun a b => key a <= key b) (Mongo.insert_asc key x l).
Proof.
  induction 1 as [|y r Hr IH Hall]; simpl; [repeat constructor|].
  destruct (Z.ltb_spec (key x) (key y)) as [Hlt|Hge].
  - constructor; [now constructor|].
    constructor; [lia|].
    rewrite List.Forall_forall in *. intros z Hz. specialize (Hall z Hz). lia.
  - constructor; [exact IH|].
    rewrite List.Forall_forall in *. intros z Hz.
    apply (Permutation_in _ (insert_asc_perm key x r)) in Hz.
    destruct Hz as [<-|Hz]; [lia | now apply Hall].
Qed.

Lemma sort_asc_sorted {A} (key : A -> Z) l :
  StronglySorted (fun a b => key a <= key b) (Mongo.sort_asc key l).
Proof.
  induction l as [|x r IH]; simpl; [constructor|].
  now apply insert_asc_sorted.
Qed.

Lemma firstn_incl {A} n (l : list A) x : In x (firstn n l) -> In x l.
Proof.
  revert l. induction n as [|n IH]; intros [|y r]; simpl; try tauto.
  intros [->|H]; auto.
Qed.

Lemma firstn_sorted {A} (R : A -> A -> Prop) n l :
  StronglySorted R l -> StronglySorted R (firstn n l).
Proof.
  intro H. revert n. induction H as [|x r Hr IH Hall]; intro n.
  - rewrite firstn_nil. constructor.
  - destruct n; simpl; constructor; [apply IH|].
    rewrite List.Forall_forall in *. intros y Hy. apply Hall.
    eapply firstn_incl; eauto.
Qed.

Lemma limit_sorted {A} (R : A -> A -> Prop) n l :
  StronglySorted R l -> StronglySorted R (default [] (Mongo.limit n l)).
Proof.
  intro H. unfold Mongo.limit. destruct (n =? 0); [exact H|].
  destruct (Mongo.int64_max <? Z.abs n); [constructor|].
  destruct (0 <? n); now apply firstn_sorted.
Qed.

Lemma limit_incl {A} n (l : list A) x :
  In x (default [] (Mongo.limit n l)) -> In x l.
Proof.
  destruct (Mongo.limit n l) as [l'|] eqn:E; [|intros []].
  now apply limit_some_incl with (n := n).
Qed.

Lemma limit_length {A} n (l : list A) :
  n <> 0 -> Z.of_nat (List.length (default [] (Mongo.limit n l))) <= Z.abs n.
Proof.
  intro Hne. destruct (Mongo.limit n l) as [l'|] eqn:E.
  - now apply limit_some_length with (l := l).
  - simpl. lia.
Qed.

Lemma limit_zero {A} (l : list A) : default [] (Mongo.limit 0 l) = l.
Proof. reflexivity. Qed.

(** A listing read through a cursor: its documents, none when the read
    raises. *)
Lemma limit_map {A B} (f : A -> B) n l :
  match Mongo.limit n l with
  | Some docs => List.map f docs
  | None => []
  end
  = List.map f (default [] (Mongo.limit n l)).
Proof. now destruct (Mongo.limit n l). Qed.

Lemma map_sorted {A B} (f : A -> B) (R : B -> B -> Prop) l :
  StronglySorted (fun a b => R (f a) (f b)) l -> StronglySorted R (List.map f l).
Proof.
  induction 1 as [|x r Hr IH Hall]; simpl; constructor; [exact IH|].
  rewrite List.Forall_forall in *. intros y Hy. apply in_map_iff in Hy.
  destruct Hy as [z [<- Hz]]. now apply Hall.
Qed.

(** X3: the history of a session is in ascending order of time, holds only
    messages stored under that session identifier, each with the role
    [user] or [assistant], and has at most [|limit|] items unless the limit
    is zero, which means no limit: then every stored message of the session
    is in it. *)
Theorem get_chat_history_sorted_bounded (st : Store) (sid : string)
    (limit : Z) :
  let history := get_chat_history st sid limit in
  StronglySorted (fun a b => item_timestamp a <= item_timestamp b) history
  /\ (forall item,
        In item history ->
        exists m, In m (messages_collection st)
                  /\ ChatMessage.session_id m = sid
                  /\ item = history_item m
                  /\ (item_role item = "user" \/ item_role item = "assistant"))
  /\ (limit <> 0 -> Z.of_nat (List.length history) <= Z.abs limit)
  /\ (limit = 0 ->
      List.length history
      = List.length
          (List.filter (fun m => String.eqb (ChatMessage.session_id m) sid)
                       (messages_collection st))).
Proof.
  intro history. subst history. rewrite get_chat_history_eq. repeat split.
  - apply map_sorted. apply limit_sorted.
    apply (sort_asc_sorted ChatMessage.timestamp).
  - intros item Hin. apply in_map_iff in Hin. destruct Hin as [m [<- Hm]].
    apply limit_incl in Hm.
    apply (Permutation_in _ (sort_asc_perm _ _)) in Hm.
    apply List.filter_In in Hm. destruct Hm as [Hm E].
    apply String.eqb_eq in E. exists m. repeat split; auto.
    unfold history_item. simpl.
    destruct (String.eqb (ChatMessage.message_type m) "user"); auto.
  - intro Hne. rewrite List.length_map. now apply limit_length.
  - intros ->. rewrite List.length_map, limit_zero.
    apply Permutation_length, sort_asc_perm.
Qed.

End StoreOperations2.

Section StoreOperations3.

Import MongoDBManager UserSession.

Lemma get_chat_history_sorted_bounded_witness :
  List.map item_content (get_chat_history Sample.store "S1" 1) = ["hello"]
  /\ Z.of_nat (List.length (get_chat_history Sample.store "S1" 1)) <= 1
  /\ List.length (get_chat_history Sample.store "S1" 0) = 2%nat.
Proof.
  destruct (get_chat_history_sorted_bounded Sample.store "S1" 1)
    as [_ [_ [Hb _]]].
  destruct (get_chat_history_sorted_bounded Sample.store "S1" 0)
    as [_ [_ [_ Hall]]].
  split; [vm_compute; reflexivity|].
  split; [apply Hb; discriminate|].
  rewrite Hall by reflexivity. vm_compute. reflexivity.
Defined.

Lemma update_one_none {A} (p : A -> bool) f l :
  (forall x, In x l -> p x = false) -> Mongo.update_one p f l = l.
Proof.
  induction l as [|x r IH]; simpl; intro H; [reflexivity|].
  rewrite (H x) by auto. f_equal. apply IH. auto.
Qed.

Lemma update_one_find_other {A} (p q : A -> bool) f l :
  (forall x, p x = true -> q x = false /\ q (f x) = false) ->
  List.find q (Mongo.update_one p f l) = List.find q l.
Proof.
  intros Hpq. induction l as [|x r IH]; simpl; [reflexivity|].
  destruct (p x) eqn:Hp; simpl.
  - destruct (Hpq x Hp) as [-> ->]. reflexivity.
  - destruct (q x); [reflexivity | exact IH].
Qed.

Lemma update_session_access_in st sid now s :
  List.NoDup (session_ids st) ->
  In s (sessions_collection st) -> session_id s = sid ->
  In (set_last_accessed now s)
     (sessions_collection (update_session_access st sid now)).
Proof.
  intros Hnd Hs Hid. subst sid. unfold update_session_access.
  cbn [sessions_collection].
  apply (update_one_unique (set_last_accessed now) _ s Hnd Hs
           (fun _ => eq_refl)).
Qed.

Lemma update_session_access_ids st sid now :
  session_ids (update_session_access st sid now) = session_ids st.
Proof.
  unfold session_ids, update_session_access. cbn [sessions_collection].
  now apply update_one_map.
Qed.

(** Touching keeps the identifier and the activity flag of the document at
    each position, so a lookup that succeeded still succeeds, on the same
    document up to its access time. *)
Lemma get_session_after_touch st sid sid' now s :
  get_session st sid = Some s ->
  exists s', get_session (update_session_access st sid' now) sid = Some s'
             /\ set_last_accessed 0 s' = set_last_accessed 0 s.
Proof.
  unfold get_session, update_session_access. cbn [sessions_collection].
  induction (sessions_collection st) as [|x r IH]; simpl; [discriminate|].
  destruct (String.eqb (session_id x) sid'); simpl.
  - destruct (String.eqb (session_id x) sid && is_active x).
    + intro H. inversion H; subst. eexists. split; reflexivity.
    + intro H. exists s. split; [exact H | reflexivity].
  - destruct (String.eqb (session_id x) sid && is_active x).
    + intro H. inversion H; subst. eexists. split; reflexivity.
    + exact IH.
Qed.

Lemma get_session_touch_unique st sid now :
  List.NoDup (session_ids st) ->
  get_session (update_session_access st sid now) sid
  = option_map (set_last_accessed now) (get_session st sid).
Proof.
  intro Hnd.
  assert (List.NoDup (session_ids (update_session_access st sid now)))
    as Hnd' by now rewrite update_session_access_ids.
  destruct (get_session st sid) as [s|] eqn:Hget.
  - apply get_session_some in Hget. destruct Hget as [Hs [Hid Hact]].
    pose proof (update_session_access_in st sid now s Hnd Hs Hid) as Hin.
    pose proof (get_session_unique _ (set_last_accessed now s) Hnd' Hin) as Hu.
    simpl in Hu. rewrite Hid, Hact in Hu. exact Hu.
  - simpl.
    destruct (get_session (update_session_access st sid now) sid)
      as [s'|] eqn:Hget'; [|reflexivity].
    exfalso. apply get_session_some in Hget'.
    destruct Hget' as [Hin' [Hid' Hact']].
    assert (exists x, In x (sessions_collection st)
                      /\ session_id x = session_id s'
                      /\ is_active x = is_active s') as [x [Hx [Hxi Hxa]]].
    { clear -Hin'. unfold update_session_access in Hin'.
      cbn [sessions_collection] in Hin'.
      induction (sessions_collection st) as [|y r IH];
        simpl in Hin'; [destruct Hin'|].
      destruct (String.eqb (session_id y) sid).
      - destruct Hin' as [<-|Hin']; [exists y; simpl; auto|].
        exists s'. simpl. auto.
      - destruct Hin' as [<-|Hin']; [exists y; simpl; auto|].
        destruct (IH Hin') as [x [Hx H]]. exists x. simpl. auto. }
    unfold get_session in Hget.
    pose proof (List.find_none _ _ Hget x Hx) as Hf. simpl in Hf.
    rewrite Hxi, Hxa, Hid', Hact', String.eqb_refl in Hf. discriminate.
Qed.

(** X4: [update_session_access] writes nothing but one access time: the
    documents, taken without their access times, and the messages stay as
    they were; an identifier that is not in the store changes nothing; no
    other session's lookup changes; the update does not look at [is_active],
    so an inactive session is touched as well; and when identifiers are
    unique, [get_session] then returns the same session with the new access
    time. *)
Theorem update_session_access_effect (st : Store) (sid : string) (now : Z) :
  let st' := update_session_access st sid now in
  List.map (set_last_accessed 0) (sessions_collection st')
  = List.map (set_last_accessed 0) (sessions_collection st)
  /\ messages_collection st' = messages_collection st
  /\ (~ In sid (session_ids st) -> st' = st)
  /\ (forall sid', sid' <> sid -> get_session st' sid' = get_session st sid')
  /\ (List.NoDup (session_ids st) ->
      (forall s, In s (sessions_collection st) -> session_id s = sid ->
                 In (set_last_accessed now s) (sessions_collection st'))
      /\ get_session st' sid
         = option_map (set_last_accessed now) (get_session st sid)).
Proof.
  intro st'. subst st'. unfold update_session_access.
  cbn [sessions_collection messages_collection].
  split; [|split; [reflexivity|split; [|split]]].
  - induction (sessions_collection st) as [|x r IH]; simpl; [reflexivity|].
    destruct (String.eqb (session_id x) sid); simpl; [reflexivity|].
    now rewrite IH.
  - intro Hni. rewrite update_one_none; [now destruct st|].
    intros x Hx. destruct (String.eqb_spec (session_id x) sid) as [E|];
      [|reflexivity].
    exfalso. apply Hni. rewrite <- E. unfold session_ids. now apply in_map.
  - intros sid' Hne. unfold get_session. cbn [sessions_collection].
    apply update_one_find_other.
    intros x Hx. apply String.eqb_eq in Hx. simpl.
    destruct (String.eqb_spec (session_id x) sid'); [congruence|auto].
  - intro Hnd. split.
    + intros s Hs Hid.
      exact (update_session_access_in st sid now s Hnd Hs Hid).
    + exact (get_session_touch_unique st sid now Hnd).
Qed.

Lemma update_session_access_effect_witness :
  let st' := update_session_access Sample.store "S1" Sample.now in
  In (set_last_accessed Sample.now
        (Sample.session "S1" (Sample.days_ago 1) false))
     (sessions_collection st')
  /\ get_session st' "S1" = None
  /\ update_session_access Sample.store "unknown" Sample.now = Sample.store.
Proof.
  intro st'.
  destruct (update_session_access_effect Sample.store "S1" Sample.now)
    as [_ [_ [_ [_ Hu]]]].
  destruct Hu as [Hin Hget].
  { vm_compute. repeat constructor; simpl; intuition discriminate. }
  split.
  - apply (Hin (Sample.session "S1" (Sample.days_ago 1) false));
      [simpl; auto | reflexivity].
  - split.
    + subst st'. rewrite Hget. vm_compute. reflexivity.
    + apply (update_session_access_effect Sample.store "unknown" Sample.now).
      vm_compute. intuition discriminate.
Defined.

(** X5: deactivation is a soft delete: once a session of a store with unique
    identifiers is deactivated, [get_session] no longer returns it, the
    matcher never answers with it, its credentials no longer verify and no
    message can be stored under it; but no message is removed, its history
    reads as before, and every other session is looked up as before. *)
Theorem deactivate_session_effect (st : Store) (s : UserSession.t) :
  List.NoDup (session_ids st) ->
  In s (sessions_collection st) ->
  let sid := session_id s in
  let st' := deactivate_session st sid in
  get_session st' sid = None
  /\ (forall ua ip url u uid now,
        find_existing_session st' ua ip url u uid now <> Some sid)
  /\ (forall pw key, verify_credentials st' sid pw key = Some false)
  /\ (forall type content meta id now,
        store_chat_message st' sid type content meta id now = None)
  /\ messages_collection st' = messages_collection st
  /\ (forall limit, get_chat_history st' sid limit = get_chat_history st sid limit)
  /\ (forall sid', sid' <> sid -> get_session st' sid' = get_session st sid')
  /\ session_ids st' = session_ids st.
Proof.
  intros Hnd Hs sid st'.
  assert (session_ids st' = session_ids st) as Hids.
  { unfold session_ids, st', deactivate_session. cbn [sessions_collection].
    now apply update_one_map. }
  assert (In (set_inactive s) (sessions_collection st')) as Hin.
  { unfold st', deactivate_session. cbn [sessions_collection].
    apply (update_one_unique set_inactive _ s Hnd Hs (fun _ => eq_refl)). }
  assert (List.NoDup (session_ids st')) as Hnd' by now rewrite Hids.
  assert (get_session st' sid = None) as Hget.
  { pose proof (get_session_unique st' (set_inactive s) Hnd' Hin) as H.
    exact H. }
  split; [exact Hget|]. split.
  { intros ua ip url u uid now Hf. apply find_existing_session_some in Hf.
    destruct Hf as [d [Hd [Hid [Ha _]]]].
    assert (d = set_inactive s) by (eapply session_of_id; eauto).
    subst d. discriminate. }
  split; [intros pw key; unfold verify_credentials; now rewrite Hget|].
  split; [intros; unfold store_chat_message; now rewrite Hget|].
  split; [reflexivity|]. split; [reflexivity|]. split; [|exact Hids].
  intros sid' Hne. unfold get_session, st', deactivate_session.
  cbn [sessions_collection]. apply update_one_find_other.
  intros x Hx. apply String.eqb_eq in Hx. simpl.
  destruct (String.eqb_spec (session_id x) sid'); [congruence|auto].
Qed.

Lemma deactivate_session_effect_witness :
  let st' := deactivate_session Sample.store "S2" in
  get_session Sample.store "S2" <> None
  /\ get_session st' "S2" = None
  /\ store_chat_message st' "S2" "user" "hello" None "m9" Sample.now = None
  /\ List.length (get_chat_history st' "S2" 0) = 1%nat.
Proof.
  intro st'.
  destruct (deactivate_session_effect Sample.store
              (Sample.session "S2" (Sample.seconds_ago 60) true))
    as [Hg [_ [_ [Hst [_ [Hh _]]]]]].
  - vm_compute. repeat constructor; simpl; intuition discriminate.
  - simpl. auto.
  - split; [vm_compute; discriminate|]. split; [exact Hg|].
    split; [apply Hst|].
    change st' with (deactivate_session Sample.store
                       (session_id (Sample.session "S2"
                                      (Sample.seconds_ago 60) true))).
    rewrite Hh. vm_compute. reflexivity.
Defined.

(** X6: for a number of days whose cut-off date [now - days] exists (at
    most 999999999 days in absolute value, the date within the calendar),
    the sweep returns, leaves only active sessions accessed at or after the
    cut-off, and sweeping again with the same arguments changes nothing.
    For any other number of days the sweep raises before it reads the
    store. *)
Theorem cleanup_expired_sessions_idempotent (st : Store) (days now : Z) :
  let cutoff := now - Datetime.timedelta_days days in
  (Z.abs days <= Datetime.max_timedelta_days ->
   Datetime.min_datetime <= cutoff <= Datetime.max_datetime ->
   exists st',
     cleanup_expired_sessions st days now = Some (st', None)
     /\ (forall s, In s (sessions_collection st') ->
                   In s (sessions_collection st) /\ is_active s = true
                   /\ cutoff <= last_accessed s)
     /\ cleanup_expired_sessions st' days now = Some (st', None))
  /\ (Datetime.max_timedelta_days < Z.abs days
      \/ cutoff < Datetime.min_datetime \/ Datetime.max_datetime < cutoff ->
      cleanup_expired_sessions st days now = None).
Proof.
  intro cutoff. split.
  - intros Hdays Hrange.
    pose proof (sub_timedelta_days_some now days Hdays Hrange) as Hc.
    fold cutoff in Hc.
    pose proof (cleanup_expired_sessions_eq st days now cutoff Hc) as Hsweep.
    cbv zeta in Hsweep.
    set (st' := mk_store _ _) in Hsweep. exists st'.
    assert (forall s, In s (sessions_collection st') ->
              In s (sessions_collection st) /\ expired cutoff s = false)
      as H.
    { intros s Hs. subst st'. cbn [sessions_collection] in Hs.
      unfold Mongo.delete_many in Hs.
      apply List.filter_In in Hs. destruct Hs as [Hin Hm].
      split; [exact Hin|].
      destruct (expired cutoff s) eqn:He; [|reflexivity].
      apply negb_true_iff in Hm.
      assert (mem_string (session_id s)
                (List.map session_id
                   (List.filter (expired cutoff) (sessions_collection st)))
              = true); [|congruence].
      apply mem_string_in. apply in_map. apply List.filter_In. auto. }
    split; [exact Hsweep|]. split.
    + intros s Hs. destruct (H s Hs) as [Hin He]. split; [exact Hin|].
      unfold expired in He. apply orb_false_iff in He. destruct He as [Hl Ha].
      apply negb_false_iff in Ha. apply Z.ltb_ge in Hl. auto.
    + unfold cleanup_expired_sessions. rewrite Hc.
      rewrite filter_none; [reflexivity|].
      intros s Hs. now apply H.
  - intro Hout. apply cleanup_expired_sessions_raises.
    now apply sub_timedelta_days_none.
Qed.

Lemma cleanup_expired_sessions_idempotent_witness :
  (exists st',
     cleanup_expired_sessions Sample.store 30 Sample.now = Some (st', None)
     /\ session_ids st' = ["S2"]
     /\ (forall s, In s (sessions_collection st') -> is_active s = true)
     /\ cleanup_expired_sessions st' 30 Sample.now = Some (st', None))
  /\ cleanup_expired_sessions Sample.store 1000000 Sample.now = None.
Proof.
  destruct (cleanup_expired_sessions_idempotent Sample.store 30 Sample.now)
    as [Hin _].
  destruct (cleanup_expired_sessions_idempotent Sample.store 1000000
              Sample.now) as [_ Hout].
  split.
  - destruct (Hin ltac:(vm_compute; discriminate)
                  ltac:(split; vm_compute; discriminate))
      as [st' [Hsweep [H1 H2]]].
    exists st'. split; [exact Hsweep|]. split.
    + assert (cleanup_expired_sessions Sample.store 30 Sample.now
              = Some (mk_store
                        [Sample.session "S2" (Sample.seconds_ago 60) true]
                        [Sample.message "m3" "S2" (Sample.seconds_ago 60)
                                        "user" "list leads"],
                      None)) as Hv by (vm_compute; reflexivity).
      rewrite Hv in Hsweep. injection Hsweep as <-. reflexivity.
    + split; [|exact H2]. intros s Hs. exact (proj1 (proj2 (H1 s Hs))).
  - apply Hout. right. left. vm_compute. reflexivity.
Defined.

End StoreOperations3.

(** ** Further properties of the routes *)

Section Routes.

Import MongoDBManager UserSession Api.

Lemma format_history_users n : forall h, (List.length h <= n)%nat ->
  List.map (fun p => (pair_timestamp p, pair_user_message p))
           (format_history h)
  = List.map (fun i => (item_timestamp i, item_content i))
      (List.filter (fun i => String.eqb (item_role i) "user") h).
Proof.
  induction n as [|n IH]; intros [|msg rest] Hlen; simpl in *;
    try reflexivity; try lia.
  destruct (String.eqb (item_role msg) "user") eqn:Hu.
  - destruct rest as [|next rest']; [reflexivity|].
    destruct (String.eqb (item_role next) "assistant") eqn:Ha.
    + cbn [List.map]. f_equal.
      rewrite IH by (simpl in *; lia).
      cbn [List.filter]. apply String.eqb_eq in Ha.
      rewrite Ha. reflexivity.
    + cbn [List.map]. f_equal. apply IH. lia.
  - apply IH. lia.
Qed.

Lemma format_history_replies n : forall h, (List.length h <= n)%nat ->
  forall p, In p (format_history h) ->
    pair_ai_response p = EmptyString
    \/ exists j, In j h /\ item_role j = "assistant"
                 /\ item_content j = pair_ai_response p.
Proof.
  induction n as [|n IH]; intros [|msg rest] Hlen p Hp; simpl in *;
    try contradiction; try lia.
  destruct (String.eqb (item_role msg) "user") eqn:Hu.
  - destruct rest as [|next rest'].
    + destruct Hp as [<-|[]]. now left.
    + destruct (String.eqb (item_role next) "assistant") eqn:Ha.
      * destruct Hp as [<-|Hp].
        -- right. exists next. apply String.eqb_eq in Ha. simpl. auto.
        -- destruct (IH rest' ltac:(simpl in *; lia) p Hp) as [H|[j [Hj H]]];
             [now left|]. right. exists j. simpl. auto.
      * destruct Hp as [<-|Hp]; [now left|].
        destruct (IH (next :: rest') ltac:(simpl in *; lia) p Hp)
          as [H|[j [Hj H]]]; [now left|]. right. exists j. simpl. auto.
  - destruct (IH rest ltac:(lia) p Hp) as [H|[j [Hj H]]]; [now left|].
    right. exists j. auto.
Qed.

Lemma format_history_length h :
  List.length (format_history h)
  = List.length (List.filter (fun i => String.eqb (item_role i) "user") h).
Proof.
  pose proof (format_history_users (List.length h) h (le_n _)) as H.
  apply (f_equal (@List.length _)) in H.
  now rewrite !List.length_map in H.
Qed.

(** X7: the pairing loop of the history route answers one pair for each user
    message, in order, with that message's time and text; messages of the
    assistant never open a pair.  The reply of a pair is empty or the text of
    an assistant message of the history. *)
Theorem format_history_one_pair_per_user_message (h : list HistoryItem) :
  List.map (fun p => (pair_timestamp p, pair_user_message p))
           (format_history h)
  = List.map (fun i => (item_timestamp i, item_content i))
      (List.filter (fun i => String.eqb (item_role i) "user") h)
  /\ List.length (format_history h)
     = List.length (List.filter (fun i => String.eqb (item_role i) "user") h)
  /\ (forall p, In p (format_history h) ->
        pair_ai_response p = EmptyString
        \/ exists j, In j h /\ item_role j = "assistant"
                     /\ item_content j = pair_ai_response p).
Proof.
  pose proof (format_history_users (List.length h) h (le_n _)) as H.
  split; [exact H|]. split.
  - apply format_history_length.
  - exact (format_history_replies (List.length h) h (le_n _)).
Qed.

Lemma format_history_one_pair_per_user_message_witness :
  let h := [mk_item "assistant" "welcome" 1 None;
            mk_item "user" "first" 2 None;
            mk_item "user" "second" 3 None;
            mk_item "assistant" "answer" 4 None] in
  format_history h = [mk_pair 2 "first" ""; mk_pair 3 "second" "answer"]
  /\ (forall p, In p (format_history h) ->
        pair_ai_response p = EmptyString
        \/ exists j, In j h /\ item_role j = "assistant"
                     /\ item_content j = pair_ai_response p).
Proof.
  split; [reflexivity|].
  exact (proj2 (proj2 (format_history_one_pair_per_user_message _))).
Defined.

(** X8: the history route answers 400 for an empty identifier, 404 when
    [get_session] does not return the session, and otherwise 200 with the
    pairs of the limited history and their number as [count].  A session
    that is stored but inactive is answered 404 although its messages are
    still stored and [MongoDBManager.get_chat_history] still returns them. *)
Theorem history_route_requires_active_session (srv : Server) (sid : string)
    (limit : Z) :
  (sid = EmptyString ->
   Api.get_chat_history srv sid limit = (Error "Session ID is required.", 400))
  /\ (sid <> EmptyString -> get_session (db srv) sid = None ->
      Api.get_chat_history srv sid limit = (Error "Invalid session.", 404))
  /\ (sid <> EmptyString -> get_session (db srv) sid <> None ->
      let h := MongoDBManager.get_chat_history (db srv) sid limit in
      Api.get_chat_history srv sid limit
      = (History sid (format_history h)
           (Z.of_nat (List.length
              (List.filter (fun i => String.eqb (item_role i) "user") h))),
         200))
  /\ (sid <> EmptyString -> List.NoDup (session_ids (db srv)) ->
      forall s, In s (sessions_collection (db srv)) -> session_id s = sid ->
                is_active s = false ->
      Api.get_chat_history srv sid limit = (Error "Invalid session.", 404)).
Proof.
  assert (sid <> EmptyString -> get_session (db srv) sid = None ->
          Api.get_chat_history srv sid limit = (Error "Invalid session.", 404))
    as Hnone.
  { intros Hne Hget. unfold Api.get_chat_history, SessionManager.get_session.
    destruct sid; [congruence|]. simpl Py.is_empty. cbv iota.
    now rewrite Hget. }
  split; [intros ->; reflexivity|]. split; [exact Hnone|]. split.
  - intros Hne Hget h. unfold Api.get_chat_history, SessionManager.get_session.
    destruct sid; [congruence|]. simpl Py.is_empty. cbv iota.
    destruct (get_session (db srv) _); [|congruence].
    fold h. unfold SessionManager.get_chat_history. fold h.
    now rewrite (format_history_length h).
  - intros Hne Hnd s Hs Hid Hact. apply Hnone; [exact Hne|].
    pose proof (get_session_unique (db srv) s Hnd Hs) as H.
    rewrite Hid, Hact in H. exact H.
Qed.

Lemma history_route_requires_active_session_witness :
  let srv := mk_server Sample.store ∅ ∅ in
  Api.get_chat_history srv "" 10 = (Error "Session ID is required.", 400)
  /\ Api.get_chat_history srv "S1" 10 = (Error "Invalid session.", 404)
  /\ List.length (MongoDBManager.get_chat_history Sample.store "S1" 10) = 2%nat
  /\ snd (Api.get_chat_history srv "S2" 10) = 200.
Proof.
  intro srv.
  pose proof (history_route_requires_active_session srv "" 10) as [H0 _].
  pose proof (history_route_requires_active_session srv "S1" 10)
    as [_ [_ [_ H1]]].
  pose proof (history_route_requires_active_session srv "S2" 10)
    as [_ [_ [H2 _]]].
  split; [exact (H0 eq_refl)|]. split.
  - apply (H1 ltac:(discriminate) ltac:(vm_compute; repeat constructor;
                                          simpl; intuition discriminate)
              (Sample.session "S1" (Sample.days_ago 1) false)).
    + vm_compute. auto.
    + reflexivity.
    + reflexivity.
  - split; [reflexivity|].
    rewrite (H2 ltac:(discriminate) ltac:(vm_compute; discriminate)).
    reflexivity.
Defined.

End Routes.

(** ** The rate limiter over runs of requests *)

Section RateLimits.

Import Api.

Lemma chat_rate_limits_step srv req env :
  rate_limits (fst (chat_with_agent srv req env))
  = default (rate_limits srv)
      (chat_rate_limit (rate_limits srv) (chat_remote_addr req)
                       (current_time env)).
Proof.
  destruct (chat_rate_limit (rate_limits srv) (chat_remote_addr req)
              (current_time env)) as [limits|] eqn:H.
  - now rewrite (proj1 (chat_admitted srv req env limits H)).
  - now rewrite (chat_refused srv req env H).
Qed.

Lemma chat_rate_limit_bounded limits ip now :
  limits_bounded limits ->
  limits_bounded (default limits (chat_rate_limit limits ip now)).
Proof.
  intros Hb. rewrite chat_rate_limit_eq. cbv zeta.
  destruct (10 <=? _) eqn:Hlen; [exact Hb|]. simpl.
  intros ip' l. destruct (decide (ip' = ip)) as [->|Hne].
  - rewrite lookup_insert_eq. intros [= <-].
    rewrite List.length_app. simpl. apply Z.leb_gt in Hlen. lia.
  - rewrite lookup_insert_ne by congruence. apply Hb.
Qed.

(** X9: no sequence of [/chat] requests, whatever their outcomes, makes a list
    of request times of [app.rate_limits] longer than ten entries. *)
Theorem chat_rate_limits_stay_bounded (srv : Server)
    (requests : list (ChatRequest * ChatEnv)) :
  limits_bounded (rate_limits srv) ->
  limits_bounded (rate_limits (chat_requests srv requests)).
Proof.
  unfold chat_requests. revert srv.
  induction requests as [|[req env] r IH]; intros srv Hb; [exact Hb|].
  simpl. apply IH. rewrite chat_rate_limits_step.
  now apply chat_rate_limit_bounded.
Qed.

Lemma chat_rate_limits_stay_bounded_witness :
  let twelve :=
    List.map (fun t => (Sample.chat_request "S2" "hello", Sample.chat_env t))
             (Sample.chat_times 12 Sample.now) in
  let srv := chat_requests Sample.fresh_server twelve in
  limits_bounded (rate_limits Sample.fresh_server)
  /\ limits_bounded (rate_limits srv)
  /\ rate_limits srv !! "10.0.0.1" = Some (Sample.chat_times 10 Sample.now).
Proof.
  intros twelve srv.
  assert (limits_bounded (rate_limits Sample.fresh_server))
    as H0 by (intros ip l; simpl; rewrite lookup_empty; discriminate).
  split; [exact H0|]. split.
  - exact (chat_rate_limits_stay_bounded _ twelve H0).
  - vm_compute. reflexivity.
Defined.

(** X10: the limiter keeps one list per client address: a request changes no
    list but that of its own address, and so never changes whether a request
    from another address would be admitted.  An address not yet listed is
    always admitted. *)
Theorem chat_rate_limit_per_address (srv : Server) (req : ChatRequest)
    (env : ChatEnv) (ip : string) :
  ip <> chat_remote_addr req ->
  let srv1 := fst (chat_with_agent srv req env) in
  rate_limits srv1 !! ip = rate_limits srv !! ip
  /\ (forall now,
        chat_rate_limit (rate_limits srv1) ip now = None
        <-> chat_rate_limit (rate_limits srv) ip now = None)
  /\ (rate_limits srv !! ip = None ->
      forall now, chat_rate_limit (rate_limits srv1) ip now
                  = Some (<[ip := [now]]> (rate_limits srv1))).
Proof.
  intros Hne srv1.
  assert (rate_limits srv1 !! ip = rate_limits srv !! ip) as Hl.
  { unfold srv1. rewrite chat_rate_limits_step, chat_rate_limit_eq. cbv zeta.
    destruct (10 <=? _); [reflexivity|]. simpl.
    now rewrite lookup_insert_ne by congruence. }
  split; [exact Hl|]. split.
  - intro now. rewrite !chat_rate_limit_eq. cbv zeta. rewrite Hl.
    destruct (10 <=? _); [tauto|]. split; discriminate.
  - intros Hnone now. unfold chat_rate_limit. now rewrite Hl, Hnone.
Qed.

Lemma chat_rate_limit_per_address_witness :
  let srv1 :=
    fst (chat_with_agent Sample.busy_server
           (Sample.chat_request "S2" "hello")
           (Sample.chat_env (Sample.now + 10 * Datetime.second))) in
  rate_limits srv1 !! "10.0.0.2" = rate_limits Sample.busy_server !! "10.0.0.2"
  /\ chat_rate_limit (rate_limits srv1) "10.0.0.2"
       (Sample.now + 10 * Datetime.second)
     = Some (<["10.0.0.2" := [Sample.now + 10 * Datetime.second]]>
               (rate_limits srv1)).
Proof.
  intro srv1.
  pose proof (chat_rate_limit_per_address Sample.busy_server
                (Sample.chat_request "S2" "hello")
                (Sample.chat_env (Sample.now + 10 * Datetime.second))
                "10.0.0.2" ltac:(discriminate)) as [H1 [_ H3]].
  split; [exact H1|]. apply H3. vm_compute. reflexivity.
Defined.

(** X11: while every recorded request of an address is less than a day old, the
    limiter is a sliding window: it refuses exactly when ten or more of the
    recorded requests are less than sixty seconds old, and otherwise keeps
    those and appends the new one. *)
Theorem chat_rate_limit_sliding_window (limits : gmap string (list Z))
    (ip : string) (now : Z) (l : list Z) :
  limits !! ip = Some l ->
  (forall t, In t l -> 0 <= now - t < Datetime.day) ->
  let recent := List.filter (fun t => now - t <? 60 * Datetime.second) l in
  (10 <= Z.of_nat (List.length recent) ->
   chat_rate_limit limits ip now = None)
  /\ (Z.of_nat (List.length recent) < 10 ->
      chat_rate_limit limits ip now
      = Some (<[ip := (recent ++ [now])%list]> limits))
  /\ (forall t, In t recent -> In t l /\ now - t < 60 * Datetime.second).
Proof.
  intros Hl Hday recent. unfold chat_rate_limit. rewrite Hl. cbv zeta.
  rewrite (recent_requests_within_day now l Hday). fold recent.
  split; [|split].
  - intro H. apply Z.leb_le in H. now rewrite H.
  - intro H. apply Z.leb_gt in H. now rewrite H.
  - intros t Ht. apply List.filter_In in Ht. destruct Ht as [Hin Hlt].
    apply Z.ltb_lt in Hlt. auto.
Qed.

Lemma chat_rate_limit_sliding_window_witness :
  let ip := "10.0.0.1" in
  let limits := Sample.limits_after ip (Sample.chat_times 10 Sample.now) in
  chat_rate_limit limits ip (Sample.now + 10 * Datetime.second) = None
  /\ chat_rate_limit limits ip (Sample.now + 60 * Datetime.second)
     = Some (<[ip := (List.tl (Sample.chat_times 10 Sample.now)
                      ++ [Sample.now + 60 * Datetime.second])%list]> limits).
Proof.
  intros ip limits.
  assert (limits !! ip = Some (Sample.chat_times 10 Sample.now)) as Hl
    by (vm_compute; reflexivity).
  split.
  - refine (proj1 (chat_rate_limit_sliding_window limits ip _ _ Hl _) _).
    + intros t Ht. vm_compute in Ht.
      repeat (destruct Ht as [<-|Ht]; [vm_compute; split; congruence|]).
      destruct Ht.
    + vm_compute. discriminate.
  - refine (proj1 (proj2 (chat_rate_limit_sliding_window limits ip _ _ Hl _)) _).
    + intros t Ht. vm_compute in Ht.
      repeat (destruct Ht as [<-|Ht]; [vm_compute; split; congruence|]).
      destruct Ht.
    + vm_compute. reflexivity.
Defined.

End RateLimits.

(** ** A served chat request *)

Section ChatServed.

Import MongoDBManager UserSession Api.

Lemma touch_keeps_keys s s' :
  set_last_accessed 0 s' = set_last_accessed 0 s ->
  UserSession.user_id s' = UserSession.user_id s
  /\ UserSession.user_identifier s' = UserSession.user_identifier s.
Proof.
  destruct s, s'. unfold set_last_accessed. simpl. intros [= ]. subst. auto.
Qed.

Lemma chat_served srv req env limits sid text s agent :
  chat_rate_limit (rate_limits srv) (chat_remote_addr req) (current_time env)
  = Some limits ->
  chat_session_id req = Some sid -> sid <> EmptyString ->
  chat_user_input req = Some text -> text <> EmptyString ->
  Py.len (Py.strip text) <= 2000 ->
  get_session (db srv) sid = Some s ->
  active_agents srv !! sid = Some agent ->
  chat_with_agent srv req env
  = (mk_server
       (mk_store
          (sessions_collection
             (update_session_access (db srv) sid (access_time env)))
          (messages_collection (db srv)
           ++ [ChatMessage.mk (message_id1 env) sid (UserSession.user_id s)
                 (UserSession.user_identifier s) (message_time1 env) "user"
                 (Py.strip text) None;
               ChatMessage.mk (message_id2 env) sid (UserSession.user_id s)
                 (UserSession.user_identifier s) (message_time2 env)
                 "assistant" (default error_response (agent_chat env)) None])%list)
       (active_agents srv) limits,
     match agent_chat env with
     | Some response => (ChatReply sid response, 200)
     | None => (Error error_response, 500)
     end).
Proof.
  intros Hl Hsid Hne Htext Hne' Hlen Hget Hagent.
  destruct (get_session_after_touch (db srv) sid sid (access_time env) s Hget)
    as [s' [Hget' Hsame]].
  destruct (touch_keeps_keys s s' Hsame) as [Huid Hident].
  unfold chat_with_agent. rewrite Hl, Hsid, Htext. simpl.
  apply is_empty_false in Hne. apply is_empty_false in Hne'.
  rewrite Hne, Hne'. simpl.
  destruct (Z.ltb_spec 2000 (Py.len (Py.strip text))); [lia|].
  unfold SessionManager.get_session. rewrite Hget, Hagent.
  unfold SessionManager.store_chat_message, SessionManager.update_session_access,
    store_chat_message, SessionManager.metadata_of. simpl.
  rewrite Hget'.
  assert (forall m,
            get_session
              (mk_store
                 (sessions_collection
                    (update_session_access (db srv) sid (access_time env)))
                 m) sid = Some s') as Hget''.
  { intro m. exact Hget'. }
  rewrite !Hget''. rewrite Huid, Hident.
  cbn [messages_collection sessions_collection].
  destruct (agent_chat env); rewrite <- List.app_assoc; reflexivity.
Qed.

(** X12: a [/chat] request that passes the limiter and the checks, for a session
    [get_session] returns and an agent in memory, stores exactly two
    messages after the ones already stored: the stripped input as [user]
    and then the agent's reply, or the fixed error text when the agent
    raises, as [assistant]; both carry the session's account keys.  The
    answer is 200 with the reply, or 500 with the error text.  Of the
    sessions only an access time changes, and no agent changes. *)
Theorem chat_stores_the_exchange (srv : Server) (req : ChatRequest)
    (env : ChatEnv) (sid text : string) (s : UserSession.t) (agent : Agent) :
  chat_rate_limit (rate_limits srv) (chat_remote_addr req) (current_time env)
  <> None ->
  chat_session_id req = Some sid -> sid <> EmptyString ->
  chat_user_input req = Some text -> text <> EmptyString ->
  Py.len (Py.strip text) <= 2000 ->
  get_session (db srv) sid = Some s ->
  active_agents srv !! sid = Some agent ->
  let result := chat_with_agent srv req env in
  let stored role content id time :=
    ChatMessage.mk id sid (UserSession.user_id s)
      (UserSession.user_identifier s) time role content None in
  snd result
  = match agent_chat env with
    | Some response => (ChatReply sid response, 200)
    | None => (Error "An error occurred. Please try again.", 500)
    end
  /\ messages_collection (db (fst result))
     = (messages_collection (db srv)
        ++ [stored "user" (Py.strip text) (message_id1 env) (message_time1 env);
            stored "assistant"
              (default "An error occurred. Please try again." (agent_chat env))
              (message_id2 env) (message_time2 env)])%list
  /\ sessions_collection (db (fst result))
     = sessions_collection
         (update_session_access (db srv) sid (access_time env))
  /\ active_agents (fst result) = active_agents srv.
Proof.
  intros Hl Hsid Hne Htext Hne' Hlen Hget Hagent result stored.
  destruct (chat_rate_limit _ _ _) as [limits|] eqn:Hlim; [|congruence].
  unfold result.
  rewrite (chat_served srv req env limits sid text s agent
             Hlim Hsid Hne Htext Hne' Hlen Hget Hagent).
  cbn [fst snd db messages_collection sessions_collection active_agents].
  split; [reflexivity|]. split; [reflexivity|]. split; reflexivity.
Qed.

(** A blank input is served like any other: it is stored as an empty user
    message. *)
Lemma chat_stores_the_exchange_witness :
  let srv := mk_server Sample.store {["S2" := Sample.agent "S2"]} ∅ in
  let result :=
    chat_with_agent srv (Sample.chat_request "S2" "  ")
                    (Sample.chat_env Sample.now) in
  snd result = (ChatReply "S2" "Hello, Alice.", 200)
  /\ List.map ChatMessage.content (messages_collection (db (fst result)))
     = ["hello"; "hi"; "list leads"; ""; "Hello, Alice."].
Proof.
  intros srv result.
  pose proof (chat_stores_the_exchange srv (Sample.chat_request "S2" "  ")
                (Sample.chat_env Sample.now) "S2" "  "
                (Sample.session "S2" (Sample.seconds_ago 60) true)
                (Sample.agent "S2")
                ltac:(vm_compute; discriminate) eq_refl ltac:(discriminate)
                eq_refl ltac:(discriminate) ltac:(vm_compute; discriminate)
                eq_refl ltac:(vm_compute; reflexivity))
    as [H1 [H2 _]].
  split; [exact H1|].
  fold result in H2. rewrite H2. reflexivity.
Defined.

End ChatServed.

(** ** What [init_session] changes *)

Section InitEffects.

Import MongoDBManager UserSession Api.

Lemma checks_error_codes req env r :
  init_session_checks req env = inl r ->
  exists msg code, r = (Error msg, code) /\ In code [400; 401; 500].
Proof.
  unfold init_session_checks. cbv zeta.
  repeat match goal with
         | |- context [if ?b then _ else _] => destruct b
         | |- context [match ?x with _ => _ end] => destruct x
         end;
    intro H; inversion H; do 2 eexists; (split; [reflexivity|]);
    simpl; auto.
Qed.

(** The outcomes of [init_session]: an error that leaves the server as
    it was; a creation, with or without the agent; a restoration, with the
    agent in memory, built anew, or failing to build. *)
Lemma init_session_cases (P : Server * Response -> Prop) srv req env :
  (forall msg code, In code [400; 401; 500] -> P (srv, (Error msg, code))) ->
  (forall url u pw key sb,
     let made := created_server srv url u pw key sb (init_user_agent req)
                                (init_remote_addr req) env in
     P (made, (SessionInfo (new_session_id env)
                           "New session created successfully." false, 200))
     /\ P (mk_server (db made) (active_agents srv) (rate_limits srv),
           init_failed)) ->
  (forall sid password key,
     verify_credentials (db srv) sid password key = Some true ->
     let db1 := update_session_access (db srv) sid (write_time env) in
     let restored :=
       (SessionInfo sid "Session restored successfully." true, 200) in
     (active_agents srv !! sid <> None ->
      P (mk_server db1 (active_agents srv) (rate_limits srv), restored))
     /\ P (mk_server db1 (active_agents srv) (rate_limits srv), init_failed)
     /\ (active_agents srv !! sid = None ->
         forall a, P (mk_server db1 (<[sid := a]> (active_agents srv))
                                (rate_limits srv), restored))) ->
  P (init_session srv req env).
Proof.
  intros Herr Hcreate Hrestore. unfold init_session.
  destruct (init_session_checks req env) as [r|args] eqn:Hc.
  { destruct (checks_error_codes _ _ _ Hc) as [msg [code [-> Hcode]]].
    now apply Herr. }
  assert (P (srv, init_failed)) as Hfailed
    by (apply Herr; simpl; auto).
  assert (P (init_session_create srv (arg_erpnext_url args)
               (arg_username args) (arg_password args)
               (arg_google_api_key args) (arg_site_base_url args)
               (init_user_agent req) (init_remote_addr req) env)) as Hc'.
  { destruct (arg_password args) as [pw|]; [|exact Hfailed].
    rewrite init_create_some. destruct (agent_built env); apply Hcreate. }
  unfold init_session_body. cbv zeta.
  destruct (init_restore_session req); [|exact Hc'].
  destruct (SessionManager.find_existing_session _ _ _ _ _ _ _)
    as [existing|]; [|exact Hc'].
  destruct (Py.is_empty existing); [exact Hc'|].
  destruct (SessionManager.verify_credentials _ _ _ _) as [[]|] eqn:Hver;
    [|exact Hc'|exact Hfailed].
  destruct (Hrestore existing _ _ Hver) as [H1 [H2 H3]].
  destruct (active_agents srv !! existing) eqn:Hl.
  - apply H1. congruence.
  - destruct (SessionManager.get_session _ _); [|exact H2].
    destruct (agent_built env); [|exact H2]. now apply H3.
Qed.

Lemma get_session_app_keep st sid s extra m :
  get_session st sid = Some s ->
  get_session (mk_store (sessions_collection st ++ extra) m) sid = Some s.
Proof. unfold get_session. simpl. apply find_app_keep. Qed.

Lemma init_keeps_messages srv req env :
  messages_collection (db (fst (init_session srv req env)))
  = messages_collection (db srv).
Proof.
  pattern (init_session srv req env). apply init_session_cases.
  - reflexivity.
  - intros. split; reflexivity.
  - intros. repeat split; reflexivity.
Qed.

(** X13: whatever [init_session] answers, it leaves the rate limits and the
    stored messages alone, removes no session document (at most it appends
    one, under the identifier drawn), removes no agent, and keeps every
    active session retrievable with the same data up to its access time.
    It answers with one of the codes 200, 400, 401 and 500. *)
Theorem init_session_removes_nothing (srv : Server) (req : InitRequest)
    (env : InitEnv) :
  let srv1 := fst (init_session srv req env) in
  rate_limits srv1 = rate_limits srv
  /\ messages_collection (db srv1) = messages_collection (db srv)
  /\ (session_ids (db srv1) = session_ids (db srv)
      \/ session_ids (db srv1)
         = (session_ids (db srv) ++ [new_session_id env])%list)
  /\ (forall sid, active_agents srv !! sid <> None ->
                  active_agents srv1 !! sid <> None)
  /\ (forall sid s, get_session (db srv) sid = Some s ->
        exists s', get_session (db srv1) sid = Some s'
                   /\ set_last_accessed 0 s' = set_last_accessed 0 s)
  /\ In (snd (snd (init_session srv req env))) [200; 400; 401; 500].
Proof.
  cbv zeta. pattern (init_session srv req env). apply init_session_cases.
  - intros msg code Hcode. cbn [fst snd].
    split; [reflexivity|]. split; [reflexivity|]. split; [now left|].
    split; [auto|]. split; [intros sid s Hs; exists s; auto|].
    simpl in *. tauto.
  - intros url u pw key sb made.
    assert (forall sid s, get_session (db srv) sid = Some s ->
              exists s', get_session (db made) sid = Some s'
                         /\ set_last_accessed 0 s' = set_last_accessed 0 s)
      as Hkeep.
    { intros sid s Hs. exists s. split; [|reflexivity].
      now apply get_session_app_keep. }
    assert (session_ids (db made)
            = (session_ids (db srv) ++ [new_session_id env])%list) as Hids.
    { unfold session_ids, made, created_server.
      cbn [db sessions_collection]. now rewrite List.map_app. }
    split; cbn [fst snd rate_limits db active_agents].
    + split; [reflexivity|]. split; [reflexivity|]. split; [now right|].
      split; [|split; [exact Hkeep | simpl; auto]].
      intros sid Hsid. unfold made, created_server. cbn [active_agents].
      destruct (decide (sid = new_session_id env)) as [->|Hne].
      * rewrite lookup_insert_eq. discriminate.
      * now rewrite lookup_insert_ne by congruence.
    + split; [reflexivity|]. split; [reflexivity|]. split; [now right|].
      split; [auto|]. split; [exact Hkeep | simpl; auto].
  - intros sid password key Hver db1 restored.
    assert (forall sid' s, get_session (db srv) sid' = Some s ->
              exists s', get_session db1 sid' = Some s'
                         /\ set_last_accessed 0 s' = set_last_accessed 0 s)
      as Hkeep by (intros; now apply get_session_after_touch).
    assert (session_ids db1 = session_ids (db srv)) as Hids
      by apply update_session_access_ids.
    split; [|split]; intros; cbn [fst snd rate_limits db active_agents];
      (split; [reflexivity|]); (split; [reflexivity|]);
      (split; [now left|]).
    + split; [auto|]. split; [exact Hkeep | simpl; auto].
    + split; [auto|]. split; [exact Hkeep | simpl; auto].
    + split; [|split; [exact Hkeep | simpl; auto]].
      intros sid' Hsid'. destruct (decide (sid' = sid)) as [->|Hne].
      * rewrite lookup_insert_eq. discriminate.
      * now rewrite lookup_insert_ne by congruence.
Qed.

Lemma init_session_removes_nothing_witness :
  let srv := Sample.busy_server in
  let srv1 := fst (init_session srv (Sample.init_request "pw2")
                     (Sample.init_env Sample.now "S9")) in
  session_ids (db srv1) = ["S1"; "S2"; "S3"; "S9"]
  /\ active_agents srv1 !! "S2" <> None
  /\ rate_limits srv1 = rate_limits srv
  /\ messages_collection (db srv1) = messages_collection (db srv).
Proof.
  intros srv srv1.
  pose proof (init_session_removes_nothing srv (Sample.init_request "pw2")
                (Sample.init_env Sample.now "S9"))
    as [H1 [H2 [_ [H4 _]]]].
  split; [vm_compute; reflexivity|]. split.
  - apply H4. vm_compute. discriminate.
  - split; [exact H1 | exact H2].
Defined.

(** X14: the field validation of [init_session] comes first and changes
    nothing: a missing address or user name is answered 400 naming the
    missing fields, even when the server has no Google API key; with both
    present, a server without that key answers 500. *)
Theorem init_session_validation (srv : Server) (req : InitRequest)
    (env : InitEnv) :
  let url := Py.or_else (init_mocxha_url req) (init_erpnext_url req) in
  let answer msg code := init_session srv req env = (srv, (Error msg, code)) in
  (Py.truthy url = false -> Py.truthy (init_username req) = false ->
   answer "Missing required fields: mocxha_url, username" 400)
  /\ (Py.truthy url = false -> Py.truthy (init_username req) = true ->
      answer "Missing required fields: mocxha_url" 400)
  /\ (Py.truthy url = true -> Py.truthy (init_username req) = false ->
      answer "Missing required fields: username" 400)
  /\ (Py.truthy url = true -> Py.truthy (init_username req) = true ->
      Py.truthy (env_google_api_key env) = false ->
      answer "Google API key not configured on server. Please check environment variables." 500).
Proof.
  cbv zeta. unfold init_session, init_session_checks. cbv zeta.
  repeat split; intros; repeat match goal with H : _ = _ |- _ => rewrite H end;
    reflexivity.
Qed.

Lemma init_session_validation_witness :
  let req := mk_init_request "10.0.0.1" "UA-A" None (Some "") (Some "alice")
               (Some "pw1") None None None true in
  init_session Sample.busy_server req
    (mk_init_env None FrappeRaises Sample.now Sample.now "S9" true)
  = (Sample.busy_server, (Error "Missing required fields: mocxha_url", 400)).
Proof.
  intro req.
  exact (proj1 (proj2 (init_session_validation Sample.busy_server req
                         (mk_init_env None FrappeRaises Sample.now Sample.now
                                      "S9" true)))
           eq_refl eq_refl).
Defined.

(** X15: a request that carries no password passes the field validation, yet is
    never served: it is answered 500, never 400, and nothing is stored or
    built. *)
Theorem init_session_without_password (srv : Server) (req : InitRequest)
    (env : InitEnv) :
  init_password req = None ->
  Py.truthy (Py.or_else (init_mocxha_url req) (init_erpnext_url req)) = true ->
  Py.truthy (init_username req) = true ->
  exists msg, init_session srv req env = (srv, (Error msg, 500)).
Proof.
  intros Hpw Hurl Hu. unfold init_session, init_session_checks. cbv zeta.
  rewrite Hurl, Hu, Hpw. cbn [app].
  destruct (negb (Py.truthy (env_google_api_key env))); [eauto|].
  destruct (Py.len _ <? 20); [eauto|].
  cbn [arg_erpnext_url arg_username arg_password arg_google_api_key
       arg_site_base_url].
  exists "Failed to initialize session. Please check your credentials.".
  unfold init_session_body. cbv zeta.
  assert (forall a b c d e f h,
            init_session_create srv a b None c d e f h = (srv, init_failed))
    as Hc by reflexivity.
  rewrite Hc. unfold init_failed.
  destruct (init_restore_session req); [|reflexivity].
  destruct (SessionManager.find_existing_session _ _ _ _ _ _ _)
    as [existing|]; [|reflexivity].
  destruct (Py.is_empty existing); [reflexivity|].
  unfold SessionManager.verify_credentials, verify_credentials.
  destruct (get_session (db srv) existing); reflexivity.
Qed.

Lemma init_session_without_password_witness :
  let req := mk_init_request "10.0.0.1" "UA-A" (Some Sample.url) None
               (Some "alice") None None None None true in
  exists msg,
    init_session Sample.busy_server req (Sample.init_env Sample.now "S9")
    = (Sample.busy_server, (Error msg, 500)).
Proof.
  intro req.
  exact (init_session_without_password Sample.busy_server req
           (Sample.init_env Sample.now "S9") eq_refl eq_refl eq_refl).
Defined.

End InitEffects.

(** ** Calls that follow a successful [init_session] *)

Section AfterInit.

Import MongoDBManager UserSession Api.

Lemma find_app_last_some {A} (f : A -> bool) l x :
  f x = true -> List.find f (l ++ [x]) <> None.
Proof.
  intro Hx. induction l as [|y r IH]; simpl.
  - rewrite Hx. discriminate.
  - destruct (f y); [discriminate | exact IH].
Qed.

Lemma init_session_usable srv req env srv1 sid message restored :
  init_session srv req env = (srv1, (SessionInfo sid message restored, 200)) ->
  get_session (db srv1) sid <> None /\ active_agents srv1 !! sid <> None.
Proof.
  assert (forall r, r = init_session srv req env ->
            forall sid m b, snd r = (SessionInfo sid m b, 200) ->
              get_session (db (fst r)) sid <> None
              /\ active_agents (fst r) !! sid <> None) as H.
  { intros r ->. pattern (init_session srv req env).
    apply init_session_cases.
    - intros msg code _ sid0 m b Hr. discriminate.
    - intros url u pw key sb made. split; intros sid0 m b Hr;
        [|discriminate].
      cbn [snd] in Hr. inversion Hr; subst. cbn [fst]. split.
      + unfold get_session, made, created_server.
        cbn [db sessions_collection]. apply find_app_last_some.
        cbn [session_id is_active created_document].
        now rewrite String.eqb_refl.
      + unfold made, created_server. cbn [active_agents].
        rewrite lookup_insert_eq. discriminate.
    - intros sid0 password key Hver db1 restored0.
      assert (get_session db1 sid0 <> None) as Hget.
      { unfold verify_credentials in Hver.
        destruct (get_session (db srv) sid0) as [s|] eqn:Hs; [|discriminate].
        destruct (get_session_after_touch (db srv) sid0 sid0 (write_time env)
                    s Hs) as [s' [Hs' _]].
        unfold db1. rewrite Hs'. discriminate. }
      split; [|split].
      + intros Hag sid1 m b Hr. cbn [snd] in Hr. inversion Hr; subst.
        cbn [fst db active_agents]. auto.
      + intros sid1 m b Hr. discriminate.
      + intros Hag a sid1 m b Hr. cbn [snd] in Hr. inversion Hr; subst.
        cbn [fst db active_agents]. split; [exact Hget|].
        rewrite lookup_insert_eq. discriminate. }
  intro Hinit. specialize (H _ eq_refl sid message restored).
  rewrite Hinit in H. now apply H.
Qed.

(** X16: the session a successful [init_session] answers with can be used at
    once: a well-formed [/chat] request for it that passes the limiter is
    never answered 404 or 410; it is answered 200 with the agent's reply, or
    500 when the agent raises, the two messages are stored after the ones
    stored before the connection, and the history route then serves the
    session. *)
Theorem chat_after_init_session (srv srv1 : Server) (req : InitRequest)
    (env : InitEnv) (sid message : string) (restored : bool)
    (creq : ChatRequest) (cenv : ChatEnv) (text : string) :
  init_session srv req env = (srv1, (SessionInfo sid message restored, 200)) ->
  chat_rate_limit (rate_limits srv1) (chat_remote_addr creq)
                  (current_time cenv) <> None ->
  chat_session_id creq = Some sid -> sid <> EmptyString ->
  chat_user_input creq = Some text -> text <> EmptyString ->
  Py.len (Py.strip text) <= 2000 ->
  let result := chat_with_agent srv1 creq cenv in
  let summary m :=
    (ChatMessage.session_id m, ChatMessage.message_type m,
     ChatMessage.content m) in
  snd result
  = match agent_chat cenv with
    | Some response => (ChatReply sid response, 200)
    | None => (Error "An error occurred. Please try again.", 500)
    end
  /\ List.map summary (messages_collection (db (fst result)))
     = (List.map summary (messages_collection (db srv))
        ++ [(sid, "user", Py.strip text);
            (sid, "assistant",
             default "An error occurred. Please try again." (agent_chat cenv))])%list
  /\ (forall limit, snd (Api.get_chat_history (fst result) sid limit) = 200).
Proof.
  intros Hinit Hl Hsid Hne Htext Hne' Hlen result summary.
  destruct (init_session_usable _ _ _ _ _ _ _ Hinit) as [Hget Hag].
  destruct (get_session (db srv1) sid) as [s|] eqn:Hs; [|congruence].
  destruct (active_agents srv1 !! sid) as [agent|] eqn:Ha; [|congruence].
  destruct (chat_rate_limit _ _ _) as [limits|] eqn:Hlim; [|congruence].
  pose proof (init_keeps_messages srv req env) as Hm.
  rewrite Hinit in Hm. cbn [fst] in Hm.
  unfold result.
  rewrite (chat_served srv1 creq cenv limits sid text s agent
             Hlim Hsid Hne Htext Hne' Hlen Hs Ha).
  cbn [fst snd db messages_collection].
  split; [reflexivity|]. split.
  - rewrite List.map_app, Hm. reflexivity.
  - intro limit. unfold Api.get_chat_history, SessionManager.get_session.
    apply is_empty_false in Hne. rewrite Hne. cbn [db].
    destruct (get_session_after_touch (db srv1) sid sid (access_time cenv) s Hs)
      as [s' [Hs' _]].
    assert (forall m,
              get_session
                (mk_store
                   (sessions_collection
                      (update_session_access (db srv1) sid (access_time cenv)))
                   m) sid = Some s') as Hx by (intro; exact Hs').
    rewrite Hx. reflexivity.
Qed.

Lemma chat_after_init_session_witness :
  let first :=
    init_session Sample.fresh_server (Sample.init_request "pw1")
                 (Sample.init_env Sample.now "S1") in
  let result :=
    chat_with_agent (fst first) (Sample.chat_request "S1" " list leads ")
                    (Sample.chat_env (Sample.now + Datetime.second)) in
  snd first = (SessionInfo "S1" "New session created successfully." false, 200)
  /\ snd result = (ChatReply "S1" "Hello, Alice.", 200)
  /\ List.map ChatMessage.content (messages_collection (db (fst result)))
     = ["list leads"; "Hello, Alice."].
Proof.
  intros first result.
  assert (first = (fst first,
                   (SessionInfo "S1" "New session created successfully." false,
                    200))) as Hfirst by (vm_compute; reflexivity).
  pose proof (chat_after_init_session _ _ _ _ _ _ _
                (Sample.chat_request "S1" " list leads ")
                (Sample.chat_env (Sample.now + Datetime.second))
                " list leads " Hfirst
                ltac:(vm_compute; discriminate) eq_refl ltac:(discriminate)
                eq_refl ltac:(discriminate) ltac:(vm_compute; discriminate))
    as [H1 [H2 _]].
  split; [now rewrite Hfirst|]. split; [exact H1|].
  vm_compute. reflexivity.
Defined.




End AfterInit.

(** ** The account-wide history *)

Section AccountHistory.

Import MongoDBManager MongoDBManagerChats.

Lemma sorted_weaken {A} (R S : A -> A -> Prop) l :
  (forall a b, R a b -> S a b) -> StronglySorted R l -> StronglySorted S l.
Proof.
  intros HRS. induction 1 as [|x r Hr IH Hall]; constructor; [exact IH|].
  rewrite List.Forall_forall in *. auto.
Qed.

Lemma sort_desc_sorted {A} (key : A -> Z) l :
  StronglySorted (fun a b => key b <= key a) (Cursor.sort_desc key l).
Proof.
  unfold Cursor.sort_desc.
  apply (sorted_weaken (fun a b => - key a <= - key b)); [intros; lia|].
  apply (sort_asc_sorted (fun x => - key x)).
Qed.

Lemma sort_desc_perm {A} (key : A -> Z) l :
  Permutation (Cursor.sort_desc key l) l.
Proof. apply sort_asc_perm. Qed.

(** X18: [get_user_chat_history] lists newest first, at most [|limit|] items
    for a non-zero limit, and only messages stored under the account key
    of the given user name and address, whatever their session and whether
    or not that session is still active.  A message stored through
    [store_chat_message] enters the unlimited account history exactly when
    its session carries that account key. *)
Theorem account_history_newest_first (st : Store) (u url : string)
    (limit : Z) :
  let key := _generate_user_identifier u url in
  let history := get_user_chat_history st u url limit in
  StronglySorted
    (fun a b => user_item_timestamp b <= user_item_timestamp a) history
  /\ (forall item,
        In item history ->
        exists m, In m (messages_collection st)
                  /\ ChatMessage.user_identifier m = key
                  /\ item = user_history_item m)
  /\ (limit <> 0 -> Z.of_nat (List.length history) <= Z.abs limit)
  /\ (forall sid s type content meta id now st',
        get_session st sid = Some s ->
        store_chat_message st sid type content meta id now = Some (st', id) ->
        let doc := ChatMessage.mk id sid (UserSession.user_id s)
                     (UserSession.user_identifier s) now type content meta in
        Permutation (get_user_chat_history st' u url 0)
          (if String.eqb (UserSession.user_identifier s) key
           then user_history_item doc :: get_user_chat_history st u url 0
           else get_user_chat_history st u url 0)).
Proof.
  intros key history. subst history. unfold get_user_chat_history.
  fold key. split; [|split; [|split]].
  - rewrite limit_map. apply map_sorted. apply limit_sorted.
    apply (sort_desc_sorted ChatMessage.timestamp).
  - rewrite limit_map.
    intros item Hin. apply in_map_iff in Hin. destruct Hin as [m [<- Hm]].
    apply limit_incl in Hm.
    apply (Permutation_in _ (sort_desc_perm _ _)) in Hm.
    apply List.filter_In in Hm. destruct Hm as [Hm E].
    apply String.eqb_eq in E. exists m. auto.
  - intro Hne. rewrite limit_map, List.length_map. now apply limit_length.
  - intros sid s type content meta id now st' Hget Hstore.
    unfold store_chat_message in Hstore. rewrite Hget in Hstore.
    inversion Hstore; subst st'. cbn [messages_collection].
    unfold Mongo.limit. simpl (0 =? 0). cbv iota.
    rewrite List.filter_app. cbn [List.filter ChatMessage.user_identifier].
    destruct (String.eqb (UserSession.user_identifier s) key).
    + rewrite <- List.map_cons. apply Permutation_map.
      rewrite !sort_desc_perm.
      rewrite Permutation_app_comm. reflexivity.
    + rewrite List.app_nil_r. apply Permutation_map.
      now rewrite !sort_desc_perm.
Qed.

Lemma account_history_newest_first_witness :
  let s2 := Sample.session "S2" (Sample.seconds_ago 60) true in
  let doc := ChatMessage.mk "m4" "S2" (UserSession.user_id s2)
               (UserSession.user_identifier s2) Sample.now "assistant" "done"
               None in
  let st' := mk_store (sessions_collection Sample.store)
                      (messages_collection Sample.store ++ [doc]) in
  List.map user_item_content
    (get_user_chat_history Sample.store "Alice" "HTTPS://crm.example.com/" 2)
  = ["list leads"; "hi"]
  /\ Permutation (get_user_chat_history st' "alice" Sample.url 0)
       (user_history_item doc
        :: get_user_chat_history Sample.store "alice" Sample.url 0).
Proof.
  intros s2 doc st'. split; [vm_compute; reflexivity|].
  pose proof (account_history_newest_first Sample.store "alice" Sample.url 0)
    as [_ [_ [_ H]]].
  specialize (H "S2" s2 "assistant" "done" None "m4" Sample.now st'
                ltac:(vm_compute; reflexivity) ltac:(vm_compute; reflexivity)).
  cbv zeta in H.
  assert (String.eqb (UserSession.user_identifier s2)
            (_generate_user_identifier "alice" Sample.url) = true) as E
    by (vm_compute; reflexivity).
  rewrite E in H. exact H.
Defined.

End AccountHistory.

(** ** The status route *)

Section SessionStatus.

Import MongoDBManager UserSession Api Routes.

Lemma sweep_keeps st days now s st' r :
  List.NoDup (session_ids st) -> In s (sessions_collection st) ->
  is_active s = true -> now - Datetime.timedelta_days days <= last_accessed s ->
  cleanup_expired_sessions st days now = Some (st', r) ->
  In s (sessions_collection st').
Proof.
  intros Hnd Hs Hact Hfresh Hsweep.
  destruct (Datetime.sub_timedelta_days now days) as [cutoff|] eqn:Hc;
    [|rewrite cleanup_expired_sessions_raises in Hsweep by assumption;
      discriminate].
  rewrite (cleanup_expired_sessions_eq st days now cutoff Hc) in Hsweep.
  apply sub_timedelta_days_value in Hc. subst cutoff.
  injection Hsweep as <- _.
  cbn [sessions_collection]. unfold Mongo.delete_many.
  apply List.filter_In. split; [exact Hs|].
  rewrite (expired_ids_of_session _ _ s Hnd Hs). unfold expired.
  rewrite Hact. simpl. rewrite orb_false_r. apply negb_true_iff.
  apply Z.ltb_ge. exact Hfresh.
Qed.

(** X19: [/session_status] answers 404 and changes nothing for a session that
    [get_session] does not return.  Otherwise it answers 200 with the
    session's account key and counts as an access.  With unique
    identifiers the polled session is then kept by every sweep that returns
    and whose cut-off is not after the poll; and every restoration lookup
    for its device and account, made within the window after the poll,
    finds a session: an active one with these two keys and an access time
    at or after the poll.  It is the polled session when every other active
    session with these two keys was last accessed before the poll;
    otherwise it may be another one.  The answer says nothing about the
    agent: without an agent in memory the session is reported active while
    [/chat] answers 410. *)
Theorem session_status_counts_as_access (srv : Server) (sid : string)
    (now : Z) :
  (get_session (db srv) sid = None ->
   session_status srv sid now = (srv, (StatusInactive, 404)))
  /\ (forall s,
        get_session (db srv) sid = Some s ->
        let result := session_status srv sid now in
        snd result = (StatusActive sid (user_identifier s), 200)
        /\ active_agents (fst result) = active_agents srv
        /\ rate_limits (fst result) = rate_limits srv
        /\ messages_collection (db (fst result))
           = messages_collection (db srv)
        /\ (List.NoDup (session_ids (db srv)) ->
            get_session (db (fst result)) sid
            = Some (set_last_accessed now s)
            /\ (forall days t st' r,
                  cleanup_expired_sessions (db (fst result)) days t
                  = Some (st', r) ->
                  t - Datetime.timedelta_days days <= now ->
                  In (set_last_accessed now s) (sessions_collection st'))
            /\ (forall ua ip url u t,
                  user_identifier s = _generate_user_identifier u url ->
                  browser_fingerprint s
                  = _generate_browser_fingerprint ua ip ->
                  t - Datetime.timedelta_days 30 <= now ->
                  exists found,
                    find_existing_session (db (fst result)) ua ip url u None t
                    = Some (session_id found)
                    /\ In found (sessions_collection (db (fst result)))
                    /\ user_identifier found = user_identifier s
                    /\ browser_fingerprint found = browser_fingerprint s
                    /\ is_active found = true
                    /\ now <= last_accessed found
                    /\ ((forall y,
                           In y (sessions_collection (db srv)) ->
                           session_id y <> sid ->
                           user_identifier y = user_identifier s ->
                           browser_fingerprint y = browser_fingerprint s ->
                           is_active y = true ->
                           last_accessed y < now) ->
                        found = set_last_accessed now s)))
        /\ (active_agents srv !! sid = None ->
            forall req env text,
              chat_rate_limit (rate_limits srv) (chat_remote_addr req)
                              (current_time env) <> None ->
              chat_session_id req = Some sid -> sid <> EmptyString ->
              chat_user_input req = Some text -> text <> EmptyString ->
              Py.len (Py.strip text) <= 2000 ->
              snd (chat_with_agent (fst result) req env)
              = reconnect_required)).
Proof.
  unfold session_status, SessionManager.get_session,
    SessionManager.update_session_access.
  split; [now intros ->|].
  intros s Hget. rewrite Hget. cbn [fst snd db active_agents rate_limits].
  split; [reflexivity|]. split; [reflexivity|]. split; [reflexivity|].
  split; [reflexivity|]. split.
  - intro Hnd.
    assert (get_session (update_session_access (db srv) sid now) sid
            = Some (set_last_accessed now s)) as Hget'
      by (rewrite get_session_touch_unique by exact Hnd; now rewrite Hget).
    assert (List.NoDup (session_ids (update_session_access (db srv) sid now)))
      as Hnd' by now rewrite update_session_access_ids.
    pose proof (get_session_some _ _ _ Hget') as [Hin [Hid Hact]].
    pose proof (get_session_some _ _ _ Hget) as [Hin0 [Hid0 Hact0]].
    split; [exact Hget'|]. split.
    + intros days t st' r Hsweep Ht.
      now apply (sweep_keeps _ days t _ st' r Hnd' Hin Hact).
    + intros ua ip url u t Hkey Hfp Ht.
      unfold find_existing_session. cbn [Py.truthy].
      destruct (Mongo.find_one_desc _ _ _) as [found|] eqn:Hf.
      * exists found. apply find_one_desc_some in Hf.
        destruct Hf as [Hfin [Hp Hmax]].
        assert (by_fingerprint (_generate_user_identifier u url)
                  (_generate_browser_fingerprint ua ip)
                  (t - Datetime.timedelta_days 30)
                  (set_last_accessed now s) = true) as Hps.
        { unfold by_fingerprint.
          cbn [user_identifier browser_fingerprint last_accessed is_active
               set_last_accessed].
          rewrite <- Hkey, <- Hfp, !String.eqb_refl, Hact0.
          apply Z.leb_le in Ht. now rewrite Ht. }
        pose proof (Hmax _ Hin Hps) as Hle.
        cbn [last_accessed set_last_accessed] in Hle.
        unfold by_fingerprint in Hp.
        apply andb_true_iff in Hp. destruct Hp as [Hp Hfa].
        apply andb_true_iff in Hp. destruct Hp as [Hp _].
        apply andb_true_iff in Hp. destruct Hp as [Hfu Hff].
        apply String.eqb_eq in Hfu, Hff.
        split; [reflexivity|]. split; [exact Hfin|].
        split; [congruence|]. split; [congruence|].
        split; [exact Hfa|]. split; [exact Hle|].
        intro Hothers.
        unfold update_session_access in Hfin. cbn [sessions_collection] in Hfin.
        rewrite <- Hid0 in Hfin.
        destruct (update_one_unique (set_last_accessed now) _ s Hnd Hin0
                    (fun _ => eq_refl)) as [_ Hcases].
        destruct (Hcases found Hfin) as [E|[Hold Hne]]; [exact E|].
        rewrite Hid0 in Hne.
        assert (last_accessed found < now);
          [apply Hothers; auto; congruence | lia].
      * exfalso.
        pose proof (find_one_desc_none _ _ _ Hf _ Hin) as Hp.
        unfold by_fingerprint in Hp.
        cbn [user_identifier browser_fingerprint last_accessed is_active
             set_last_accessed] in Hp.
        rewrite <- Hkey, <- Hfp, !String.eqb_refl, Hact0 in Hp.
        apply Z.leb_le in Ht. rewrite Ht in Hp. discriminate.
  - intros Hag req env text Hl Hsid Hne Htext Hne' Hlen.
    destruct (chat_rate_limit _ _ _) as [limits|] eqn:Hlim; [|congruence].
    destruct (get_session_after_touch (db srv) sid sid now s Hget)
      as [s' [Hget' _]].
    refine (f_equal snd
              (proj2 (chat_past_checks
                        (mk_server (update_session_access (db srv) sid now)
                                   (active_agents srv) (rate_limits srv))
                        req env limits sid text Hlim Hsid Hne
                        Htext Hne' Hlen) _ Hag)).
    unfold SessionManager.get_session. cbn [db]. rewrite Hget'. discriminate.
Qed.

(** The theorem at the sample store: [S1] is unknown to the route; the
    poll of [S3], 31 days old, saves it from the sweep that would have
    deleted it and makes it the answer of the restoration lookup.  Polled
    two minutes earlier instead, [S3] is still found within the window, but
    the lookup answers [S2], accessed a minute later. *)
Lemma session_status_counts_as_access_witness :
  let srv := mk_server Sample.store ∅ ∅ in
  let s3 := Sample.session "S3" (Sample.days_ago 31) true in
  let result := session_status srv "S3" Sample.now in
  let earlier := session_status srv "S3" (Sample.seconds_ago 120) in
  session_status srv "S1" Sample.now = (srv, (StatusInactive, 404))
  /\ snd result = (StatusActive "S3" (user_identifier s3), 200)
  /\ option_map session_ids (SessionManager.init Sample.store Sample.now)
     = Some ["S2"]
  /\ (exists st',
        cleanup_expired_sessions (db (fst result)) 30 Sample.now
        = Some (st', None)
        /\ In (set_last_accessed Sample.now s3) (sessions_collection st'))
  /\ find_existing_session (db (fst result)) "UA-A" "10.0.0.1" Sample.url
                           "alice" None Sample.now = Some "S3"
  /\ find_existing_session (db (fst earlier)) "UA-A" "10.0.0.1" Sample.url
                           "alice" None Sample.now = Some "S2".
Proof.
  intros srv s3 result earlier.
  assert (List.NoDup (session_ids (db srv))) as Hnd.
  { replace (session_ids (db srv)) with ["S1"; "S2"; "S3"]
      by (vm_compute; reflexivity).
    repeat constructor; simpl; intuition discriminate. }
  assert (get_session (db srv) "S3" = Some s3) as Hget
    by (vm_compute; reflexivity).
  assert (exists st',
            cleanup_expired_sessions (db (fst result)) 30 Sample.now
            = Some (st', None)) as [st' Hsweep]
    by (eexists; vm_compute; reflexivity).
  assert (find_existing_session (db (fst result)) "UA-A" "10.0.0.1"
            Sample.url "alice" None Sample.now = Some "S3") as Hfound
    by (vm_compute; reflexivity).
  assert (find_existing_session (db (fst earlier)) "UA-A" "10.0.0.1"
            Sample.url "alice" None Sample.now = Some "S2") as Hother
    by (vm_compute; reflexivity).
  assert (option_map session_ids
            (SessionManager.init Sample.store Sample.now) = Some ["S2"])
    as Hinit by (vm_compute; reflexivity).
  assert (Sample.now - Datetime.timedelta_days 30 <= Sample.now) as Ht
    by (vm_compute; discriminate).
  destruct (session_status_counts_as_access srv "S1" Sample.now) as [H1 _].
  destruct (session_status_counts_as_access srv "S3" Sample.now) as [_ H3].
  destruct (H3 s3 Hget) as [Hs [_ [_ [_ [Hu _]]]]].
  destruct (Hu Hnd) as [_ [Hkept _]].
  split; [apply H1; vm_compute; reflexivity|].
  split; [exact Hs|]. split; [exact Hinit|].
  split; [|split; [exact Hfound | exact Hother]].
  exists st'. split; [exact Hsweep|].
  exact (Hkept 30 Sample.now st' None Hsweep Ht).
Defined.

End SessionStatus.

(** ** Lead creation *)

Section CreateLeads.

Import Api Routes.

(** X20: [/create_leads] validates before it counts: a request with a missing
    field is answered 400 and is not recorded by the limiter, even for an
    address that is over the limit.  A complete request is refused with 429
    and not recorded when five or more recorded requests of its address
    count as less than 300 seconds old; otherwise it is recorded after
    those, whatever the lead search then does.  No list of the limiter grows
    beyond five entries. *)
Theorem create_leads_validates_before_limiting
    (limits : gmap string (list Z)) (req : LeadsRequest) (env : LeadsEnv) :
  let ip := leads_remote_addr req in
  let recent :=
    lead_recent_requests (leads_current_time env) (default [] (limits !! ip)) in
  let result := create_leads limits req env in
  (leads_missing_fields req <> [] ->
   result
   = (limits,
      (LeadsError (String.append "Missing required fields: "
                     (join ", " (leads_missing_fields req))), 400)))
  /\ (leads_missing_fields req = [] ->
      5 <= Z.of_nat (List.length recent) ->
      result
      = (limits,
         (LeadsError "Rate limit exceeded. Please try again later.", 429)))
  /\ (leads_missing_fields req = [] ->
      Z.of_nat (List.length recent) < 5 ->
      fst result
      = <[ip := (recent ++ [leads_current_time env])%list]> limits
      /\ snd result
         = match leads_outcome env with
           | LeadsRaises e =>
               (LeadsError (String.append "Lead creation failed: " e), 500)
           | LeadsUnavailable =>
               (LeadsError
                  "Lead creation not available. Google Maps API key required.",
                400)
           | LeadsResult r => (LeadsSuccess r, 200)
           end)
  /\ ((forall a l, limits !! a = Some l -> (List.length l <= 5)%nat) ->
      forall a l, fst result !! a = Some l -> (List.length l <= 5)%nat).
Proof.
  intros ip recent result. subst result. unfold create_leads. fold ip.
  split; [|split; [|split]].
  - destruct (leads_missing_fields req); [congruence | reflexivity].
  - intros -> Hlen. cbv zeta. subst recent.
    destruct (limits !! ip) as [l|] eqn:Hl; simpl in *; [|lia].
    apply Z.leb_le in Hlen. now rewrite Hlen.
  - intros -> Hlen. cbv zeta. subst recent.
    destruct (limits !! ip) as [l|] eqn:Hl; simpl in *.
    + apply Z.leb_gt in Hlen. rewrite Hlen. split; reflexivity.
    + split; reflexivity.
  - intros Hb a l.
    destruct (leads_missing_fields req); [|now apply Hb]. cbv zeta.
    destruct (limits !! ip) as [l0|] eqn:Hl.
    + destruct (Z.leb_spec 5
                  (Z.of_nat (List.length
                     (lead_recent_requests (leads_current_time env) l0))))
        as [Hge|Hlt]; [now apply Hb|].
      cbn [fst]. destruct (decide (a = ip)) as [->|Hne].
      * rewrite lookup_insert_eq. intros [= <-].
        rewrite List.length_app. simpl. lia.
      * rewrite lookup_insert_ne by congruence. apply Hb.
    + cbn [fst]. destruct (decide (a = ip)) as [->|Hne].
      * rewrite lookup_insert_eq. intros [= <-]. simpl. lia.
      * rewrite lookup_insert_ne by congruence. apply Hb.
Qed.

Lemma create_leads_validates_before_limiting_witness :
  let limits : gmap string (list Z) :=
    {["10.0.0.1" := Sample.chat_times 5 Sample.now]} in
  let env := mk_leads_env (Sample.now + 10 * Datetime.second)
                          (LeadsResult "3 leads") in
  let complete :=
    mk_leads_request "10.0.0.1" (Some Sample.url) None (Some "alice")
      (Some "pw1") (Some Sample.api_key) (Some "cafe") (Some "Oslo") in
  let incomplete :=
    mk_leads_request "10.0.0.1" (Some Sample.url) None (Some "alice")
      (Some "pw1") (Some Sample.api_key) None (Some "") in
  create_leads limits incomplete env
  = (limits,
     (LeadsError "Missing required fields: business_type, location", 400))
  /\ create_leads limits complete env
     = (limits,
        (LeadsError "Rate limit exceeded. Please try again later.", 429)).
Proof.
  intros limits env complete incomplete. split.
  - refine (proj1 (create_leads_validates_before_limiting limits incomplete env)
              _).
    discriminate.
  - refine (proj1 (proj2 (create_leads_validates_before_limiting
                            limits complete env)) eq_refl _).
    vm_compute. discriminate.
Defined.

End CreateLeads.

(** ** The chats collection *)

Section ChatsCollection.

Import MongoDBManager MongoDBManagerChats.

Lemma delete_one_app_last {A} (p : A -> bool) l x :
  (forall y, In y l -> p y = false) -> p x = true ->
  Cursor.delete_one p (l ++ [x]) = l.
Proof.
  intros Hl Hx. induction l as [|y r IH]; simpl.
  - now rewrite Hx.
  - rewrite (Hl y) by (simpl; auto). f_equal. apply IH.
    intros z Hz. apply Hl. simpl. auto.
Qed.

Lemma delete_one_none {A} (p : A -> bool) l :
  (forall y, In y l -> p y = false) -> Cursor.delete_one p l = l.
Proof.
  intro Hl. induction l as [|y r IH]; simpl; [reflexivity|].
  rewrite (Hl y) by (simpl; auto). f_equal. apply IH.
  intros z Hz. apply Hl. simpl. auto.
Qed.

Lemma existsb_none {A} (p : A -> bool) l :
  (forall y, In y l -> p y = false) -> existsb p l = false.
Proof.
  intro Hl. induction l as [|y r IH]; simpl; [reflexivity|].
  rewrite (Hl y) by (simpl; auto). apply IH.
  intros z Hz. apply Hl. simpl. auto.
Qed.

Lemma chat_filter_fresh chats new_id owner :
  ~ In new_id (List.map Chat.chat_id chats) ->
  forall c, In c chats -> chat_filter new_id owner c = false.
Proof.
  intros Hfresh c Hc. unfold chat_filter.
  assert (String.eqb (Chat.chat_id c) new_id = false) as E.
  { apply String.eqb_neq. intros <-. apply Hfresh. now apply in_map. }
  rewrite E. now destruct (Py.truthy owner).
Qed.

Lemma chat_filter_other chats' new_id cid owner c :
  cid <> new_id -> Chat.chat_id c = new_id ->
  List.find (chat_filter cid owner) (chats' ++ [c])
  = List.find (chat_filter cid owner) chats'.
Proof.
  intros Hne Hid.
  assert (chat_filter cid owner c = false) as E.
  { unfold chat_filter. rewrite Hid.
    assert (String.eqb new_id cid = false) as ->
        by (apply String.eqb_neq; congruence).
    now destruct (Py.truthy owner). }
  induction chats' as [|y r IH]; simpl; [now rewrite E|].
  destruct (chat_filter cid owner y); [reflexivity | exact IH].
Qed.

(** X21: [save_chat] raises and stores nothing exactly when [get_session] does
    not return the session.  Otherwise the chat, saved under an identifier
    new to the collection, belongs to the platform account of that session:
    it is returned by [get_chat_by_id] without an account or with that
    account, and with no other; [delete_chat] for another account deletes
    nothing and returns [False]; [delete_chat] without an account or with
    that account returns [True] and restores the collection.  Other chats
    are read as before. *)
Theorem saved_chat_belongs_to_session_account (st : Store)
    (chats : list Chat.t) (sid title preview : string)
    (messages : list string) (new_id : string) (created updated : Z) :
  let saved :=
    save_chat st chats sid title preview messages new_id created updated in
  (get_session st sid = None <-> saved = None)
  /\ (forall s,
        get_session st sid = Some s ->
        ~ In new_id (List.map Chat.chat_id chats) ->
        let detail := mk_detail new_id title preview created messages in
        exists chats',
          saved = Some (chats', new_id)
          /\ get_chat_by_id chats' new_id None = Some detail
          /\ (forall u, u <> EmptyString ->
                (UserSession.user_id s = Some u ->
                 get_chat_by_id chats' new_id (Some u) = Some detail
                 /\ delete_chat chats' new_id (Some u) = (chats, true))
                /\ (UserSession.user_id s <> Some u ->
                    get_chat_by_id chats' new_id (Some u) = None
                    /\ delete_chat chats' new_id (Some u) = (chats', false)))
          /\ delete_chat chats' new_id None = (chats, true)
          /\ (forall cid owner,
                cid <> new_id ->
                get_chat_by_id chats' cid owner
                = get_chat_by_id chats cid owner)).
Proof.
  intro saved. subst saved. unfold save_chat. split.
  - destruct (get_session st sid); split; congruence.
  - intros s Hget Hfresh. rewrite Hget. eexists. split; [reflexivity|].
    set (detail := mk_detail new_id title preview created messages).
    set (doc := Chat.mk new_id sid (UserSession.user_id s)
                  (UserSession.user_identifier s) title preview messages
                  created updated).
    pose proof (chat_filter_fresh chats new_id) as Hf.
    assert (forall owner,
              chat_filter new_id owner doc = true ->
              get_chat_by_id (chats ++ [doc]) new_id owner = Some detail
              /\ delete_chat (chats ++ [doc]) new_id owner = (chats, true))
      as Hyes.
    { intros owner Hdoc. split.
      - unfold get_chat_by_id. rewrite find_app_skip by (now apply Hf).
        simpl. now rewrite Hdoc.
      - unfold delete_chat. rewrite delete_one_app_last by (auto; now apply Hf).
        rewrite existsb_app. simpl. rewrite Hdoc.
        now rewrite orb_true_r. }
    assert (forall owner,
              chat_filter new_id owner doc = false ->
              get_chat_by_id (chats ++ [doc]) new_id owner = None
              /\ delete_chat (chats ++ [doc]) new_id owner
                 = ((chats ++ [doc])%list, false))
      as Hno.
    { intros owner Hdoc.
      assert (forall c, In c (chats ++ [doc]) ->
                        chat_filter new_id owner c = false) as Hall.
      { intros c Hc. apply in_app_or in Hc.
        destruct Hc as [Hc|[<-|[]]]; [now apply Hf | exact Hdoc]. }
      split.
      - unfold get_chat_by_id.
        destruct (List.find _ _) as [c|] eqn:E; [|reflexivity].
        apply List.find_some in E. destruct E as [Hin Hc].
        rewrite Hall in Hc by exact Hin. discriminate.
      - unfold delete_chat. rewrite delete_one_none by exact Hall.
        now rewrite existsb_none by exact Hall. }
    assert (chat_filter new_id None doc = true) as Hnone
      by (unfold chat_filter; simpl; apply String.eqb_refl).
    split; [exact (proj1 (Hyes None Hnone))|]. split.
    + intros u Hu. apply is_empty_false in Hu.
      assert (chat_filter new_id (Some u) doc
              = of_user u doc) as Hfilter.
      { unfold chat_filter. simpl. rewrite Hu. simpl.
        now rewrite String.eqb_refl. }
      split; intro Hs.
      * apply Hyes. rewrite Hfilter. unfold of_user. simpl. rewrite Hs.
        apply String.eqb_refl.
      * apply Hno. rewrite Hfilter. unfold of_user. simpl.
        destruct (UserSession.user_id s) as [u'|]; [|reflexivity].
        apply String.eqb_neq. congruence.
    + split; [exact (proj2 (Hyes None Hnone))|].
      intros cid owner Hne. unfold get_chat_by_id.
      now rewrite (chat_filter_other chats new_id cid owner doc Hne eq_refl).
Qed.

Lemma saved_chat_belongs_to_session_account_witness :
  let st := mk_store [UserSession.mk "S7" (Some "user_a1") "key" "u" "alice"
                        "h1" "h2" "u" 0 0 "fp" true] [] in
  exists chats',
    save_chat st [] "S7" "Leads" "list leads" ["q"; "a"] "c1" 5 6
    = Some (chats', "c1")
    /\ get_chat_by_id chats' "c1" (Some "user_a1")
       = Some (mk_detail "c1" "Leads" "list leads" 5 ["q"; "a"])
    /\ get_chat_by_id chats' "c1" (Some "user_b2") = None
    /\ delete_chat chats' "c1" (Some "user_b2") = (chats', false)
    /\ delete_chat chats' "c1" (Some "user_a1") = ([], true).
Proof.
  intro st.
  destruct (proj2 (saved_chat_belongs_to_session_account st [] "S7" "Leads"
                     "list leads" ["q"; "a"] "c1" 5 6)
              _ eq_refl ltac:(simpl; tauto))
    as [chats' [Hsave [_ [Hu _]]]].
  exists chats'. split; [exact Hsave|].
  destruct (Hu "user_a1" ltac:(discriminate)) as [Ha _].
  destruct (Hu "user_b2" ltac:(discriminate)) as [_ Hb].
  destruct (Ha eq_refl) as [Ha1 Ha2].
  destruct (Hb ltac:(discriminate)) as [Hb1 Hb2].
  auto.
Defined.

(** X22: [get_recent_chats] lists newest first and at most [|limit|] chats for
    a non-zero limit; each entry is a stored chat with the number of its
    messages; with a platform account given every entry belongs to that
    account, the account key is then not looked at, and with neither an
    account nor a key the list is empty. *)
Theorem recent_chats_newest_first (chats : list Chat.t)
    (user_id user_identifier : option string) (limit : Z) :
  let listed := get_recent_chats chats user_id user_identifier limit in
  StronglySorted
    (fun a b => summary_created_at b <= summary_created_at a) listed
  /\ (limit <> 0 -> Z.of_nat (List.length listed) <= Z.abs limit)
  /\ (forall e, In e listed ->
        exists c, In c chats /\ e = summary c
                  /\ summary_message_count e
                     = Z.of_nat (List.length (Chat.messages c))
                  /\ (forall u, user_id = Some u -> u <> EmptyString ->
                                Chat.user_id c = Some u)
                  /\ (Py.truthy user_id = false ->
                      forall k, user_identifier = Some k ->
                                Chat.user_identifier c = k))
  /\ (forall u, user_id = Some u -> u <> EmptyString ->
                forall k, get_recent_chats chats user_id k limit = listed)
  /\ (Py.truthy user_id = false -> Py.truthy user_identifier = false ->
      listed = []).
Proof.
  intro listed. subst listed. unfold get_recent_chats. cbv zeta.
  assert (forall p,
            StronglySorted
              (fun a b => summary_created_at b <= summary_created_at a)
              match Mongo.limit limit
                      (Cursor.sort_desc Chat.created_at
                         (List.filter p chats)) with
              | Some docs => List.map summary docs
              | None => []
              end)
    as Hsorted.
  { intro p. rewrite limit_map. apply map_sorted. apply limit_sorted.
    apply (sort_desc_sorted Chat.created_at). }
  assert (forall p,
            limit <> 0 ->
            Z.of_nat (List.length
              match Mongo.limit limit
                      (Cursor.sort_desc Chat.created_at
                         (List.filter p chats)) with
              | Some docs => List.map summary docs
              | None => []
              end)
            <= Z.abs limit) as Hbound.
  { intros p Hne. rewrite limit_map, List.length_map.
    now apply limit_length. }
  assert (forall p e,
            In e match Mongo.limit limit
                         (Cursor.sort_desc Chat.created_at
                            (List.filter p chats)) with
                 | Some docs => List.map summary docs
                 | None => []
                 end ->
            exists c, In c chats /\ e = summary c /\ p c = true) as Hin.
  { intros p e He. rewrite limit_map in He.
    apply in_map_iff in He. destruct He as [c [<- Hc]].
    apply limit_incl in Hc.
    apply (Permutation_in _ (sort_desc_perm _ _)) in Hc.
    apply List.filter_In in Hc. exists c. tauto. }
  split; [|split; [|split; [|split]]].
  - destruct (Py.truthy user_id); [apply Hsorted|].
    destruct (Py.truthy user_identifier); [apply Hsorted | constructor].
  - destruct (Py.truthy user_id); [apply Hbound|].
    destruct (Py.truthy user_identifier); [apply Hbound | simpl; lia].
  - intros e He. destruct (Py.truthy user_id) eqn:Hu.
    + destruct (Hin _ _ He) as [c [Hc [-> Hp]]]. exists c.
      split; [exact Hc|]. split; [reflexivity|]. split; [reflexivity|].
      split; [|discriminate].
      intros u -> _. simpl in Hp. unfold of_user in Hp.
      destruct (Chat.user_id c) as [u'|]; [|discriminate].
      apply String.eqb_eq in Hp. now subst.
    + destruct (Py.truthy user_identifier) eqn:Hk; [|destruct He].
      destruct (Hin _ _ He) as [c [Hc [-> Hp]]]. exists c.
      split; [exact Hc|]. split; [reflexivity|]. split; [reflexivity|].
      split.
      * intros u -> Hne. apply truthy_some in Hne. congruence.
      * intros _ k ->. simpl in Hp. now apply String.eqb_eq in Hp.
  - intros u -> Hne k. apply truthy_some in Hne. now rewrite Hne.
  - now intros -> ->.
Qed.

Lemma recent_chats_newest_first_witness :
  let chat cid uid time n :=
    Chat.mk cid "S7" uid "key" "title" "preview" (List.repeat "m" n) time time in
  let chats := [chat "c1" (Some "user_a1") 10 2%nat;
                chat "c2" None 20 1%nat;
                chat "c3" (Some "user_a1") 30 0%nat;
                chat "c4" (Some "user_b2") 40 3%nat] in
  List.map (fun e => (summary_chat_id e, summary_message_count e))
           (get_recent_chats chats (Some "user_a1") None 20)
  = [("c3", 0); ("c1", 2)]
  /\ get_recent_chats chats (Some "") None 20 = []
  /\ StronglySorted
       (fun a b => summary_created_at b <= summary_created_at a)
       (get_recent_chats chats None (Some "key") 3).
Proof.
  intros chat chats. split; [reflexivity|]. split; [reflexivity|].
  exact (proj1 (recent_chats_newest_first chats None (Some "key") 3)).
Defined.

End ChatsCollection.

(** ** Accounts: collection facts *)

Section KeyedCollections.

Context {A : Type}.
Variable key : A -> string.

Lemma find_key_in (l : list A) k x :
  List.find (fun y => String.eqb (key y) k) l = Some x -> In x l /\ key x = k.
Proof.
  intro H. apply List.find_some in H. destruct H as [Hin E].
  apply String.eqb_eq in E. auto.
Qed.

Lemma find_key_unique (l : list A) x :
  List.NoDup (List.map key l) -> In x l ->
  List.find (fun y => String.eqb (key y) (key x)) l = Some x.
Proof.
  intros Hnd Hx.
  destruct (List.find _ l) as [y|] eqn:E.
  - apply find_key_in in E. destruct E as [Hy Hk].
    f_equal. now apply (nodup_map_inj key l y x).
  - pose proof (List.find_none _ _ E x Hx) as H. simpl in H.
    now rewrite String.eqb_refl in H.
Qed.

(** An update addressed by the key of the first document that satisfies
    [q] changes that document. *)
Lemma update_one_found (q : A -> bool) (f : A -> A) l u :
  List.NoDup (List.map key l) -> List.find q l = Some u ->
  Mongo.update_one (fun x => String.eqb (key x) (key u)) f l
  = Mongo.update_one q f l.
Proof.
  induction l as [|x r IH]; simpl; intros Hnd Hfind; [reflexivity|].
  inversion Hnd as [|? ? Hni Hnd']; subst.
  destruct (q x) eqn:Hq.
  - inversion Hfind; subst. now rewrite String.eqb_refl.
  - assert (String.eqb (key x) (key u) = false) as ->.
    { apply String.eqb_neq. intro E. apply Hni. rewrite E.
      apply in_map. apply List.find_some in Hfind. tauto. }
    f_equal. now apply IH.
Qed.

Lemma find_update_one_key (f : A -> A) l k k' :
  (forall x, key (f x) = key x) ->
  List.find (fun x => String.eqb (key x) k')
            (Mongo.update_one (fun x => String.eqb (key x) k) f l)
  = option_map (fun x => if String.eqb k k' then f x else x)
               (List.find (fun x => String.eqb (key x) k') l).
Proof.
  intro Hf. induction l as [|x r IH]; simpl; [reflexivity|].
  destruct (String.eqb_spec (key x) k) as [Hk|Hk]; simpl.
  - rewrite Hf. destruct (String.eqb_spec (key x) k') as [Hk'|Hk']; simpl.
    + subst. now rewrite String.eqb_refl.
    + destruct (String.eqb_spec k k'); [congruence|].
      now destruct (List.find _ r).
  - destruct (String.eqb_spec (key x) k') as [Hk'|Hk']; simpl.
    + subst. destruct (String.eqb_spec k (key x)); [congruence|reflexivity].
    + exact IH.
Qed.

Lemma find_update_one_same (q : A -> bool) (f : A -> A) l :
  (forall x, q (f x) = q x) ->
  List.find q (Mongo.update_one q f l) = option_map f (List.find q l).
Proof.
  intro Hf. induction l as [|x r IH]; simpl; [reflexivity|].
  destruct (q x) eqn:Hq; simpl.
  - now rewrite Hf, Hq.
  - now rewrite Hq.
Qed.

Lemma delete_one_in (p : A -> bool) l x :
  In x (Cursor.delete_one p l) -> In x l.
Proof.
  induction l as [|y r IH]; simpl; [tauto|].
  destruct (p y); simpl; [tauto|]. intros [H|H]; auto.
Qed.

Lemma delete_one_nodup (p : A -> bool) l :
  List.NoDup (List.map key l) ->
  List.NoDup (List.map key (Cursor.delete_one p l)).
Proof.
  induction l as [|y r IH]; simpl; intro Hnd; [constructor|].
  inversion Hnd as [|? ? Hni Hnd']; subst.
  destruct (p y); [exact Hnd'|]. simpl. constructor; [|now apply IH].
  intro Hin. apply Hni. apply in_map_iff in Hin.
  destruct Hin as [z [Hz Hin]]. rewrite <- Hz. apply in_map.
  eapply delete_one_in; eauto.
Qed.

Lemma nodup_app_last l x :
  List.NoDup (List.map key l) ->
  (forall y, In y l -> key y <> key x) ->
  List.NoDup (List.map key (l ++ [x])).
Proof.
  intros Hnd Hx. rewrite List.map_app. simpl.
  apply List.NoDup_app; [exact Hnd | repeat constructor; simpl; tauto |].
  intros k Hk [<-|[]]. apply in_map_iff in Hk.
  destruct Hk as [y [Hy Hin]]. exact (Hx y Hin Hy).
Qed.

End KeyedCollections.

(** ** Accounts: authentication *)

Section Authentication.

Import AuthManager.

Lemma set_last_login_keeps u t :
  User.username (User.set_last_login t u) = User.username u
  /\ User.user_id (User.set_last_login t u) = User.user_id u
  /\ User.password_hash (User.set_last_login t u) = User.password_hash u
  /\ User.is_active (User.set_last_login t u) = User.is_active u
  /\ User.role (User.set_last_login t u) = User.role u.
Proof. repeat split. Qed.

(** X23: [authenticate_user] succeeds exactly when the first account with the
    user name is active and its stored hash is the hash of the password.
    A deactivated account is reported as such whatever the password, so
    before the password is looked at.  A failure changes nothing and
    returns no user; a success changes nothing but the [last_login] of that
    account (with unique account identifiers) and returns the account as it
    was before. *)
Theorem authenticate_user_outcomes (users : list User.t)
    (username password : string) (now : Z) :
  let by_name u := String.eqb (User.username u) username in
  let result := authenticate_user users username password now in
  (auth_success (snd result) = true <->
   exists u, List.find by_name users = Some u
             /\ User.is_active u = true
             /\ User.password_hash u = _hash_password password)
  /\ (auth_success (snd result) = false ->
      fst result = users /\ auth_user (snd result) = None)
  /\ (List.find by_name users = None ->
      auth_message (snd result) = "Invalid username or password")
  /\ (forall u, List.find by_name users = Some u ->
                User.is_active u = false ->
                auth_message (snd result) = "Account is deactivated")
  /\ (forall u, List.find by_name users = Some u ->
                User.is_active u = true ->
                User.password_hash u <> _hash_password password ->
                auth_message (snd result) = "Invalid username or password")
  /\ (auth_success (snd result) = true ->
      List.NoDup (List.map User.user_id users) ->
      exists u, auth_user (snd result) = Some u
                /\ List.find by_name users = Some u
                /\ List.find by_name (fst result)
                   = Some (User.set_last_login now u)
                /\ List.map (User.set_last_login 0) (fst result)
                   = List.map (User.set_last_login 0) users).
Proof.
  intros by_name result. subst result. unfold authenticate_user.
  fold by_name. unfold _verify_password.
  destruct (List.find by_name users) as [u|] eqn:Hfind.
  2:{ cbn [fst snd auth_success auth_user auth_message].
      repeat split; try discriminate; try reflexivity.
      intros [u [H _]]. discriminate. }
  destruct (User.is_active u) eqn:Hact; cbn [negb].
  2:{ cbn [fst snd auth_success auth_user auth_message].
      repeat split; try discriminate; try reflexivity.
      - intros [u' [H [Ha _]]]. inversion H; subst. congruence.
      - intros u' H. inversion H; subst. congruence. }
  destruct (String.eqb_spec (_hash_password password) (User.password_hash u))
    as [Hpw|Hpw]; cbn [negb fst snd auth_success auth_user auth_message].
  - split; [split; [intros _; exists u; auto | reflexivity]|].
    split; [discriminate|]. split; [discriminate|].
    split; [intros u' H; inversion H; subst; congruence|].
    split; [intros u' H _; inversion H; subst; congruence|].
    intros _ Hnd. exists u. split; [reflexivity|]. split; [reflexivity|].
    rewrite (update_one_found User.user_id by_name _ users u Hnd Hfind).
    split.
    + rewrite find_update_one_same by reflexivity. now rewrite Hfind.
    + now apply update_one_map.
  - split; [split; [discriminate|]|].
    { intros [u' [H [_ Hh]]]. inversion H; subst. congruence. }
    split; [auto|]. split; [discriminate|].
    split; [intros u' H; inversion H; subst; congruence|].
    split; [reflexivity | discriminate].
Qed.

Lemma authenticate_user_outcomes_witness :
  let alice := SampleAccounts.user "user_a1" "alice" "pw-a" "user" true in
  auth_success (snd (authenticate_user SampleAccounts.users "alice" "pw-a" 7))
  = true
  /\ List.find (fun u => String.eqb (User.username u) "alice")
       (fst (authenticate_user SampleAccounts.users "alice" "pw-a" 7))
     = Some (User.set_last_login 7 alice)
  /\ auth_message
       (snd (authenticate_user SampleAccounts.users "bob" "wrong" 7))
     = "Account is deactivated".
Proof.
  intro alice.
  assert (List.NoDup (List.map User.user_id SampleAccounts.users)) as Hnd
    by (repeat constructor; simpl; intuition discriminate).
  assert (auth_success
            (snd (authenticate_user SampleAccounts.users "alice" "pw-a" 7))
          = true) as Hok by (vm_compute; reflexivity).
  pose proof (authenticate_user_outcomes SampleAccounts.users "alice" "pw-a" 7)
    as [_ [_ [_ [_ [_ Ha]]]]].
  pose proof (authenticate_user_outcomes SampleAccounts.users "bob" "wrong" 7)
    as [_ [_ [_ [Hb _]]]].
  destruct (Ha Hok Hnd) as [u [_ [Hu [Hfind _]]]].
  assert (u = alice) as -> by (vm_compute in Hu; now inversion Hu).
  split; [exact Hok|]. split; [exact Hfind|].
  apply (Hb (SampleAccounts.user "user_b2" "bob" "pw-b" "user" false));
    reflexivity.
Defined.

Lemma find_existsb {A} (p : A -> bool) l :
  existsb p l = false <-> List.find p l = None.
Proof.
  induction l as [|x r IH]; simpl; [tauto|].
  destruct (p x); simpl; [split; discriminate | exact IH].
Qed.

Lemma find_app_last_skip {A} (p : A -> bool) l x :
  p x = false -> List.find p (l ++ [x]) = List.find p l.
Proof.
  intro Hx. induction l as [|y r IH]; simpl; [now rewrite Hx|].
  destruct (p y); [reflexivity | exact IH].
Qed.

Lemma find_app_last_fresh {A} (p : A -> bool) l x :
  List.find p l = None -> p x = true -> List.find p (l ++ [x]) = Some x.
Proof.
  intros Hl Hx. induction l as [|y r IH]; simpl in *; [now rewrite Hx|].
  destruct (p y); [discriminate | now apply IH].
Qed.

(** X24: [create_user] refuses, and changes nothing, when the user name or the
    e-mail address is taken, or when the identifier drawn is.  Otherwise it
    appends one active account with the given role and returns the
    generated password: [authenticate_user] then accepts the new user name
    with that password, answers for every other user name as before, and
    user names stay unique. *)
Theorem create_user_then_authenticate (users : list User.t)
    (username email role token password : string) (now : Z)
    (error : string) :
  let result :=
    create_user users username email role token password now error in
  let taken :=
    existsb (fun u => String.eqb (User.username u) username
                      || String.eqb (User.email u) email) users in
  let clash :=
    existsb (fun u => String.eqb (User.user_id u)
                                 (String.append "user_" token)) users in
  let account :=
    User.mk (String.append "user_" token) username email
            (_hash_password password) role true now None None None in
  (taken = true ->
   result
   = (users,
      mk_create_user_result false None "Username or email already exists"))
  /\ (taken = false -> clash = true ->
      result
      = (users,
         mk_create_user_result false None
           (String.append "Failed to create user: " error)))
  /\ (taken = false -> clash = false ->
      result
      = ((users ++ [account])%list,
         mk_create_user_result true (Some password)
           (String.append "User "
              (String.append username " created successfully")))
      /\ (forall t,
            snd (authenticate_user (fst result) username password t)
            = mk_auth_result true (Some account) "Authentication successful")
      /\ (forall name pw t,
            name <> username ->
            snd (authenticate_user (fst result) name pw t)
            = snd (authenticate_user users name pw t))
      /\ (List.NoDup (List.map User.username users) ->
          List.NoDup (List.map User.username (fst result)))).
Proof.
  intros result taken clash account. subst result. unfold create_user.
  fold account.
  assert (forall u,
            (String.eqb (User.username u) (User.username account)
             || String.eqb (User.email u) (User.email account)
             || String.eqb (User.user_id u) (User.user_id account))
            = ((String.eqb (User.username u) username
                || String.eqb (User.email u) email)
               || String.eqb (User.user_id u) (String.append "user_" token)))
    as Hsame by reflexivity.
  split; [|split].
  - intro Ht. destruct (List.find _ users) eqn:E; [reflexivity|].
    apply find_existsb in E. fold taken in E. congruence.
  - intros Ht Hc. apply find_existsb in Ht. rewrite Ht.
    unfold _save_user.
    assert (existsb
              (fun u => String.eqb (User.username u) (User.username account)
                        || String.eqb (User.email u) (User.email account)
                        || String.eqb (User.user_id u) (User.user_id account))
              users = true)
      as ->; [|reflexivity].
    unfold clash in Hc. apply existsb_exists in Hc.
    destruct Hc as [u [Hu Hc]]. apply existsb_exists. exists u.
    split; [exact Hu|]. rewrite Hsame, Hc. apply orb_true_r.
  - intros Ht Hc.
    assert (forall u, In u users ->
              String.eqb (User.username u) username = false
              /\ String.eqb (User.email u) email = false
              /\ String.eqb (User.user_id u) (String.append "user_" token)
                 = false) as Hfresh.
    { intros u Hu.
      pose proof (proj1 (find_existsb _ _) Ht) as H1.
      pose proof (List.find_none _ _ H1 u Hu) as H2. simpl in H2.
      apply orb_false_iff in H2.
      pose proof (proj1 (find_existsb _ _) Hc) as H3.
      pose proof (List.find_none _ _ H3 u Hu) as H4. simpl in H4. tauto. }
    apply find_existsb in Ht. rewrite Ht. unfold _save_user.
    rewrite existsb_none.
    2:{ intros u Hu. rewrite Hsame.
        destruct (Hfresh u Hu) as [-> [-> ->]]. reflexivity. }
    split; [reflexivity|]. cbn [fst].
    assert (List.find (fun u => String.eqb (User.username u) username) users
            = None) as Hnone.
    { apply find_existsb. apply existsb_none. intros u Hu.
      now destruct (Hfresh u Hu). }
    split; [|split].
    + intro t. unfold authenticate_user.
      rewrite (find_app_last_fresh _ _ account Hnone)
        by (simpl; apply String.eqb_refl).
      unfold _verify_password. cbn [User.is_active User.password_hash account].
      rewrite String.eqb_refl. reflexivity.
    + intros name pw t Hne. unfold authenticate_user.
      rewrite find_app_last_skip
        by (simpl; apply String.eqb_neq; congruence).
      cbv beta.
      destruct (List.find (fun u => String.eqb (User.username u) name) users)
        as [u|]; [|reflexivity].
      destruct (User.is_active u); [|reflexivity]. cbn [negb].
      destruct (_verify_password pw (User.password_hash u)); reflexivity.
    + intro Hnd. apply nodup_app_last; [exact Hnd|].
      intros u Hu E. destruct (Hfresh u Hu) as [H _].
      apply String.eqb_neq in H. now apply H.
Qed.

Lemma create_user_then_authenticate_witness :
  let result :=
    create_user SampleAccounts.users "carol" "carol@example.com" "user"
                "c3" "Xy7!" 9 "duplicate key" in
  create_success (snd result) = true
  /\ auth_success (snd (authenticate_user (fst result) "carol" "Xy7!" 10))
     = true
  /\ create_user SampleAccounts.users "alice" "other@example.com" "user"
                 "c3" "Xy7!" 9 "duplicate key"
     = (SampleAccounts.users,
        mk_create_user_result false None "Username or email already exists").
Proof.
  intro result.
  destruct (create_user_then_authenticate SampleAccounts.users "carol"
              "carol@example.com" "user" "c3" "Xy7!" 9 "duplicate key")
    as [_ [_ H]].
  destruct (H eq_refl eq_refl) as [H1 [H2 _]].
  destruct (create_user_then_authenticate SampleAccounts.users "alice"
              "other@example.com" "user" "c3" "Xy7!" 9 "duplicate key")
    as [H3 _].
  split; [unfold result; now rewrite H1|].
  split; [unfold result; now rewrite H2|].
  exact (H3 eq_refl).
Defined.

End Authentication.

(** ** Accounts: the administrator *)

Section Administrator.

Import AuthManager.

Lemma is_admin_account_true u :
  is_admin_account u = true ->
  User.username u = admin_username /\ User.role u = "admin".
Proof.
  unfold is_admin_account. intro H. apply andb_true_iff in H.
  destruct H as [H1 H2]. apply String.eqb_eq in H1, H2. auto.
Qed.

Lemma set_password_hash_same u :
  User.set_password_hash (User.password_hash u) u = u.
Proof. now destruct u. Qed.

Lemma authenticate_admin_found users name pw t u :
  List.find (fun x => String.eqb (User.username x) name) users = Some u ->
  User.role u = "admin" ->
  authenticate_admin users name pw t
  = if negb (User.is_active u) then
      (users, mk_auth_result false None "Account is deactivated")
    else if negb (String.eqb (_hash_password pw) (User.password_hash u)) then
      (users, mk_auth_result false None "Invalid username or password")
    else
      (Mongo.update_one
         (fun x => String.eqb (User.user_id x) (User.user_id u))
         (User.set_last_login t) users,
       mk_auth_result true (Some u) "Authentication successful").
Proof.
  intros Hfind Hrole. unfold authenticate_admin, _verify_password.
  rewrite Hfind, Hrole. reflexivity.
Qed.

(** X25: what [_ensure_admin_exists] establishes when it returns (user names
    unique): the account named [Shamlan321] has the role [admin] and the
    hash of the password written in the code.  An administrator account
    that existed keeps everything else, its activity flag included, so any
    other password it had been given is gone and a deactivated
    administrator stays locked out; otherwise the account [admin_001] is
    created, active.  Running the function again changes nothing. *)
Theorem ensure_admin_exists_resets_password (users users' : list User.t)
    (now : Z) :
  List.NoDup (List.map User.username users) ->
  _ensure_admin_exists users now = Some users' ->
  exists admin,
    List.find (fun u => String.eqb (User.username u) admin_username) users'
    = Some admin
    /\ User.role admin = "admin"
    /\ User.password_hash admin = _hash_password admin_password
    /\ match List.find is_admin_account users with
       | Some old =>
           admin = User.set_password_hash (_hash_password admin_password) old
       | None =>
           admin = User.mk "admin_001" admin_username
                     "admin@aida-platform.com"
                     (_hash_password admin_password) "admin" true now None
                     None None
       end
    /\ List.NoDup (List.map User.username users')
    /\ (forall later, _ensure_admin_exists users' later = Some users')
    /\ (forall t,
          auth_success
            (snd (authenticate_admin users' admin_username admin_password t))
          = User.is_active admin)
    /\ (forall pw t,
          _hash_password pw <> _hash_password admin_password ->
          auth_success (snd (authenticate_admin users' admin_username pw t))
          = false)
    /\ (User.is_active admin = false ->
        forall pw t,
          authenticate_admin users' admin_username pw t
          = (users', mk_auth_result false None "Account is deactivated")).
Proof.
  intros Hnd Hens.
  set (H := _hash_password admin_password) in *.
  assert (forall admin,
            List.find (fun u => String.eqb (User.username u) admin_username)
                      users' = Some admin ->
            User.role admin = "admin" -> User.password_hash admin = H ->
            (forall t,
               auth_success
                 (snd (authenticate_admin users' admin_username
                         admin_password t))
               = User.is_active admin)
            /\ (forall pw t,
                  _hash_password pw <> H ->
                  auth_success
                    (snd (authenticate_admin users' admin_username pw t))
                  = false)
            /\ (User.is_active admin = false ->
                forall pw t,
                  authenticate_admin users' admin_username pw t
                  = (users',
                     mk_auth_result false None "Account is deactivated")))
    as Hauth.
  { intros admin Hfind Hrole Hhash. split; [|split].
    - intro t. rewrite (authenticate_admin_found _ _ _ _ _ Hfind Hrole).
      rewrite Hhash. fold H. rewrite String.eqb_refl.
      now destruct (User.is_active admin).
    - intros pw t Hpw.
      rewrite (authenticate_admin_found _ _ _ _ _ Hfind Hrole).
      rewrite Hhash. apply String.eqb_neq in Hpw. rewrite Hpw.
      now destruct (User.is_active admin).
    - intros Hact pw t.
      rewrite (authenticate_admin_found _ _ _ _ _ Hfind Hrole).
      now rewrite Hact. }
  unfold _ensure_admin_exists in Hens. fold H in Hens.
  destruct (List.find is_admin_account users) as [old|] eqn:Hold.
  - (* the account exists *)
    pose proof (List.find_some _ _ Hold) as [Hin Hq].
    destruct (is_admin_account_true _ Hq) as [Hname Hrole].
    pose proof (find_key_unique User.username users old Hnd Hin) as Hfind.
    rewrite Hname in Hfind.
    exists (User.set_password_hash H old).
    assert (List.find (fun u => String.eqb (User.username u) admin_username)
                      users' = Some (User.set_password_hash H old)
            /\ List.NoDup (List.map User.username users')
            /\ forall later, _ensure_admin_exists users' later = Some users')
      as [Hfind' [Hnd' Hidem]].
    { destruct (String.eqb_spec (User.password_hash old) H) as [E|E];
        cbn [negb] in Hens; inversion Hens; subst users'.
      - rewrite <- E, set_password_hash_same.
        split; [exact Hfind|]. split; [exact Hnd|].
        intro later. unfold _ensure_admin_exists. rewrite Hold. fold H.
        rewrite <- E at 1. now rewrite String.eqb_refl.
      - split; [|split].
        + rewrite <- (update_one_found User.username is_admin_account _ users
                        old Hnd Hold).
          rewrite Hname.
          rewrite find_update_one_key by reflexivity.
          now rewrite Hfind, String.eqb_refl.
        + rewrite (update_one_map User.username) by reflexivity. exact Hnd.
        + intro later. unfold _ensure_admin_exists.
          rewrite find_update_one_same by reflexivity.
          rewrite Hold. cbn [option_map User.password_hash
                             User.set_password_hash].
          fold H. now rewrite String.eqb_refl. }
    split; [exact Hfind'|]. split; [exact Hrole|]. split; [reflexivity|].
    split; [reflexivity|]. split; [exact Hnd'|]. split; [exact Hidem|].
    now apply Hauth.
  - (* the account is created *)
    set (users1 := match List.find has_role_admin users with
                   | Some _ => Cursor.delete_one has_role_admin users
                   | None => users
                   end) in *.
    set (users2 := match List.find has_admin_username users1 with
                   | Some _ => Cursor.delete_one has_admin_username users1
                   | None => users1
                   end) in *.
    set (admin := User.mk "admin_001" admin_username "admin@aida-platform.com"
                    H "admin" true now None None None) in *.
    unfold _save_user in Hens.
    destruct (existsb _ users2) eqn:Hex; [discriminate|].
    inversion Hens; subst users'. clear Hens.
    assert (forall u, In u users2 ->
              String.eqb (User.username u) admin_username = false) as Hfresh.
    { intros u Hu. apply find_existsb in Hex.
      pose proof (List.find_none _ _ Hex u Hu) as E. simpl in E.
      apply orb_false_iff in E. destruct E as [E _].
      apply orb_false_iff in E. tauto. }
    assert (List.NoDup (List.map User.username users2)) as Hnd2.
    { assert (List.NoDup (List.map User.username users1)) as Hnd1.
      { unfold users1. destruct (List.find has_role_admin users);
          [now apply delete_one_nodup | exact Hnd]. }
      unfold users2. destruct (List.find has_admin_username users1);
        [now apply delete_one_nodup | exact Hnd1]. }
    exists admin.
    assert (List.find (fun u => String.eqb (User.username u) admin_username)
                      (users2 ++ [admin]) = Some admin) as Hfind'.
    { apply find_app_last_fresh; [|apply String.eqb_refl].
      apply find_existsb. now apply existsb_none. }
    split; [exact Hfind'|]. split; [reflexivity|]. split; [reflexivity|].
    split; [reflexivity|]. split.
    { apply nodup_app_last; [exact Hnd2|]. intros u Hu E.
      pose proof (Hfresh u Hu) as F. apply String.eqb_neq in F.
      apply F. exact E. }
    split; [|now apply Hauth].
    intro later. unfold _ensure_admin_exists.
    rewrite (find_app_last_fresh is_admin_account users2 admin).
    + cbn [User.password_hash admin]. fold H.
      now rewrite String.eqb_refl.
    + apply find_existsb. apply existsb_none. intros u Hu.
      unfold is_admin_account. now rewrite (Hfresh u Hu).
    + unfold is_admin_account.
      cbn [User.username User.role admin].
      now rewrite !String.eqb_refl.
Qed.

Lemma ensure_admin_exists_resets_password_witness :
  let changed :=
    [SampleAccounts.user "admin_001" "Shamlan321" "other" "admin" false;
     SampleAccounts.user "user_a1" "alice" "pw-a" "user" true] in
  exists users',
    _ensure_admin_exists changed 5 = Some users'
    /\ (forall pw t,
          authenticate_admin users' admin_username pw t
          = (users', mk_auth_result false None "Account is deactivated"))
    /\ _ensure_admin_exists users' 6 = Some users'.
Proof.
  intro changed.
  assert (List.NoDup (List.map User.username changed)) as Hnd
    by (repeat constructor; simpl; intuition discriminate).
  destruct (_ensure_admin_exists changed 5) as [users'|] eqn:E;
    [|vm_compute in E; discriminate].
  assert (List.find is_admin_account changed
          = Some (SampleAccounts.user "admin_001" "Shamlan321" "other" "admin"
                                      false)) as Hold by reflexivity.
  destruct (ensure_admin_exists_resets_password changed users' 5 Hnd E)
    as [admin [_ [_ [_ [Hadmin [_ [Hidem [_ [_ Hlocked]]]]]]]]].
  rewrite Hold in Hadmin.
  exists users'. split; [reflexivity|]. split; [|apply Hidem].
  apply Hlocked. now rewrite Hadmin.
Defined.

End Administrator.

(** ** Accounts: password changes and deactivation *)

Section AccountUpdates.

Import AuthManager.

Lemma update_one_twice {A} (p : A -> bool) (f g : A -> A) l :
  (forall x, p (g x) = p x) ->
  Mongo.update_one p f (Mongo.update_one p g l)
  = Mongo.update_one p (fun x => f (g x)) l.
Proof.
  intro Hg. induction l as [|x r IH]; simpl; [reflexivity|].
  destruct (p x) eqn:Hp; simpl.
  - now rewrite Hg, Hp.
  - now rewrite Hp, IH.
Qed.

Lemma update_one_fixed {A} (p : A -> bool) (h : A -> A) l u :
  List.find p l = Some u -> h u = u -> Mongo.update_one p h l = l.
Proof.
  induction l as [|x r IH]; simpl; [discriminate|].
  destruct (p x).
  - intros [= ->] ->. reflexivity.
  - intros Hf Hh. f_equal. now apply IH.
Qed.

(** X26: [update_admin_password] changes nothing and passes the message of
    [authenticate_admin] on when the current password is not accepted.
    When it is accepted but the new password has the same hash, the answer
    is the failure ["Failed to update password"].  Otherwise the answer is
    a success, after which the new password is accepted for that account
    and the old one is refused (account identifiers unique). *)
Theorem update_admin_password_outcomes (users : list User.t)
    (username current new : string) (now : Z) :
  List.NoDup (List.map User.user_id users) ->
  let auth := authenticate_admin users username current now in
  let result := update_admin_password users username current new now in
  (auth_success (snd auth) = false ->
   result = (users, (false, auth_message (snd auth))))
  /\ (auth_success (snd auth) = true ->
      _hash_password new = _hash_password current ->
      result = (fst auth, (false, "Failed to update password")))
  /\ (auth_success (snd auth) = true ->
      _hash_password new <> _hash_password current ->
      snd result = (true, "Password updated successfully")
      /\ (forall t,
            auth_success
              (snd (authenticate_admin (fst result) username new t)) = true)
      /\ (forall t,
            authenticate_admin (fst result) username current t
            = (fst result,
               mk_auth_result false None "Invalid username or password"))
      /\ List.map User.user_id (fst result) = List.map User.user_id users).
Proof.
  intros Hnd auth result. subst auth result.
  unfold update_admin_password.
  set (by_name := fun x => String.eqb (User.username x) username).
  destruct (List.find by_name users) as [u|] eqn:Hfind.
  2:{ unfold authenticate_admin. fold by_name. rewrite Hfind.
      cbn [fst snd auth_success auth_user auth_message].
      split; [reflexivity|]. split; discriminate. }
  destruct (String.eqb_spec (User.role u) "admin") as [Hrole|Hrole].
  2:{ unfold authenticate_admin. fold by_name. rewrite Hfind.
      apply String.eqb_neq in Hrole. rewrite Hrole.
      cbn [negb fst snd auth_success auth_user auth_message].
      split; [reflexivity|]. split; discriminate. }
  rewrite (authenticate_admin_found users username current now u Hfind Hrole).
  destruct (User.is_active u) eqn:Hact; cbn [negb].
  2:{ cbn [fst snd auth_success auth_user auth_message].
      split; [reflexivity|]. split; discriminate. }
  destruct (String.eqb_spec (_hash_password current) (User.password_hash u))
    as [Hcur|Hcur]; cbn [negb].
  2:{ cbn [fst snd auth_success auth_user auth_message].
      split; [reflexivity|]. split; discriminate. }
  cbn [fst snd auth_success auth_user auth_message].
  (* the account as stored after the authentication *)
  pose proof (List.find_some _ _ Hfind) as [Hin _].
  set (users1 := Mongo.update_one
                   (fun x => String.eqb (User.user_id x) (User.user_id u))
                   (User.set_last_login now) users).
  assert (users1 = Mongo.update_one by_name (User.set_last_login now) users)
    as Husers1
    by exact (update_one_found User.user_id by_name _ users u Hnd Hfind).
  assert (List.find (by_user_id (User.user_id u)) users1
          = Some (User.set_last_login now u)) as Hstored.
  { unfold users1, by_user_id.
    rewrite find_update_one_key by reflexivity.
    rewrite (find_key_unique User.user_id users u Hnd Hin).
    cbn [option_map]. now rewrite String.eqb_refl. }
  assert (List.find by_name users1 = Some (User.set_last_login now u))
    as Hfind1.
  { rewrite Husers1. rewrite find_update_one_same by reflexivity.
    now rewrite Hfind. }
  assert (List.NoDup (List.map User.user_id users1)) as Hnd1.
  { unfold users1. rewrite (update_one_map User.user_id) by reflexivity.
    exact Hnd. }
  rewrite Hstored. cbn [User.password_hash User.set_last_login].
  split; [discriminate|]. split.
  - intros _ Hsame. rewrite <- Hcur, Hsame. now rewrite String.eqb_refl.
  - intros _ Hdiff.
    assert (String.eqb (User.password_hash u) (_hash_password new) = false)
      as ->.
    { apply String.eqb_neq. rewrite <- Hcur. congruence. }
    cbn [fst snd].
    set (g := User.set_password_hash (_hash_password new)).
    assert (Mongo.update_one (by_user_id (User.user_id u)) g users1
            = Mongo.update_one by_name g users1) as Husers2.
    { exact (update_one_found User.user_id by_name g users1
               (User.set_last_login now u) Hnd1 Hfind1). }
    assert (List.find by_name (Mongo.update_one by_name g users1)
            = Some (g (User.set_last_login now u))) as Hfind2.
    { rewrite find_update_one_same by reflexivity. now rewrite Hfind1. }
    split; [reflexivity|]. rewrite Husers2. split; [|split].
    + intro t.
      rewrite (authenticate_admin_found _ username new t _ Hfind2 Hrole).
      cbn [User.is_active User.password_hash g User.set_password_hash
           User.set_last_login].
      rewrite Hact, String.eqb_refl. reflexivity.
    + intro t.
      rewrite (authenticate_admin_found _ username current t _ Hfind2 Hrole).
      cbn [User.is_active User.password_hash g User.set_password_hash
           User.set_last_login].
      rewrite Hact.
      assert (String.eqb (_hash_password current) (_hash_password new)
              = false) as -> by (apply String.eqb_neq; congruence).
      reflexivity.
    + rewrite (update_one_map User.user_id) by reflexivity.
      unfold users1. now rewrite (update_one_map User.user_id) by reflexivity.
Qed.

Lemma update_admin_password_outcomes_witness :
  update_admin_password SampleAccounts.users "Shamlan321" "5h4ml4n321"
                        "5h4ml4n321" 3
  = (fst (authenticate_admin SampleAccounts.users "Shamlan321" "5h4ml4n321" 3),
     (false, "Failed to update password"))
  /\ snd (update_admin_password SampleAccounts.users "Shamlan321" "5h4ml4n321"
                                "better" 3)
     = (true, "Password updated successfully")
  /\ update_admin_password SampleAccounts.users "alice" "pw-a" "better" 3
     = (SampleAccounts.users,
        (false, "Access denied. Admin privileges required.")).
Proof.
  assert (List.NoDup (List.map User.user_id SampleAccounts.users)) as Hnd
    by (repeat constructor; simpl; intuition discriminate).
  assert (auth_success
            (snd (authenticate_admin SampleAccounts.users "Shamlan321"
                    "5h4ml4n321" 3)) = true) as Hok
    by (vm_compute; reflexivity).
  assert (_hash_password "better" <> _hash_password "5h4ml4n321") as Hdiff
    by (vm_compute; discriminate).
  pose proof (update_admin_password_outcomes SampleAccounts.users "Shamlan321"
                "5h4ml4n321" "5h4ml4n321" 3 Hnd) as [_ [Hsame _]].
  pose proof (update_admin_password_outcomes SampleAccounts.users "Shamlan321"
                "5h4ml4n321" "better" 3 Hnd) as [_ [_ Hnew]].
  pose proof (update_admin_password_outcomes SampleAccounts.users "alice"
                "pw-a" "better" 3 Hnd) as [Hdenied _].
  split; [exact (Hsame Hok eq_refl)|].
  split; [exact (proj1 (Hnew Hok Hdiff))|].
  exact (Hdenied eq_refl).
Defined.

(** X27: [deactivate_user] stops new logins of the account and nothing else:
    [authenticate_user] reports the account as deactivated whatever the
    password and answers for other user names as before; no session is
    touched, so the account's open sessions stay valid.  [activate_user]
    undoes it: for an account that was active the users are as before. *)
Theorem deactivate_user_blocks_login_only (users : list User.t)
    (sessions : list AuthSession.t) (user_id : string) (u : User.t) :
  List.NoDup (List.map User.user_id users) ->
  List.NoDup (List.map User.username users) ->
  get_user_by_id users user_id = Some u ->
  let users' := fst (deactivate_user users user_id) in
  (forall pw t,
     authenticate_user users' (User.username u) pw t
     = (users', mk_auth_result false None "Account is deactivated"))
  /\ (forall name pw t,
        name <> User.username u ->
        snd (authenticate_user users' name pw t)
        = snd (authenticate_user users name pw t))
  /\ (forall header now,
        snd (Account.check_session (mk_auth_db users' sessions) header now)
        = snd (Account.check_session (mk_auth_db users sessions) header now)
        /\ user_sessions_collection
             (fst (Account.check_session (mk_auth_db users' sessions)
                     header now))
           = user_sessions_collection
               (fst (Account.check_session (mk_auth_db users sessions)
                       header now)))
  /\ get_user_by_id users' user_id = Some (User.set_is_active false u)
  /\ (User.is_active u = true ->
      fst (activate_user users' user_id) = users).
Proof.
  intros Hid Hname Hget users'. unfold get_user_by_id in Hget.
  pose proof (List.find_some _ _ Hget) as [Hin Hu].
  unfold by_user_id in Hu. apply String.eqb_eq in Hu.
  assert (users' = Mongo.update_one
                     (fun x => String.eqb (User.username x) (User.username u))
                     (User.set_is_active false) users) as Husers'.
  { unfold users', deactivate_user. cbn [fst]. symmetry.
    exact (update_one_found User.username (by_user_id user_id) _ users u
             Hname Hget). }
  assert (forall name,
            List.find (fun x => String.eqb (User.username x) name) users'
            = option_map
                (fun x => if String.eqb (User.username u) name
                          then User.set_is_active false x else x)
                (List.find (fun x => String.eqb (User.username x) name) users))
    as Hfind.
  { intro name. rewrite Husers'. now apply find_update_one_key. }
  split; [|split; [|split; [|split]]].
  - intros pw t. unfold authenticate_user. rewrite Hfind.
    rewrite (find_key_unique User.username users u Hname Hin).
    cbn [option_map]. rewrite String.eqb_refl. reflexivity.
  - intros name pw t Hne. unfold authenticate_user. rewrite Hfind.
    assert (String.eqb (User.username u) name = false) as ->
        by (apply String.eqb_neq; congruence).
    destruct (List.find (fun x => String.eqb (User.username x) name) users)
      as [x|]; [|reflexivity].
    cbn [option_map]. destruct (User.is_active x); [|reflexivity].
    cbn [negb]. destruct (_verify_password pw (User.password_hash x));
      reflexivity.
  - intros header now. unfold Account.check_session.
    cbn [user_sessions_collection users_collection].
    destruct (Account.bearer_token header) as [sid|]; [|split; reflexivity].
    destruct (get_session sessions sid) as [s|]; [|split; reflexivity].
    destruct (AuthSession.is_active s); split; reflexivity.
  - unfold get_user_by_id, users', deactivate_user, by_user_id. cbn [fst].
    rewrite find_update_one_key by reflexivity.
    unfold by_user_id in Hget. rewrite Hget. cbn [option_map].
    now rewrite String.eqb_refl.
  - intro Hact. unfold activate_user, users', deactivate_user. cbn [fst].
    rewrite update_one_twice by reflexivity.
    apply (update_one_fixed _ _ _ u Hget). destruct u. simpl in *.
    now subst.
Qed.

Lemma deactivate_user_blocks_login_only_witness :
  let alice := SampleAccounts.user "user_a1" "alice" "pw-a" "user" true in
  let users' := fst (deactivate_user SampleAccounts.users "user_a1") in
  authenticate_user users' "alice" "pw-a" 4
  = (users', mk_auth_result false None "Account is deactivated")
  /\ fst (activate_user users' "user_a1") = SampleAccounts.users.
Proof.
  intros alice users'.
  assert (List.NoDup (List.map User.user_id SampleAccounts.users)) as Hid
    by (repeat constructor; simpl; intuition discriminate).
  assert (List.NoDup (List.map User.username SampleAccounts.users)) as Hname
    by (repeat constructor; simpl; intuition discriminate).
  destruct (deactivate_user_blocks_login_only SampleAccounts.users []
              "user_a1" alice Hid Hname eq_refl) as [H1 [_ [_ [_ H5]]]].
  split; [exact (H1 "pw-a" 4) | exact (H5 eq_refl)].
Defined.

End AccountUpdates.

(** ** The account routes *)

Section AccountRoutes.

Import AuthManager Account.

Lemma substring_all s : String.substring 0 (String.length s) s = s.
Proof. induction s as [|c r IH]; simpl; [reflexivity | now rewrite IH]. Qed.

Lemma bearer_token_of sid :
  until_space sid = sid ->
  bearer_token (Some (String.append "Bearer " sid)) = Some sid.
Proof.
  intro H. unfold bearer_token. simpl.
  change (String.append EmptyString sid) with sid.
  rewrite Nat.sub_0_r, substring_all, H. now destruct sid.
Qed.

Lemma update_one_app_last {A} (p : A -> bool) (f : A -> A) l x :
  (forall y, In y l -> p y = false) -> p x = true ->
  Mongo.update_one p f (l ++ [x]) = (l ++ [f x])%list.
Proof.
  intros Hl Hx. induction l as [|y r IH]; simpl.
  - now rewrite Hx.
  - rewrite (Hl y) by (simpl; auto). f_equal. apply IH.
    intros z Hz. apply Hl. simpl. auto.
Qed.

Lemma auth_get_session_some sessions sid s :
  get_session sessions sid = Some s ->
  In s sessions /\ AuthSession.session_id s = sid
  /\ AuthSession.is_active s = true.
Proof.
  unfold get_session. intro H. apply List.find_some in H.
  destruct H as [Hin H]. apply andb_true_iff in H. destruct H as [E Ha].
  apply String.eqb_eq in E. auto.
Qed.

Lemma valid_session_get db sid :
  valid_session db sid = get_session (user_sessions_collection db) sid.
Proof.
  unfold valid_session.
  destruct (get_session _ sid) as [s|] eqn:E; [|reflexivity].
  apply auth_get_session_some in E. destruct E as [_ [_ ->]]. reflexivity.
Qed.

Lemma authenticate_user_success users name pw t users1 r :
  authenticate_user users name pw t = (users1, r) ->
  auth_success r = true ->
  exists u,
    List.find (fun x => String.eqb (User.username x) name) users = Some u
    /\ User.is_active u = true
    /\ User.password_hash u = _hash_password pw
    /\ r = mk_auth_result true (Some u) "Authentication successful".
Proof.
  unfold authenticate_user, _verify_password.
  destruct (List.find _ users) as [u|]; [|intros [= <- <-]; discriminate].
  destruct (User.is_active u) eqn:Hact; cbn [negb];
    [|intros [= <- <-]; discriminate].
  destruct (String.eqb_spec (_hash_password pw) (User.password_hash u))
    as [E|E]; cbn [negb]; intros [= <- <-].
  - intros _. exists u. repeat split; congruence.
  - discriminate.
Qed.

(** X28: a successful [/auth/login] answers with the account found for the
    user name, active and with the hash of the password, and with the token
    drawn.  With that token as bearer, [/auth/check_session] answers 200
    with the same account; [/auth/logout] answers 200, leaves the users and
    every other session alone, and ends the session: [/auth/check_session]
    then answers 401 and changes nothing.  Logging out again answers 200
    and changes nothing more. *)
Theorem login_session_lifecycle (db db1 : AuthDb)
    (username password addr ua : string) (env : LoginEnv)
    (message sid uid uname role : string) :
  login db (Some username) (Some password) addr ua env
  = (db1, (LoggedIn message sid uid uname role, 200)) ->
  until_space sid = sid ->
  let header := Some (String.append "Bearer " sid) in
  let out := fst (logout db1 header) in
  sid = login_token env
  /\ (exists u,
        List.find (fun x => String.eqb (User.username x) username)
                  (users_collection db) = Some u
        /\ User.is_active u = true
        /\ User.password_hash u = _hash_password password
        /\ uid = User.user_id u /\ uname = User.username u
        /\ role = User.role u)
  /\ (forall now,
        snd (check_session db1 header now) = (SessionValid uid uname, 200))
  /\ snd (logout db1 header)
     = (AccountSuccess "Logged out successfully", 200)
  /\ users_collection out = users_collection db1
  /\ (forall other,
        other <> sid ->
        get_session (user_sessions_collection out) other
        = get_session (user_sessions_collection db1) other)
  /\ (forall now,
        check_session out header now
        = (out, (AccountError "Invalid or expired session", 401)))
  /\ logout out header
     = (out, (AccountSuccess "Logged out successfully", 200)).
Proof.
  intros Hlogin Hsid header out.
  unfold login in Hlogin.
  destruct (negb (Py.truthy (Some username)) || negb (Py.truthy (Some password)));
    [discriminate|].
  change (default EmptyString (Some username)) with username in Hlogin.
  change (default EmptyString (Some password)) with password in Hlogin.
  destruct (authenticate_user (users_collection db) username password
              (login_time env)) as [users1 r] eqn:Hauth.
  destruct (auth_success r) eqn:Hok.
  2:{ destruct (auth_user r); discriminate. }
  destruct (authenticate_user_success _ _ _ _ _ _ Hauth Hok)
    as [u [Hfind [Hact [Hhash ->]]]].
  cbn [auth_user auth_message] in Hlogin.
  unfold create_user_session in Hlogin.
  destruct (existsb _ (user_sessions_collection db)) eqn:Hex;
    [discriminate|].
  inversion Hlogin; subst db1 sid uid uname role message. clear Hlogin.
  set (token := login_token env) in *.
  set (sessions := user_sessions_collection db) in *.
  set (new := AuthSession.mk token (User.user_id u) (User.username u)
                (login_created env) (login_activity env) true addr ua) in *.
  assert (forall s, In s sessions ->
                    String.eqb (AuthSession.session_id s) token = false)
    as Hfresh.
  { intros s Hs. apply find_existsb in Hex.
    exact (List.find_none _ _ Hex s Hs). }
  assert (bearer_token header = Some token) as Hbearer
    by (apply bearer_token_of; exact Hsid).
  assert (get_session (sessions ++ [new]) token = Some new) as Hget.
  { unfold get_session. apply find_app_last_fresh.
    - apply find_existsb. apply existsb_none. intros s Hs.
      now rewrite (Hfresh s Hs).
    - cbn [AuthSession.session_id AuthSession.is_active new].
      now rewrite String.eqb_refl. }
  assert (invalidate_session (sessions ++ [new]) token
          = (sessions ++ [AuthSession.set_inactive new])%list) as Hinv.
  { unfold invalidate_session. apply update_one_app_last; [exact Hfresh|].
    apply String.eqb_refl. }
  assert (get_session (sessions ++ [AuthSession.set_inactive new]) token
          = None) as Hgone.
  { unfold get_session. rewrite find_app_last_skip.
    - apply find_existsb. apply existsb_none. intros s Hs.
      now rewrite (Hfresh s Hs).
    - cbn [AuthSession.is_active AuthSession.set_inactive].
      apply andb_false_r. }
  assert (out = mk_auth_db users1
                  (sessions ++ [AuthSession.set_inactive new])%list) as Hout.
  { unfold out, logout. rewrite Hbearer.
    cbn [fst users_collection user_sessions_collection]. now rewrite Hinv. }
  split; [reflexivity|].
  split; [exists u; repeat split; assumption || reflexivity|]. split.
  { intro now. unfold check_session. rewrite Hbearer.
    cbn [user_sessions_collection]. rewrite Hget. reflexivity. }
  split; [unfold logout; now rewrite Hbearer|].
  split; [now rewrite Hout|]. split.
  { intros other Hne. rewrite Hout. cbn [user_sessions_collection].
    rewrite <- Hinv. unfold get_session, invalidate_session.
    apply update_one_find_other. intros x Hx. apply String.eqb_eq in Hx.
    cbn [AuthSession.session_id AuthSession.set_inactive].
    rewrite Hx.
    assert (String.eqb token other = false) as ->
        by (apply String.eqb_neq; congruence).
    auto. }
  split.
  { intro now. unfold check_session. rewrite Hbearer. rewrite Hout.
    cbn [user_sessions_collection]. now rewrite Hgone. }
  unfold logout. rewrite Hbearer. rewrite Hout.
  cbn [users_collection user_sessions_collection]. f_equal. f_equal.
  unfold invalidate_session.
  rewrite update_one_app_last;
    [reflexivity | exact Hfresh | apply String.eqb_refl].
Qed.

Lemma login_session_lifecycle_witness :
  let db := mk_auth_db SampleAccounts.users [] in
  let first :=
    login db (Some "alice") (Some "pw-a") "10.0.0.1" "UA-A"
          (SampleAccounts.login_env 5 "tok1") in
  let header := Some "Bearer tok1" in
  snd first = (LoggedIn "Authentication successful" "tok1" "user_a1" "alice"
                        "user", 200)
  /\ snd (check_session (fst first) header 6)
     = (SessionValid "user_a1" "alice", 200)
  /\ snd (check_session (fst (logout (fst first) header)) header 7)
     = (AccountError "Invalid or expired session", 401).
Proof.
  intros db first header.
  assert (first = (fst first,
                   (LoggedIn "Authentication successful" "tok1" "user_a1"
                             "alice" "user", 200))) as Hfirst
    by (vm_compute; reflexivity).
  destruct (login_session_lifecycle _ _ _ _ _ _ _ _ _ _ _ _ Hfirst eq_refl)
    as [_ [_ [Hcheck [_ [_ [_ [Hgone _]]]]]]].
  split; [now rewrite Hfirst|]. split; [exact (Hcheck 6)|].
  change (Some (String.append "Bearer " "tok1")) with header in Hgone.
  now rewrite (Hgone 7).
Defined.

(** X29: [/auth/change_password] with a valid session and both passwords
    given: a wrong current password is answered 401 and nothing changes.
    With the right one the answer is 200; no session is ended, and from
    then on [authenticate_user] accepts the new password for the account
    exactly when the account is active (the route itself does not look at
    that flag) and refuses the old one when its hash differs. *)
Theorem change_password_replaces_password (db : AuthDb)
    (header : option string) (current new sid : string)
    (s : AuthSession.t) (u : User.t) :
  List.NoDup (List.map User.user_id (users_collection db)) ->
  List.NoDup (List.map User.username (users_collection db)) ->
  bearer_token header = Some sid ->
  get_session (user_sessions_collection db) sid = Some s ->
  get_user_by_id (users_collection db) (AuthSession.user_id s) = Some u ->
  current <> EmptyString -> new <> EmptyString ->
  let result := change_password db header (Some current) (Some new) in
  (User.password_hash u <> _hash_password current ->
   result = (db, (AccountError "Current password is incorrect", 401)))
  /\ (User.password_hash u = _hash_password current ->
      snd result = (AccountSuccess "Password changed successfully", 200)
      /\ user_sessions_collection (fst result) = user_sessions_collection db
      /\ (forall t,
            auth_success
              (snd (authenticate_user (users_collection (fst result))
                      (User.username u) new t))
            = User.is_active u)
      /\ (_hash_password new <> _hash_password current ->
          forall t,
            auth_success
              (snd (authenticate_user (users_collection (fst result))
                      (User.username u) current t))
            = false)).
Proof.
  intros Hid Hname Hbearer Hget Huser Hcur Hnew result. subst result.
  unfold change_password. rewrite Hbearer, valid_session_get, Hget.
  apply is_empty_false in Hcur, Hnew. unfold Py.truthy.
  rewrite Hcur, Hnew. cbn [negb orb].
  change (default EmptyString (Some current)) with current.
  change (default EmptyString (Some new)) with new.
  rewrite Huser.
  unfold _verify_password.
  split.
  - intro Hwrong.
    assert (String.eqb (_hash_password current) (User.password_hash u)
            = false) as -> by (apply String.eqb_neq; congruence).
    reflexivity.
  - intro Hright. rewrite Hright, String.eqb_refl.
    cbn [negb update_user_password fst snd users_collection
         user_sessions_collection].
    split; [reflexivity|]. split; [reflexivity|].
    unfold get_user_by_id in Huser.
    pose proof (List.find_some _ _ Huser) as [Hin _].
    set (g := User.set_password_hash (_hash_password new)).
    assert (forall name,
              List.find (fun x => String.eqb (User.username x) name)
                (Mongo.update_one (by_user_id (AuthSession.user_id s)) g
                                  (users_collection db))
              = option_map
                  (fun x => if String.eqb (User.username u) name
                            then g x else x)
                  (List.find (fun x => String.eqb (User.username x) name)
                             (users_collection db))) as Hfind.
    { intro name.
      rewrite <- (update_one_found User.username
                    (by_user_id (AuthSession.user_id s)) g _ u Hname Huser).
      now apply find_update_one_key. }
    split.
    + intro t. unfold authenticate_user. rewrite Hfind.
      rewrite (find_key_unique User.username _ u Hname Hin).
      cbn [option_map]. rewrite String.eqb_refl.
      unfold _verify_password.
      cbn [User.is_active User.password_hash g User.set_password_hash].
      rewrite String.eqb_refl. now destruct (User.is_active u).
    + intros Hdiff t. unfold authenticate_user. rewrite Hfind.
      rewrite (find_key_unique User.username _ u Hname Hin).
      cbn [option_map]. rewrite String.eqb_refl.
      unfold _verify_password.
      cbn [User.is_active User.password_hash g User.set_password_hash].
      assert (String.eqb (_hash_password current) (_hash_password new)
              = false) as -> by (apply String.eqb_neq; congruence).
      now destruct (User.is_active u).
Qed.

Lemma change_password_replaces_password_witness :
  let session := AuthSession.mk "tok2" "user_b2" "bob" 1 1 true "10.0.0.2"
                                "UA-B" in
  let db := mk_auth_db SampleAccounts.users [session] in
  let result :=
    change_password db (Some "Bearer tok2") (Some "pw-b") (Some "new-b") in
  snd result = (AccountSuccess "Password changed successfully", 200)
  /\ auth_success
       (snd (authenticate_user (users_collection (fst result)) "bob" "new-b" 2))
     = false
  /\ change_password db (Some "Bearer tok2") (Some "guess") (Some "new-b")
     = (db, (AccountError "Current password is incorrect", 401)).
Proof.
  intros session db result.
  assert (List.NoDup (List.map User.user_id (users_collection db))) as Hid
    by (repeat constructor; simpl; intuition discriminate).
  assert (List.NoDup (List.map User.username (users_collection db))) as Hname
    by (repeat constructor; simpl; intuition discriminate).
  assert (_hash_password "pw-b" <> _hash_password "guess") as Hguess
    by (vm_compute; discriminate).
  pose proof (change_password_replaces_password db (Some "Bearer tok2")
                "pw-b" "new-b" "tok2" session
                (SampleAccounts.user "user_b2" "bob" "pw-b" "user" false)
                Hid Hname eq_refl eq_refl eq_refl ltac:(discriminate)
                ltac:(discriminate)) as Hright.
  pose proof (change_password_replaces_password db (Some "Bearer tok2")
                "guess" "new-b" "tok2" session
                (SampleAccounts.user "user_b2" "bob" "pw-b" "user" false)
                Hid Hname eq_refl eq_refl eq_refl ltac:(discriminate)
                ltac:(discriminate)) as Hwrong.
  cbv zeta in Hright, Hwrong.
  cbn [SampleAccounts.user User.password_hash User.username User.is_active]
    in Hright, Hwrong.
  destruct Hright as [_ Hright]. destruct Hwrong as [Hwrong _].
  destruct (Hright eq_refl) as [H1 [_ [H3 _]]].
  split; [exact H1|]. split; [exact (H3 2)|].
  exact (Hwrong Hguess).
Defined.

End AccountRoutes.

(** ** Chats of sessions opened without an account *)

Section UnlinkedChats.

Import MongoDBManager MongoDBManagerChats Api.

Lemma init_session_created_unlinked srv req env srv1 sid :
  init_session srv req env
  = (srv1, (SessionInfo sid "New session created successfully." false, 200)) ->
  List.NoDup (session_ids (db srv1)) ->
  exists s, get_session (db srv1) sid = Some s
            /\ UserSession.user_id s = None.
Proof.
  assert (forall r, r = init_session srv req env ->
            forall sid0,
              snd r = (SessionInfo sid0 "New session created successfully."
                                   false, 200) ->
              List.NoDup (session_ids (db (fst r))) ->
              exists s, get_session (db (fst r)) sid0 = Some s
                        /\ UserSession.user_id s = None) as H.
  { intros r ->. pattern (init_session srv req env).
    apply init_session_cases.
    - intros msg code _ sid0 Hr. discriminate.
    - intros url u pw key sb made. split; intros sid0 Hr Hnd;
        [|discriminate].
      cbn [snd] in Hr. inversion Hr; subst sid0. cbn [fst] in *.
      set (doc := created_document url u pw key sb (init_user_agent req)
                    (init_remote_addr req) (new_session_id env)
                    (write_time env)).
      assert (In doc (sessions_collection (db made))) as Hin.
      { unfold made, created_server. cbn [db sessions_collection].
        apply in_or_app. right. left. reflexivity. }
      pose proof (get_session_unique (db made) doc Hnd Hin) as Hget.
      exists doc. split; [exact Hget | reflexivity].
    - intros sid0 password key Hver db1 restored0.
      split; [|split]; intros; discriminate. }
  intros Hinit Hnd. specialize (H _ eq_refl sid).
  rewrite Hinit in H. now apply H.
Qed.

Lemma recent_chats_of_user chats u k limit e :
  u <> EmptyString ->
  In e (get_recent_chats chats (Some u) k limit) ->
  exists c, In c chats /\ e = summary c /\ of_user u c = true.
Proof.
  intros Hu He. unfold get_recent_chats in He. cbv zeta in He.
  apply truthy_some in Hu. rewrite Hu in He.
  change (default EmptyString (Some u)) with u in He.
  rewrite limit_map in He.
  apply in_map_iff in He. destruct He as [c [<- Hc]].
  apply limit_incl in Hc.
  apply (Permutation_in _ (sort_desc_perm _ _)) in Hc.
  apply List.filter_In in Hc. exists c. tauto.
Qed.

(** X30: a session created by [/init_session] carries no platform account, so
    a chat saved for it belongs to nobody: whoever is logged in, the chat
    routes neither return it ([/get_chat] answers 401 or 404), nor list it
    in [/get_recent_chats], nor delete it ([/delete_chat] answers 401 or 404
    and leaves the collection as it is). *)
Theorem chat_of_init_session_unreachable (srv srv1 : Server)
    (req : InitRequest) (env : InitEnv) (sid : string)
    (chats : list Chat.t) (title preview : string) (messages : list string)
    (new_id : string) (created updated : Z) :
  init_session srv req env
  = (srv1, (SessionInfo sid "New session created successfully." false, 200)) ->
  List.NoDup (session_ids (db srv1)) ->
  ~ In new_id (List.map Chat.chat_id chats) ->
  exists chats',
    save_chat (db srv1) chats sid title preview messages new_id created
              updated
    = Some (chats', new_id)
    /\ get_chat_by_id chats' new_id None
       = Some (mk_detail new_id title preview created messages)
    /\ forall (accounts : AuthDb) (header : option string),
         (forall s, In s (user_sessions_collection accounts) ->
                    AuthSession.user_id s <> EmptyString) ->
         In (snd (Account.get_chat accounts chats' header new_id)) [401; 404]
         /\ fst (Account.delete_chat accounts chats' header new_id) = chats'
         /\ In (snd (snd (Account.delete_chat accounts chats' header new_id)))
               [401; 404]
         /\ (forall listed,
               Account.get_recent_chats accounts chats' header
               = (ChatList listed, 200) ->
               ~ In new_id (List.map summary_chat_id listed)).
Proof.
  intros Hinit Hnd Hfresh.
  destruct (init_session_created_unlinked _ _ _ _ _ Hinit Hnd)
    as [s [Hget Hnone]].
  unfold save_chat. rewrite Hget, Hnone.
  set (doc := Chat.mk new_id sid None (UserSession.user_identifier s) title
                preview messages created updated).
  exists (chats ++ [doc])%list. split; [reflexivity|].
  pose proof (chat_filter_fresh chats new_id) as Hf.
  assert (forall u c, u <> EmptyString -> In c (chats ++ [doc]) ->
                      chat_filter new_id (Some u) c = false) as Hall.
  { intros u c Hu Hc. apply in_app_or in Hc.
    destruct Hc as [Hc|[<-|[]]]; [now apply (Hf (Some u))|].
    unfold chat_filter. apply truthy_some in Hu. rewrite Hu.
    unfold of_user. cbn [Chat.user_id doc]. apply andb_false_r. }
  split.
  { unfold get_chat_by_id. rewrite find_app_skip by (now apply Hf).
    cbn [List.find]. unfold chat_filter at 1.
    cbn [Py.truthy Chat.chat_id doc]. now rewrite String.eqb_refl. }
  intros accounts header Hids.
  unfold Account.get_chat, Account.delete_chat, Account.get_recent_chats.
  destruct (Account.bearer_token header) as [token|];
    [|repeat split; simpl; auto; discriminate].
  rewrite valid_session_get.
  destruct (AuthManager.get_session _ token) as [a|] eqn:Ha;
    [|repeat split; simpl; auto; discriminate].
  apply auth_get_session_some in Ha. destruct Ha as [Hin _].
  pose proof (Hids a Hin) as Hu.
  assert (get_chat_by_id (chats ++ [doc]) new_id
            (Some (AuthSession.user_id a)) = None) as Hno.
  { unfold get_chat_by_id.
    destruct (List.find _ _) as [c|] eqn:E; [|reflexivity].
    apply List.find_some in E. destruct E as [Hc E].
    rewrite (Hall _ c Hu Hc) in E. discriminate. }
  assert (delete_chat (chats ++ [doc]) new_id (Some (AuthSession.user_id a))
          = ((chats ++ [doc])%list, false)) as Hdel.
  { unfold delete_chat.
    rewrite delete_one_none by (intros c Hc; now apply Hall).
    now rewrite existsb_none by (intros c Hc; now apply Hall). }
  rewrite Hno, Hdel. cbn [snd fst].
  split; [simpl; auto|]. split; [reflexivity|]. split; [simpl; auto|].
  intros listed [= <-] Hlisted. apply in_map_iff in Hlisted.
  destruct Hlisted as [e [He Hin']].
  destruct (recent_chats_of_user _ _ _ _ _ Hu Hin') as [c [Hc [-> Hof]]].
  cbn [summary_chat_id summary] in He.
  pose proof (Hall _ c Hu Hc) as Hfc. unfold chat_filter in Hfc.
  change (default EmptyString (Some (AuthSession.user_id a)))
    with (AuthSession.user_id a) in Hfc.
  apply truthy_some in Hu. rewrite Hu, He, String.eqb_refl, Hof in Hfc.
  discriminate.
Qed.

Lemma chat_of_init_session_unreachable_witness :
  let first :=
    init_session Sample.fresh_server (Sample.init_request "pw1")
                 (Sample.init_env Sample.now "S1") in
  let accounts :=
    mk_auth_db SampleAccounts.users
      [AuthSession.mk "tok1" "user_a1" "alice" 1 1 true "10.0.0.1" "UA-A"] in
  exists chats',
    save_chat (db (fst first)) [] "S1" "Leads" "list leads" ["q"; "a"] "c1"
              5 6
    = Some (chats', "c1")
    /\ In (snd (Account.get_chat accounts chats' (Some "Bearer tok1") "c1"))
          [401; 404]
    /\ fst (Account.delete_chat accounts chats' (Some "Bearer tok1") "c1")
       = chats'.
Proof.
  intros first accounts.
  assert (first = (fst first,
                   (SessionInfo "S1" "New session created successfully." false,
                    200))) as Hfirst by (vm_compute; reflexivity).
  assert (List.NoDup (session_ids (db (fst first)))) as Hnd.
  { replace (session_ids (db (fst first))) with ["S1"]
      by (vm_compute; reflexivity).
    repeat constructor. simpl. tauto. }
  assert (forall s, In s (user_sessions_collection accounts) ->
                    AuthSession.user_id s <> EmptyString) as Hids.
  { intros s [<-|[]]. discriminate. }
  destruct (chat_of_init_session_unreachable _ _ _ _ _ [] "Leads"
              "list leads" ["q"; "a"] "c1" 5 6 Hfirst Hnd ltac:(simpl; tauto))
    as [chats' [Hsave [_ Hroutes]]].
  exists chats'. split; [exact Hsave|].
  destruct (Hroutes accounts (Some "Bearer tok1") Hids) as [H1 [H2 _]].
  split; [exact H1|]. now rewrite H2.
Defined.

End UnlinkedChats.
